(** * create_build_metadata.py: a shallow embedding and its properties

    The script gathers version information for a DuckDB extension build
    (two git repositories, one built binary, the clock), assembles a
    metadata dictionary and writes it as JSON.  Everything the script
    learns from outside (file existence, subprocess outcomes, the clock,
    the success of directory creation and of opening the output file) is
    read from a [World] record; what the script does to the outside (the
    subprocesses it starts, what it prints, what it writes) is collected in
    a trace of events.  Python exceptions are an explicit result type.

    The world answers as a function of the question: the script asks each
    question (a path, a command line) once in a run.  An existence check
    answers yes or no or raises, as [Path.exists()] does when the path
    cannot be examined.  Standard output accepts what is printed, or
    raises at the write, or (buffered) fails when it is flushed as the
    interpreter exits; standard error is taken to accept every message.
    The exception classes the script names are kept apart, [TypeError]
    too; every other exception is [OtherException]. *)

From Stdlib Require Import List String Ascii NArith ZArith Bool Lia.
Import ListNotations.

Set Implicit Arguments.

(** ** Python strings

    A Python [str] is a sequence of Unicode code points. *)

Definition codepoint := N.
Definition str := list codepoint.

(** String literals of the source are written [lit "..."]. *)
Definition lit (s : string) : str :=
  map N_of_ascii (list_ascii_of_string s).

Fixpoint str_eqb (a b : str) : bool :=
  match a, b with
  | [], [] => true
  | x :: a', y :: b' => N.eqb x y && str_eqb a' b'
  | _, _ => false
  end.

(** Truth value of a string: the empty string is false. *)
Definition truthy (s : str) : bool :=
  match s with [] => false | _ :: _ => true end.

(** [str.isspace] for one character: the code points CPython treats as
    whitespace in [str.strip()] and [str.split()] without argument. *)
Definition is_space (c : codepoint) : bool :=
  ((9 <=? c) && (c <=? 13)            (* \t \n \v \f \r *)
   || (28 <=? c) && (c <=? 32)        (* FS GS RS US and the space *)
   || (c =? 133) || (c =? 160)        (* NEL, no-break space *)
   || (c =? 5760)
   || (8192 <=? c) && (c <=? 8202)
   || (c =? 8232) || (c =? 8233) || (c =? 8239)
   || (c =? 8287) || (c =? 12288))%N.

Fixpoint lstrip (s : str) : str :=
  match s with
  | [] => []
  | c :: s' => if is_space c then lstrip s' else s
  end.

Definition rstrip (s : str) : str := rev (lstrip (rev s)).

(** [s.strip()] *)
Definition strip (s : str) : str := rstrip (lstrip s).

(** [s.split()]: maximal runs of non-whitespace characters.  [cur] holds
    the characters of the run being read, last one first. *)
Fixpoint split_from (cur : str) (s : str) : list str :=
  match s with
  | [] => match cur with [] => [] | _ => [rev cur] end
  | c :: s' =>
      if is_space c
      then match cur with
           | [] => split_from [] s'
           | _ => rev cur :: split_from [] s'
           end
      else split_from (c :: cur) s'
  end.

Definition split (s : str) : list str := split_from [] s.

(** [s.startswith(p)] *)
Fixpoint startswith (s p : str) : bool :=
  match p, s with
  | [], _ => true
  | x :: p', y :: s' => N.eqb x y && startswith s' p'
  | _ :: _, [] => false
  end.

Definition unknown : str := lit "unknown".

(** ** Paths

    [pathlib] paths are kept as the list of components the source joins
    with [/]; what a path denotes on disk is the [World]'s business. *)

Definition Path := list str.

Definition joinpath (p : Path) (c : str) : Path := p ++ [c].

Declare Scope py_scope.
Delimit Scope py_scope with py.
Notation "p // c" := (joinpath p c) (at level 40, left associativity) : py_scope.
Local Open Scope py_scope.

(** ** Subprocesses, exceptions, the clock *)

(** One element of the argument vector given to [subprocess.run]: a
    literal word, or [str(path)]. *)
Inductive arg : Type :=
| Word (s : str)
| PathArg (p : Path).

Record Request : Type := {
  command : list arg;
  cwd : option Path;       (* [cwd=] keyword; [None] when not given *)
  timeout : option Z       (* [timeout=] keyword, in seconds *)
}.

(** What happens to a started subprocess, before [subprocess.run] looks at
    [check=]: it ends with a return code and its captured standard output,
    or starting (or waiting for) it fails. *)
Inductive launch_failure : Type :=
| NoSuchFile       (* FileNotFoundError: no executable, or no [cwd] *)
| NotPermitted     (* PermissionError *)
| TimedOut         (* subprocess.TimeoutExpired; only under a [timeout=] *)
| OtherFailure.    (* any other exception, e.g. another OSError *)

Inductive completion : Type :=
| Exited (returncode : Z) (stdout : str)
| Failed (f : launch_failure).

Inductive exn : Type :=
| CalledProcessError (returncode : Z)
| FileNotFoundError
| PermissionError
| TimeoutExpired
| TypeError
| OtherException
| SystemExit (code : Z).   (* a BaseException, not an Exception *)

(** What can go wrong when a directory is created or a file is opened and
    written: an [OSError]. *)
Inductive io_failure : Type :=
| IoNotPermitted   (* PermissionError *)
| IoNoSuchFile     (* FileNotFoundError *)
| IoOther.         (* any other OSError *)

Definition exn_of_io_failure (f : io_failure) : exn :=
  match f with
  | IoNotPermitted => PermissionError
  | IoNoSuchFile => FileNotFoundError
  | IoOther => OtherException
  end.

Definition exn_of_failure (f : launch_failure) : exn :=
  match f with
  | NoSuchFile => FileNotFoundError
  | NotPermitted => PermissionError
  | TimedOut => TimeoutExpired
  | OtherFailure => OtherException
  end.

(** [isinstance(e, Exception)] *)
Definition is_Exception (e : exn) : bool :=
  match e with SystemExit _ => false | _ => true end.

(** A [datetime.datetime] value (in UTC). *)
Record datetime : Type := {
  year : N; month : N; day : N;
  hour : N; minute : N; second : N;
  microsecond : N
}.

(** ** JSON-serialisable values and dictionaries

    A [dict] keeps its items in insertion order, as Python's does and as
    [json.dump] writes them. *)
Inductive pyval : Type :=
| PyNone
| PyStr (s : str)
| PyEmptyList.     (* the list [[]] *)

Definition dict := list (str * pyval).

(** Truth value: [None], [""] and [[]] are false. *)
Definition truthy_value (v : pyval) : bool :=
  match v with
  | PyStr s => truthy s
  | PyNone | PyEmptyList => false
  end.

(** [x or y] *)
Definition py_or (x y : pyval) : pyval :=
  if truthy_value x then x else y.

(** What [Path.exists()] does: it answers, or it raises when the path
    cannot be examined ([PermissionError], or another [OSError]). *)
Inductive existence : Type :=
| Present
| Absent
| CheckDenied
| CheckFails.

(** Standard output: it accepts what is printed; or it is unbuffered and
    every write raises an [OSError]; or it is buffered, what is printed
    stays in its buffer, and the flush at the exit of the interpreter
    fails. *)
Inductive stream : Type :=
| Accepts
| RaisesOnWrite
| FailsAtExit.

(** ** The outside world and the trace of effects *)

Record World : Type := {
  getcwd : Path;                           (* [Path.cwd()] *)
  path_exists : Path -> existence;         (* [Path.exists()] *)
  run_process : Request -> completion;     (* outcome of a subprocess *)
  utcnow : datetime;                       (* [datetime.now(timezone.utc)] *)
  mkdir_failure : Path -> option io_failure;   (* [mkdir(parents=True, exist_ok=True)] *)
  open_failure : Path -> option io_failure;    (* [open(path, 'w')] and the dump *)
  stdout_stream : stream                       (* [sys.stdout] *)
}.

Inductive message : Type :=
| WarnSubmoduleNotFound (p : Path)   (* "Warning: DuckDB submodule not found at ..." *)
| WarnNotGitRepository               (* "Warning: DuckDB directory is not a git repository" *)
| ErrorCreatingMetadata (e : exn)    (* "Error creating metadata: ..." *)
| CreatedMetadataFile (p : Path)     (* "Created metadata file: ..." *)
| JsonText (d : dict) (indent : N)   (* [json.dumps(d, indent=...)] *)
| HelpText                           (* argparse: the help message *)
| UsageError.                        (* argparse: usage and error message *)

Inductive event : Type :=
| EStat (p : Path)                         (* an existence check *)
| ESpawn (r : Request)                     (* a [subprocess.run] call *)
| EStderr (m : message)
| EStdout (m : message)
| EMkdir (p : Path)
| EWriteJson (p : Path) (d : dict) (indent : N).   (* file opened for writing and dumped *)

(** ** The monad of the script: read the world, log events, maybe raise *)

Inductive res (A : Type) : Type :=
| Ok (a : A)
| Raise (e : exn).
Arguments Ok {A} a.
Arguments Raise {A} e.

Definition M (A : Type) : Type := World -> list event * res A.

Definition ret {A} (a : A) : M A := fun _ => ([], Ok a).

Definition bind {A B} (m : M A) (f : A -> M B) : M B :=
  fun w =>
    let (t1, r) := m w in
    match r with
    | Ok a => let (t2, r2) := f a w in (t1 ++ t2, r2)
    | Raise e => (t1, Raise e)
    end.

Definition raise {A} (e : exn) : M A := fun _ => ([], Raise e).

Definition emit (e : event) : M unit := fun _ => ([e], Ok tt).

Definition ask {A} (f : World -> A) : M A := fun w => ([], Ok (f w)).

(** [try: body  except <classes>: handler] *)
Definition try_except {A} (body : M A) (caught : exn -> bool) (handler : exn -> M A) : M A :=
  fun w =>
    let (t1, r) := body w in
    match r with
    | Ok a => (t1, Ok a)
    | Raise e =>
        if caught e
        then let (t2, r2) := handler e w in (t1 ++ t2, r2)
        else (t1, Raise e)
    end.

Notation "x <- m ;; k" := (bind m (fun x => k))
  (at level 61, m at next level, right associativity) : py_scope.
Notation "m ;;; k" := (bind m (fun _ => k))
  (at level 61, right associativity) : py_scope.

Definition trace {A} (m : M A) (w : World) : list event := fst (m w).
Definition result {A} (m : M A) (w : World) : res A := snd (m w).

(** ** Library calls used by the script *)

Record CompletedProcess : Type := {
  returncode : Z;
  stdout : str
}.

(** [subprocess.run(command, cwd=..., capture_output=True, text=True,
    timeout=..., check=...)] *)
Definition subprocess_run (command : list arg) (cwd : option Path)
    (timeout : option Z) (check : bool) : M CompletedProcess :=
  let req := {| command := command; cwd := cwd; timeout := timeout |} in
  emit (ESpawn req) ;;;
  outcome <- ask (fun w => run_process w req) ;;
  match outcome with
  | Failed f => raise (exn_of_failure f)
  | Exited rc out =>
      if check && negb (rc =? 0)%Z
      then raise (CalledProcessError rc)
      else ret {| returncode := rc; stdout := out |}
  end.

(** [path.exists()] *)
Definition exists_ (p : Path) : M bool :=
  emit (EStat p) ;;;
  answer <- ask (fun w => path_exists w p) ;;
  match answer with
  | Present => ret true
  | Absent => ret false
  | CheckDenied => raise PermissionError
  | CheckFails => raise OtherException
  end.

(** [print(msg, file=sys.stderr)] *)
Definition eprint (m : message) : M unit := emit (EStderr m).

(** [print(msg)]: the event records a message handed to standard output
    (to its buffer, when the stream fails only at the final flush). *)
Definition print (m : message) : M unit :=
  state <- ask stdout_stream ;;
  match state with
  | RaisesOnWrite => raise OtherException
  | Accepts | FailsAtExit => emit (EStdout m)
  end.

(** The operand [v] of [path / v]: a string, or [TypeError]. *)
Definition str_operand (v : pyval) : M str :=
  match v with
  | PyStr s => ret s
  | PyNone | PyEmptyList => raise TypeError
  end.

(** [path.mkdir(parents=True, exist_ok=True)] *)
Definition mkdir (p : Path) : M unit :=
  emit (EMkdir p) ;;;
  failure <- ask (fun w => mkdir_failure w p) ;;
  match failure with
  | Some f => raise (exn_of_io_failure f)
  | None => ret tt
  end.

(** [with open(path, 'w') as f: json.dump(d, f, indent=indent)] *)
Definition write_json (p : Path) (d : dict) (indent : N) : M unit :=
  failure <- ask (fun w => open_failure w p) ;;
  match failure with
  | Some f => raise (exn_of_io_failure f)
  | None => emit (EWriteJson p d indent)
  end.

(** ** The script *)

Definition git (words : list string) : list arg :=
  map (fun s => Word (lit s)) ("git"%string :: words).

(** [run_git_command(cwd, command)]: the stripped output, or ["unknown"]
    when the command exits non-zero or cannot be found. *)
Definition run_git_command (cwd : Path) (command : list arg) : M str :=
  try_except
    (result <- subprocess_run command (Some cwd) None true ;;
     ret (strip (stdout result)))
    (fun e => match e with
              | CalledProcessError _ | FileNotFoundError => true
              | _ => false
              end)
    (fun _ => ret unknown).

Module DuckdbInfo.
Record t : Type := {
  git_describe : str;
  version : str;
  commit : str
}.
End DuckdbInfo.

Module ExtensionInfo.
Record t : Type := {
  version : str;
  commit : str
}.
End ExtensionInfo.

Definition binary_paths (repo_root : Path) (build_type : str) : list Path :=
  [ repo_root // lit "build" // build_type // lit "duckdb";
    repo_root // lit "build" // build_type // lit "duckdb.exe" ].

Definition version_command (binary_path : Path) : list arg :=
  [PathArg binary_path; Word (lit "--version")].

(** The body of the [for binary_path in binary_paths] loop:
    [Some v] when [actual_version] is assigned [v] and the loop is left by
    [break], [None] when the loop goes on. *)
Definition probe_binary (binary_path : Path) : M (option str) :=
  present <- exists_ binary_path ;;
  if present
  then
    try_except
      (result <- subprocess_run (version_command binary_path) None (Some 5%Z) false ;;
       if (returncode result =? 0)%Z && truthy (stdout result)
       then
         let parts := split (strip (stdout result)) in
         match parts with
         | first :: _ => ret (Some first)
         | [] => ret None
         end
       else ret None)
      (fun e => match e with
                | TimeoutExpired | FileNotFoundError | PermissionError => true
                | _ => false
                end)
      (fun _ => ret None)
  else ret None.

Fixpoint probe_binaries (paths : list Path) (actual_version : str) : M str :=
  match paths with
  | [] => ret actual_version
  | binary_path :: rest =>
      found <- probe_binary binary_path ;;
      match found with
      | Some v => ret v
      | None => probe_binaries rest actual_version
      end
  end.

Definition get_duckdb_info (repo_root : Path) (build_type : pyval) : M DuckdbInfo.t :=
  let duckdb_dir := repo_root // lit "duckdb" in
  present <- exists_ duckdb_dir ;;
  if negb present
  then
    eprint (WarnSubmoduleNotFound duckdb_dir) ;;;
    ret {| DuckdbInfo.git_describe := unknown;
           DuckdbInfo.version := unknown;
           DuckdbInfo.commit := unknown |}
  else
    let git_dir := duckdb_dir // lit ".git" in
    present <- exists_ git_dir ;;
    if negb present
    then
      eprint WarnNotGitRepository ;;;
      ret {| DuckdbInfo.git_describe := unknown;
             DuckdbInfo.version := unknown;
             DuckdbInfo.commit := unknown |}
    else
      git_describe <- run_git_command duckdb_dir
                        (git ["describe"; "--tags"; "--always"; "--long"]%string) ;;
      commit <- run_git_command duckdb_dir (git ["rev-parse"; "HEAD"]%string) ;;
      build_type <- str_operand build_type ;;
      actual_version <- probe_binaries (binary_paths repo_root build_type) unknown ;;
      ret {| DuckdbInfo.git_describe := git_describe;
             DuckdbInfo.version := actual_version;
             DuckdbInfo.commit := commit |}.

Definition get_extension_info (repo_root : Path) : M ExtensionInfo.t :=
  tag <- run_git_command repo_root (git ["tag"; "--points-at"; "HEAD"]%string) ;;
  commit <- run_git_command repo_root (git ["rev-parse"; "HEAD"]%string) ;;
  short_commit <- run_git_command repo_root (git ["rev-parse"; "--short"; "HEAD"]%string) ;;
  let version :=
    if truthy tag && negb (str_eqb tag unknown) then tag else short_commit in
  ret {| ExtensionInfo.version := version; ExtensionInfo.commit := commit |}.

(** ** Time stamps *)

Definition chr (a : ascii) : codepoint := N_of_ascii a.

Fixpoint uint_digits (u : Decimal.uint) : str :=
  match u with
  | Decimal.Nil => []
  | Decimal.D0 u' => chr "0" :: uint_digits u'
  | Decimal.D1 u' => chr "1" :: uint_digits u'
  | Decimal.D2 u' => chr "2" :: uint_digits u'
  | Decimal.D3 u' => chr "3" :: uint_digits u'
  | Decimal.D4 u' => chr "4" :: uint_digits u'
  | Decimal.D5 u' => chr "5" :: uint_digits u'
  | Decimal.D6 u' => chr "6" :: uint_digits u'
  | Decimal.D7 u' => chr "7" :: uint_digits u'
  | Decimal.D8 u' => chr "8" :: uint_digits u'
  | Decimal.D9 u' => chr "9" :: uint_digits u'
  end.

(** [str(n)] for a natural number *)
Definition decimal (n : N) : str := uint_digits (N.to_uint n).

(** [s.zfill(width)] for a string of digits *)
Definition zfill (width : nat) (s : str) : str :=
  repeat (chr "0") (width - List.length s) ++ s.

(** One [strftime] directive (the character after [%]).  The C library
    formats the fields: two digits each, and for [%Y] the year as a decimal
    number, which glibc does not pad (other platforms pad to four digits;
    they agree from the year 1000 on). *)
Definition directive (d : codepoint) (dt : datetime) : str :=
  if (d =? chr "Y")%N then decimal (year dt)
  else if (d =? chr "m")%N then zfill 2 (decimal (month dt))
  else if (d =? chr "d")%N then zfill 2 (decimal (day dt))
  else if (d =? chr "H")%N then zfill 2 (decimal (hour dt))
  else if (d =? chr "M")%N then zfill 2 (decimal (minute dt))
  else if (d =? chr "S")%N then zfill 2 (decimal (second dt))
  else if (d =? chr "%")%N then [chr "%"]
  else [chr "%"; d].

(** [dt.strftime(format)], for the directives above. *)
Fixpoint strftime (format : str) (dt : datetime) : str :=
  match format with
  | [] => []
  | c :: rest =>
      if (c =? chr "%")%N
      then match rest with
           | d :: rest' => directive d dt ++ strftime rest' dt
           | [] => [c]
           end
      else c :: strftime rest dt
  end.

Definition is_leap (y : N) : bool :=
  ((y mod 4 =? 0) && (negb (y mod 100 =? 0) || (y mod 400 =? 0)))%N.

Definition days_in_month (y m : N) : N :=
  (if m =? 2 then (if is_leap y then 29 else 28)
   else if (m =? 4) || (m =? 6) || (m =? 9) || (m =? 11) then 30
   else 31)%N.

(** The invariant of the [datetime] class (MINYEAR = 1, MAXYEAR = 9999). *)
Definition valid_datetime (dt : datetime) : bool :=
  ((1 <=? year dt) && (year dt <=? 9999)
   && (1 <=? month dt) && (month dt <=? 12)
   && (1 <=? day dt) && (day dt <=? days_in_month (year dt) (month dt))
   && (hour dt <? 24) && (minute dt <? 60) && (second dt <? 60)
   && (microsecond dt <? 1000000))%N.

(** ** The metadata record *)

(** The [argparse.Namespace] of a successful parse: each attribute
    holds what the parser stored, a string as a rule, or the default
    [None] of an optional option that was not given. *)
Record Namespace : Type := {
  extension_name : pyval;
  build_type : pyval;
  platform : pyval;
  ci_tools_version : pyval;
  workflow_run_id : pyval
}.

Definition build_date_format : str := lit "%Y-%m-%dT%H:%M:%SZ".

(** The dictionary literal of [create_metadata]. *)
Definition metadata_dict (args : Namespace) (extension_info : ExtensionInfo.t)
    (duckdb_info : DuckdbInfo.t) (now : datetime) : dict :=
  [ (lit "extension_name", extension_name args);
    (lit "extension_version", PyStr (ExtensionInfo.version extension_info));
    (lit "extension_commit", PyStr (ExtensionInfo.commit extension_info));
    (lit "duckdb_version", PyStr (DuckdbInfo.version duckdb_info));
    (lit "duckdb_git_describe", PyStr (DuckdbInfo.git_describe duckdb_info));
    (lit "duckdb_commit", PyStr (DuckdbInfo.commit duckdb_info));
    (lit "platform", platform args);
    (lit "build_type", build_type args);
    (lit "build_date", PyStr (strftime build_date_format now));
    (lit "workflow_run_id", py_or (workflow_run_id args) (PyStr (lit "")));
    (lit "ci_tools_version", py_or (ci_tools_version args) (PyStr (lit ""))) ].

Definition create_metadata (args : Namespace) : M Z :=
  repo_root <- ask getcwd ;;
  duckdb_info <- get_duckdb_info repo_root (build_type args) ;;
  extension_info <- get_extension_info repo_root ;;
  now <- ask utcnow ;;
  let metadata := metadata_dict args extension_info duckdb_info now in
  build_type <- str_operand (build_type args) ;;
  let output_dir := repo_root // lit "build" // build_type in
  mkdir output_dir ;;;
  let output_file := output_dir // lit "metadata.json" in
  write_json output_file metadata 2 ;;;
  print (CreatedMetadataFile output_file) ;;;
  print (JsonText metadata 2) ;;;
  ret 0%Z.

(** ** Command-line parsing

    [argparse.ArgumentParser(description=...)] with the five options the
    script adds and the [-h/--help] option the parser adds itself, as
    CPython's [parse_args] treats them: abbreviated long options,
    [--option=value], and no positional arguments.  The functions follow
    [_parse_optional], [_get_option_tuples] and [_parse_known_args] of
    [argparse.py] of CPython 3.11; [type=str] is the identity on the
    strings of the command line. *)

Module Argparse.

Inductive option_id : Type :=
| Help
| ExtensionName
| BuildType
| Platform
| CiToolsVersion
| WorkflowRunId.

(** [parser._option_string_actions], in the order of registration. *)
Definition option_string_actions : list (str * option_id) :=
  [ (lit "-h", Help);
    (lit "--help", Help);
    (lit "--extension-name", ExtensionName);
    (lit "--build-type", BuildType);
    (lit "--platform", Platform);
    (lit "--ci-tools-version", CiToolsVersion);
    (lit "--workflow-run-id", WorkflowRunId) ].

(** [required=True] *)
Definition required (a : option_id) : bool :=
  match a with
  | ExtensionName | BuildType | Platform => true
  | Help | CiToolsVersion | WorkflowRunId => false
  end.

(** [nargs]: the help action takes no argument, a store action one. *)
Definition takes_argument (a : option_id) : bool :=
  match a with Help => false | _ => true end.

Fixpoint lookup (s : str) (table : list (str * option_id)) : option option_id :=
  match table with
  | [] => None
  | (key, a) :: table' => if str_eqb key s then Some a else lookup s table'
  end.

(** [c in s] *)
Definition contains (c : codepoint) (s : str) : bool :=
  existsb (N.eqb c) s.

(** [s.split(c, 1)] when [c in s]: the parts before and after the first [c]. *)
Fixpoint split_once (c : codepoint) (s : str) : option (str * str) :=
  match s with
  | [] => None
  | x :: s' =>
      if (x =? c)%N then Some ([], s')
      else match split_once c s' with
           | Some (before, after) => Some (x :: before, after)
           | None => None
           end
  end.

Definition option_tuple : Type := (option_id * str * option str)%type.

(** [_get_option_tuples(option_string)], for a string of at least two
    characters that starts with [-]. *)
Definition get_option_tuples (option_string : str) : list option_tuple :=
  match option_string with
  | c0 :: c1 :: tail =>
      if (c1 =? chr "-")%N
      then
        let (option_prefix, explicit_arg) :=
          match split_once (chr "=") option_string with
          | Some (before, after) => (before, Some after)
          | None => (option_string, None)
          end in
        flat_map (fun entry : str * option_id =>
                    let (os, a) := entry in
                    if startswith os option_prefix
                    then [(a, os, explicit_arg)] else [])
                 option_string_actions
      else
        let short_option_prefix := [c0; c1] in
        let short_explicit_arg := tail in
        flat_map (fun entry : str * option_id =>
                    let (os, a) := entry in
                    if str_eqb os short_option_prefix
                    then [(a, os, Some short_explicit_arg)]
                    else if startswith os option_string
                    then [(a, os, None)] else [])
                 option_string_actions
  | _ => []
  end.

Section Parser.

(** The characters the regular expression class [\d] accepts. *)
Variable is_decimal_digit : codepoint -> bool.

Definition digits (s : str) : bool := forallb is_decimal_digit s.

(** [_negative_number_matcher]: ['^-\d+$|^-\d*\.\d+$'], where [$] also
    matches just before a final newline. *)
Definition number_body (s : str) : bool :=
  (truthy s && digits s)
  || existsb (fun i =>
                digits (firstn i s)
                && match skipn i s with
                   | dot :: frac => (dot =? chr ".")%N && truthy frac && digits frac
                   | [] => false
                   end)
             (seq 0 (List.length s)).

Definition negative_number_like (s : str) : bool :=
  match s with
  | c0 :: body =>
      (c0 =? chr "-")%N
      && (number_body body
          || match rev body with
             | last :: init => (last =? 10)%N && number_body (rev init)
             | [] => false
             end)
  | [] => false
  end.

(** The three outcomes of [_parse_optional(arg_string)]: [None] (the
    string is an argument), an option tuple (whose action is [None] for
    an unknown option), or the error of an ambiguous abbreviation. *)
Inductive parsed_optional : Type :=
| Positional
| Optional (action : option option_id) (option_string : str)
           (explicit_arg : option str)
| Ambiguous.

Definition after_exact (arg_string : str) : parsed_optional :=
  match get_option_tuples arg_string with
  | _ :: _ :: _ => Ambiguous
  | [(a, os, explicit_arg)] => Optional (Some a) os explicit_arg
  | [] =>
      if negative_number_like arg_string then Positional
      else if contains (chr " ") arg_string then Positional
      else Optional None arg_string None
  end.

Definition parse_optional (arg_string : str) : parsed_optional :=
  match arg_string with
  | [] => Positional
  | c0 :: tail =>
      if negb (c0 =? chr "-")%N then Positional
      else
        match lookup arg_string option_string_actions with
        | Some a => Optional (Some a) arg_string None
        | None =>
            match tail with
            | [] => Positional
            | _ :: _ =>
                match split_once (chr "=") arg_string with
                | Some (option_string, explicit_arg) =>
                    match lookup option_string option_string_actions with
                    | Some a => Optional (Some a) option_string (Some explicit_arg)
                    | None => after_exact arg_string
                    end
                | None => after_exact arg_string
                end
            end
        end
  end.

(** One letter of [arg_strings_pattern]: [A], [-], or [O] with the
    option tuple found at that index. *)
Inductive pattern_item : Type :=
| PA
| PDash
| PO (action : option option_id) (option_string : str)
     (explicit_arg : option str).

(** The first pass over the argument strings; [None] when
    [_parse_optional] reports an ambiguous option. *)
Fixpoint arg_strings_pattern (arg_strings : list str) : option (list pattern_item) :=
  match arg_strings with
  | [] => Some []
  | arg_string :: rest =>
      if str_eqb arg_string (lit "--")
      then Some (PDash :: map (fun _ => PA) rest)
      else
        match parse_optional arg_string with
        | Ambiguous => None
        | Positional => option_map (cons PA) (arg_strings_pattern rest)
        | Optional a os e => option_map (cons (PO a os e)) (arg_strings_pattern rest)
        end
  end.

(** The values stored so far, one per destination; [None] where the
    action has not been taken. *)
Record Stored : Type := {
  stored_extension_name : option pyval;
  stored_build_type : option pyval;
  stored_platform : option pyval;
  stored_ci_tools_version : option pyval;
  stored_workflow_run_id : option pyval
}.

Definition defaults : Stored :=
  {| stored_extension_name := None; stored_build_type := None;
     stored_platform := None; stored_ci_tools_version := None;
     stored_workflow_run_id := None |}.

(** [_get_values(action, [arg_string])] for an option with one
    argument: the first ["--"] is removed from the argument strings; one
    string left is the value, none left gives the empty list. *)
Definition get_values (arg_string : str) : pyval :=
  if str_eqb arg_string (lit "--") then PyEmptyList else PyStr arg_string.

(** The store action: [setattr(namespace, dest, value)]. *)
Definition store (a : option_id) (v : pyval) (ns : Stored) : Stored :=
  match a with
  | Help => ns
  | ExtensionName =>
      {| stored_extension_name := Some v;
         stored_build_type := stored_build_type ns;
         stored_platform := stored_platform ns;
         stored_ci_tools_version := stored_ci_tools_version ns;
         stored_workflow_run_id := stored_workflow_run_id ns |}
  | BuildType =>
      {| stored_extension_name := stored_extension_name ns;
         stored_build_type := Some v;
         stored_platform := stored_platform ns;
         stored_ci_tools_version := stored_ci_tools_version ns;
         stored_workflow_run_id := stored_workflow_run_id ns |}
  | Platform =>
      {| stored_extension_name := stored_extension_name ns;
         stored_build_type := stored_build_type ns;
         stored_platform := Some v;
         stored_ci_tools_version := stored_ci_tools_version ns;
         stored_workflow_run_id := stored_workflow_run_id ns |}
  | CiToolsVersion =>
      {| stored_extension_name := stored_extension_name ns;
         stored_build_type := stored_build_type ns;
         stored_platform := stored_platform ns;
         stored_ci_tools_version := Some v;
         stored_workflow_run_id := stored_workflow_run_id ns |}
  | WorkflowRunId =>
      {| stored_extension_name := stored_extension_name ns;
         stored_build_type := stored_build_type ns;
         stored_platform := stored_platform ns;
         stored_ci_tools_version := stored_ci_tools_version ns;
         stored_workflow_run_id := Some v |}
  end.

(** After [-h] with letters attached: every further letter must itself
    be a short option without argument (only [-h] is one). *)
Fixpoint short_cluster (letters : str) : bool :=
  match letters with
  | [] => true
  | c :: letters' =>
      match lookup [chr "-"; c] option_string_actions with
      | Some a => negb (takes_argument a) && short_cluster letters'
      | None => false
      end
  end.

Definition single_dash (option_string : str) : bool :=
  match option_string with
  | _ :: c1 :: _ => negb (c1 =? chr "-")%N
  | _ => false
  end.

Inductive consumed : Type :=
| HelpExit                     (* the help action ran: [parser.exit()] *)
| ArgumentError                (* [parser.error(...)] *)
| Finished (ns : Stored) (extras : list str).

(** The second pass: options are consumed from left to right, each
    store option with its explicit argument or the next string when
    that is an [A]; with no positional in the parser every other
    string is an extra. *)
Fixpoint consume (items : list (str * pattern_item)) (ns : Stored)
    (extras : list str) : consumed :=
  match items with
  | [] => Finished ns extras
  | (arg_string, PA) :: rest => consume rest ns (extras ++ [arg_string])
  | (arg_string, PDash) :: rest => consume rest ns (extras ++ [arg_string])
  | (arg_string, PO None _ _) :: rest => consume rest ns (extras ++ [arg_string])
  | (_, PO (Some a) option_string (Some explicit_arg)) :: rest =>
      if takes_argument a
      then consume rest (store a (get_values explicit_arg) ns) extras
      else if single_dash option_string && truthy explicit_arg
           then if short_cluster explicit_arg then HelpExit else ArgumentError
           else ArgumentError
  | (_, PO (Some a) _ None) :: rest =>
      if takes_argument a
      then match rest with
           | (value, PA) :: rest' => consume rest' (store a (get_values value) ns) extras
           | _ => ArgumentError
           end
      else HelpExit
  end.

(** [parser.parse_args(argv)]: the namespace, or [SystemExit] with
    status 0 after the help text and 2 after a usage error. *)
Definition parse_args (argv : list str) : M Namespace :=
  match arg_strings_pattern argv with
  | None => eprint UsageError ;;; raise (SystemExit 2)
  | Some pattern =>
      match consume (combine argv pattern) defaults [] with
      | HelpExit => print HelpText ;;; raise (SystemExit 0)
      | ArgumentError => eprint UsageError ;;; raise (SystemExit 2)
      | Finished ns extras =>
          match stored_extension_name ns, stored_build_type ns,
                stored_platform ns with
          | Some name, Some type, Some plat =>
              match extras with
              | [] =>
                  ret {| extension_name := name;
                         build_type := type;
                         platform := plat;
                         ci_tools_version :=
                           match stored_ci_tools_version ns with
                           | Some v => v
                           | None => PyNone
                           end;
                         workflow_run_id :=
                           match stored_workflow_run_id ns with
                           | Some v => v
                           | None => PyNone
                           end |}
              | _ :: _ => eprint UsageError ;;; raise (SystemExit 2)
              end
          | _, _, _ => eprint UsageError ;;; raise (SystemExit 2)
          end
      end
  end.

End Parser.

End Argparse.

(** ** Entry point *)

Definition is_stdout (e : event) : bool :=
  match e with EStdout _ => true | _ => false end.

(** The flush of standard output at the exit of the interpreter fails:
    the stream fails when flushed and something was printed. *)
Definition flush_fails (w : World) (events : list event) : bool :=
  match stdout_stream w with
  | FailsAtExit => existsb is_stdout events
  | Accepts | RaisesOnWrite => false
  end.

Section Script.

Variable is_decimal_digit : codepoint -> bool.

Definition main (argv : list str) : M Z :=
  args <- Argparse.parse_args is_decimal_digit argv ;;
  try_except
    (create_metadata args)
    is_Exception
    (fun e => eprint (ErrorCreatingMetadata e) ;;; ret 1%Z).

(** [sys.exit(main())]: the events of the run and the exit status of
    the process.  An exception other than [SystemExit] that leaves [main]
    ends the process with status 1; when the interpreter exits it flushes
    standard output, and a flush that fails makes the status 120. *)
Definition script (argv : list str) (w : World) : list event * Z :=
  let (events, r) := main argv w in
  let status :=
    match r with
    | Ok status => status
    | Raise (SystemExit status) => status
    | Raise _ => 1%Z
    end in
  (events, if flush_fails w events then 120%Z else status).

End Script.

(** * Vocabulary of the statements *)

(** [core] is [s] without a whitespace-only prefix and suffix. *)
Definition surrounded_by_space (s core : str) : Prop :=
  exists before after,
    s = before ++ core ++ after
    /\ forallb is_space before = true
    /\ forallb is_space after = true.

(** Neither the first nor the last character of [s] is whitespace. *)
Definition no_outer_space (s : str) : Prop :=
  match s with [] => True | c :: _ => is_space c = false end
  /\ match rev s with [] => True | c :: _ => is_space c = false end.

(** The request [run_git_command cwd (git words)] issues. *)
Definition git_request (cwd : Path) (words : list string) : Request :=
  {| command := git words; cwd := Some cwd; timeout := None |}.

(** The request the probe of a built binary issues. *)
Definition version_request (binary_path : Path) : Request :=
  {| command := version_command binary_path; cwd := None; timeout := Some 5%Z |}.

(** What [run_git_command] makes of the outcome of its subprocess. *)
Definition git_value (outcome : completion) : res str :=
  match outcome with
  | Exited rc out => if (rc =? 0)%Z then Ok (strip out) else Ok unknown
  | Failed NoSuchFile => Ok unknown
  | Failed f => Raise (exn_of_failure f)
  end.

(** The command failures [run_git_command] absorbs: a non-zero exit status
    or a missing executable. *)
Definition command_failure (outcome : completion) : Prop :=
  (exists rc out, outcome = Exited rc out /\ rc <> 0%Z)
  \/ outcome = Failed NoSuchFile.

(** ** Concrete worlds, for examples *)

Definition path_eqb (p q : Path) : bool :=
  (List.length p =? List.length q)%nat
  && forallb (fun ab => str_eqb (fst ab) (snd ab)) (combine p q).

Definition arg_eqb (a b : arg) : bool :=
  match a, b with
  | Word s, Word t => str_eqb s t
  | PathArg p, PathArg q => path_eqb p q
  | _, _ => false
  end.

Definition command_eqb (c d : list arg) : bool :=
  (List.length c =? List.length d)%nat
  && forallb (fun ab => arg_eqb (fst ab) (snd ab)) (combine c d).

(** Two requests with the same command line (the script never issues the
    same command line with different keywords). *)
Fixpoint outcome_of (table : list (list arg * completion)) (r : Request) : completion :=
  match table with
  | [] => Failed NoSuchFile
  | (c, o) :: table' => if command_eqb c (command r) then o else outcome_of table' r
  end.

Definition sample_time : datetime :=
  {| year := 2024; month := 5; day := 17;
     hour := 9; minute := 3; second := 41; microsecond := 250 |}.

(** The answer of an existence check in a readable file system with the
    given paths. *)
Definition listed (files : list Path) (p : Path) : existence :=
  if existsb (path_eqb p) files then Present else Absent.

(** A world given by the paths that exist and the outcomes of the
    commands that can be run (any other command is not found); the
    working directory is the path without components, every path can be
    examined, the file system accepts every write and standard output
    every message. *)
Definition world_of (files : list Path) (table : list (list arg * completion)) : World :=
  {| getcwd := [];
     path_exists := listed files;
     run_process := outcome_of table;
     utcnow := sample_time;
     mkdir_failure := fun _ => None;
     open_failure := fun _ => None;
     stdout_stream := Accepts |}.

(** The same world with another standard output. *)
Definition with_stdout (state : stream) (w : World) : World :=
  {| getcwd := getcwd w;
     path_exists := path_exists w;
     run_process := run_process w;
     utcnow := utcnow w;
     mkdir_failure := mkdir_failure w;
     open_failure := open_failure w;
     stdout_stream := state |}.

(** The same world in which the path [denied] cannot be examined. *)
Definition with_denied (denied : Path) (w : World) : World :=
  {| getcwd := getcwd w;
     path_exists := fun p => if path_eqb p denied then CheckDenied else path_exists w p;
     run_process := run_process w;
     utcnow := utcnow w;
     mkdir_failure := mkdir_failure w;
     open_failure := open_failure w;
     stdout_stream := stdout_stream w |}.

(** What an existence check makes of the answer of the world. *)
Definition check_value (answer : existence) : res bool :=
  match answer with
  | Present => Ok true
  | Absent => Ok false
  | CheckDenied => Raise PermissionError
  | CheckFails => Raise OtherException
  end.

(** What the body of the probe loop makes of the outcome of running the
    binary: [Ok (Some v)] assigns [v] and leaves the loop, [Ok None] goes
    on with the next path. *)
Definition probe_value (outcome : completion) : res (option str) :=
  match outcome with
  | Exited rc out =>
      if (rc =? 0)%Z && truthy out
      then match split (strip out) with
           | first :: _ => Ok (Some first)
           | [] => Ok None
           end
      else Ok None
  | Failed OtherFailure => Raise OtherException
  | Failed _ => Ok None
  end.

Definition duckdb_dir (repo_root : Path) : Path := repo_root // lit "duckdb".
Definition git_dir (repo_root : Path) : Path := duckdb_dir repo_root // lit ".git".

Definition describe_request (repo_root : Path) : Request :=
  git_request (duckdb_dir repo_root) ["describe"; "--tags"; "--always"; "--long"]%string.
Definition head_request (dir : Path) : Request :=
  git_request dir ["rev-parse"; "HEAD"]%string.
Definition tag_request (repo_root : Path) : Request :=
  git_request repo_root ["tag"; "--points-at"; "HEAD"]%string.
Definition short_request (repo_root : Path) : Request :=
  git_request repo_root ["rev-parse"; "--short"; "HEAD"]%string.

Definition all_unknown : DuckdbInfo.t :=
  {| DuckdbInfo.git_describe := unknown;
     DuckdbInfo.version := unknown;
     DuckdbInfo.commit := unknown |}.

(** The version [get_extension_info] chooses from the tag and the short
    commit hash. *)
Definition extension_version (tag short_commit : str) : str :=
  if truthy tag && negb (str_eqb tag unknown) then tag else short_commit.

Definition output_dir (w : World) (build_type : str) : Path :=
  getcwd w // lit "build" // build_type.

Definition output_file (w : World) (build_type : str) : Path :=
  output_dir w build_type // lit "metadata.json".

(** The eleven keys of the metadata record, in the order of the record. *)
Definition metadata_keys : list str :=
  map lit [ "extension_name"; "extension_version"; "extension_commit";
            "duckdb_version"; "duckdb_git_describe"; "duckdb_commit";
            "platform"; "build_type"; "build_date";
            "workflow_run_id"; "ci_tools_version" ]%string.

(** [d.get(key)]: the value of the first item with that key. *)
Fixpoint dict_get (key : str) (d : dict) : option pyval :=
  match d with
  | [] => None
  | (k, v) :: d' => if str_eqb k key then Some v else dict_get key d'
  end.

Definition is_write (e : event) : bool :=
  match e with EWriteJson _ _ _ => true | _ => false end.

(** The events of [create_metadata] after the two lookups, when the
    directory can be created, the file written and the two messages
    printed. *)
Definition output_events (w : World) (build_type : str) (metadata : dict) : list event :=
  [ EMkdir (output_dir w build_type);
    EWriteJson (output_file w build_type) metadata 2;
    EStdout (CreatedMetadataFile (output_file w build_type));
    EStdout (JsonText metadata 2) ].

(** What [create_metadata] does after the two lookups, with the record
    [metadata] in hand: it forms the path of the output directory,
    creates it, writes the file and prints the two messages. *)
Definition output_step (w : World) (build_type : pyval) (metadata : dict)
  : list event * res Z :=
  match build_type with
  | PyStr directory =>
      match mkdir_failure w (output_dir w directory) with
      | Some f => ([EMkdir (output_dir w directory)], Raise (exn_of_io_failure f))
      | None =>
          match open_failure w (output_file w directory) with
          | Some f => ([EMkdir (output_dir w directory)], Raise (exn_of_io_failure f))
          | None =>
              match stdout_stream w with
              | RaisesOnWrite =>
                  ([EMkdir (output_dir w directory);
                    EWriteJson (output_file w directory) metadata 2],
                   Raise OtherException)
              | Accepts | FailsAtExit =>
                  (output_events w directory metadata, Ok 0%Z)
              end
          end
      end
  | PyNone | PyEmptyList => ([], Raise TypeError)
  end.

(** What the help action of the parser leaves: the help text on standard
    output and [SystemExit(0)], or the exception of the write. *)
Definition help_action (w : World) : list event * res Namespace :=
  match stdout_stream w with
  | RaisesOnWrite => ([], Raise OtherException)
  | Accepts | FailsAtExit => ([EStdout HelpText], Raise (SystemExit 0))
  end.

(** A run that ends in the help action: the help text and exit status 0
    when standard output takes it, status 120 when the final flush fails,
    status 1 and nothing printed when the write raises. *)
Definition help_run (w : World) : list event * Z :=
  match stdout_stream w with
  | Accepts => ([EStdout HelpText], 0%Z)
  | FailsAtExit => ([EStdout HelpText], 120%Z)
  | RaisesOnWrite => ([], 1%Z)
  end.

(** The exit status of a run that printed its output: 0, or 120 when the
    flush at the exit of the interpreter fails. *)
Definition status_after_output (w : World) : Z :=
  match stdout_stream w with
  | FailsAtExit => 120%Z
  | Accepts | RaisesOnWrite => 0%Z
  end.

(** The ASCII digits, one possible reading of the class [\d]. *)
Definition ascii_digit (c : codepoint) : bool := ((48 <=? c) && (c <=? 57))%N.

Definition sample_argv : list str :=
  map lit [ "--extension-name"; "sqlglot"; "--build-type"; "release";
            "--platform"; "linux_amd64" ]%string.

Definition sample_args : Namespace :=
  {| extension_name := PyStr (lit "sqlglot");
     build_type := PyStr (lit "release");
     platform := PyStr (lit "linux_amd64");
     ci_tools_version := PyNone;
     workflow_run_id := PyNone |}.








(** A world without a [duckdb] directory in which the output directory
    cannot be created. *)
Definition readonly_world : World :=
  {| getcwd := [];
     path_exists := fun _ => Absent;
     run_process := outcome_of [];
     utcnow := sample_time;
     mkdir_failure := fun _ => Some IoNotPermitted;
     open_failure := fun _ => None;
     stdout_stream := Accepts |}.

(** The dependency directory is absent, or is there and has no [.git]
    entry. *)
Definition no_dependency_repository (w : World) : Prop :=
  path_exists w (duckdb_dir (getcwd w)) = Absent
  \/ (path_exists w (duckdb_dir (getcwd w)) = Present
      /\ path_exists w (git_dir (getcwd w)) = Absent).



(** The ways a probe of the binary at [p] fails once the path has been
    examined: the binary is missing (not there, or gone when it is
    started), it does not answer within the timeout, it may not be
    executed, or it exits with a non-zero status. *)
Definition probe_failure (w : World) (p : Path) : Prop :=
  path_exists w p = Absent
  \/ (path_exists w p = Present
      /\ (run_process w (version_request p) = Failed NoSuchFile
          \/ run_process w (version_request p) = Failed TimedOut
          \/ run_process w (version_request p) = Failed NotPermitted
          \/ (exists rc out,
                run_process w (version_request p) = Exited rc out /\ rc <> 0%Z))).

(** The binary at [p] exists, runs, exits with status zero and prints
    [tok] as its first whitespace-separated token. *)
Definition probe_success (w : World) (p : Path) (tok : str) : Prop :=
  path_exists w p = Present
  /\ exists out,
       run_process w (version_request p) = Exited 0 out
       /\ hd_error (split out) = Some tok.

(** The binary at [p] exists and its run does not stop the loop: a
    non-zero exit status, nothing printed (or whitespace only), or one of
    the errors the loop catches. *)
Definition probe_goes_on (w : World) (p : Path) : Prop :=
  (exists rc out, run_process w (version_request p) = Exited rc out
                  /\ (rc <> 0%Z \/ split out = []))
  \/ run_process w (version_request p) = Failed NoSuchFile
  \/ run_process w (version_request p) = Failed TimedOut
  \/ run_process w (version_request p) = Failed NotPermitted.

Definition first_binary (repo_root : Path) (build_type : str) : Path :=
  repo_root // lit "build" // build_type // lit "duckdb".
Definition second_binary (repo_root : Path) (build_type : str) : Path :=
  repo_root // lit "build" // build_type // lit "duckdb.exe".

Definition release : str := lit "release".

(** A checkout with a [duckdb] submodule whose git queries answer, and
    with the built binaries given: [None] for a binary that is not there,
    [Some outcome] for one that is, with the outcome of running it. *)
Definition build_world (first second : option completion) : World :=
  world_of
    ([ [lit "duckdb"]; [lit "duckdb"; lit ".git"] ]
     ++ match first with Some _ => [first_binary [] release] | None => [] end
     ++ match second with Some _ => [second_binary [] release] | None => [] end)
    ([ (git ["describe"; "--tags"; "--always"; "--long"]%string,
        Exited 0 (lit "v1.4.1-0-gb390a7c376" ++ [10%N]));
       (git ["rev-parse"; "HEAD"]%string,
        Exited 0 (lit "b390a7c3760bd95926fe8aefde20d04b349b472e" ++ [10%N])) ]
     ++ match first with
        | Some o => [(version_command (first_binary [] release), o)]
        | None => []
        end
     ++ match second with
        | Some o => [(version_command (second_binary [] release), o)]
        | None => []
        end).

Definition version_output : str :=
  lit "v1.4.1 (Andium) b390a7c376" ++ [10%N].

(** ** What git prints *)

Definition is_hex (c : codepoint) : bool :=
  ((48 <=? c) && (c <=? 57) || (97 <=? c) && (c <=? 102))%N.

(** An abbreviated object name: hexadecimal digits, at least one. *)
Definition is_abbreviated_hash (s : str) : bool :=
  truthy s && forallb is_hex s.

(** In the directory [repo_root], [git rev-parse --short HEAD] either
    fails or prints an abbreviated hash.  This is how git answers inside a
    repository, with a commit checked out or (failing) without one. *)
Definition short_hash_or_failure (w : World) (repo_root : Path) : Prop :=
  forall out,
    run_process w (short_request repo_root) = Exited 0 out ->
    is_abbreviated_hash (strip out) = true.

(** [git tag --points-at HEAD] succeeds and lists no tag. *)
Definition no_tag_at_head (w : World) (repo_root : Path) : Prop :=
  exists out, run_process w (tag_request repo_root) = Exited 0 out /\ strip out = [].

(** A checkout of the extension with the given outcomes of the tag query
    and of the short-hash query. *)
Definition repo_world (tag short : completion) : World :=
  world_of []
    [ (git ["tag"; "--points-at"; "HEAD"]%string, tag);
      (git ["rev-parse"; "HEAD"]%string,
       Exited 0 (lit "4f1d2c9a8b7e6f5a4d3c2b1a0f9e8d7c6b5a4f3e" ++ [10%N]));
      (git ["rev-parse"; "--short"; "HEAD"]%string, short) ].

(** ** Reading a time stamp back *)

Definition digit_value (c : codepoint) : option N :=
  if ascii_digit c then Some (c - 48)%N else None.

(** The number a string of ASCII digits denotes. *)
Definition number_of (s : str) : option N :=
  fold_left (fun acc c =>
               match acc, digit_value c with
               | Some a, Some d => Some (10 * a + d)%N
               | _, _ => None
               end)
            s (Some 0%N).

(** The six fields of a string of the shape [YYYY-MM-DDTHH:MM:SSZ], with
    any characters in the places of the digits. *)
Definition timestamp_fields (s : str) : option (str * str * str * str * str * str) :=
  match s with
  | [y1; y2; y3; y4; dash1; m1; m2; dash2; d1; d2; tee;
     h1; h2; colon1; mi1; mi2; colon2; s1; s2; zed] =>
      if ((dash1 =? chr "-") && (dash2 =? chr "-") && (tee =? chr "T")
          && (colon1 =? chr ":") && (colon2 =? chr ":") && (zed =? chr "Z"))%N
      then Some ([y1; y2; y3; y4], [m1; m2], [d1; d2], [h1; h2], [mi1; mi2], [s1; s2])
      else None
  | _ => None
  end.

(** [s] matches the pattern [YYYY-MM-DDTHH:MM:SSZ]. *)
Definition matches_timestamp_pattern (s : str) : bool :=
  match timestamp_fields s with
  | Some (y, m, d, h, mi, se) => forallb ascii_digit (y ++ m ++ d ++ h ++ mi ++ se)
  | None => false
  end.

(** The UTC instant a string of that pattern denotes, when its fields are
    those of a date and a time of day that exist. *)
Definition parse_timestamp (s : str) : option datetime :=
  match timestamp_fields s with
  | Some (y, m, d, h, mi, se) =>
      match number_of y, number_of m, number_of d,
            number_of h, number_of mi, number_of se with
      | Some y', Some m', Some d', Some h', Some mi', Some se' =>
          let dt := {| year := y'; month := m'; day := d';
                       hour := h'; minute := mi'; second := se';
                       microsecond := 0 |} in
          if valid_datetime dt then Some dt else None
      | _, _, _, _, _, _ => None
      end
  | None => None
  end.

(** The instant [dt] without its fraction of a second. *)
Definition whole_second (dt : datetime) : datetime :=
  {| year := year dt; month := month dt; day := day dt;
     hour := hour dt; minute := minute dt; second := second dt;
     microsecond := 0 |}.

(** [s] is [width] ASCII digits that denote [n]. *)
Definition denotes (width : nat) (s : str) (n : N) : bool :=
  (List.length s =? width)%nat
  && forallb ascii_digit s
  && match number_of s with Some m => (m =? n)%N | None => false end.

(** A reading of the system clock: a [datetime] of the class's range, not
    before 1970, where POSIX time starts. *)
Definition clock_reading (dt : datetime) : bool :=
  valid_datetime dt && (1970 <=? year dt)%N.

(** The record of a run in a directory that is no repository and has no
    [duckdb] directory. *)
Definition sample_record : dict :=
  metadata_dict sample_args
    {| ExtensionInfo.version := unknown; ExtensionInfo.commit := unknown |}
    all_unknown sample_time.

(** ** Options on the command line *)

(** No argument string of [argv] names the option [a]: none is one of its
    option strings, an abbreviation of one, or one of these followed by
    [=value]. *)
Definition omits (is_decimal_digit : codepoint -> bool) (a : Argparse.option_id)
    (argv : list str) : Prop :=
  forall arg_string option_string explicit_arg,
    In arg_string argv ->
    Argparse.parse_optional is_decimal_digit arg_string
    <> Argparse.Optional (Some a) option_string explicit_arg.

(** Some argument string of [argv] names the option [a]. *)
Definition names (is_decimal_digit : codepoint -> bool) (a : Argparse.option_id)
    (argv : list str) : Prop :=
  exists arg_string option_string explicit_arg,
    In arg_string argv
    /\ Argparse.parse_optional is_decimal_digit arg_string
       = Argparse.Optional (Some a) option_string explicit_arg.

(** The first pass of the parser over the argument strings reports no
    ambiguous abbreviation. *)
Definition unambiguous (is_decimal_digit : codepoint -> bool) (argv : list str) : Prop :=
  Argparse.arg_strings_pattern is_decimal_digit argv <> None.

(** [getattr(namespace, dest)] for the destination of [a]. *)
Definition stored_value (a : Argparse.option_id) (ns : Argparse.Stored) : option pyval :=
  match a with
  | Argparse.Help => None
  | Argparse.ExtensionName => Argparse.stored_extension_name ns
  | Argparse.BuildType => Argparse.stored_build_type ns
  | Argparse.Platform => Argparse.stored_platform ns
  | Argparse.CiToolsVersion => Argparse.stored_ci_tools_version ns
  | Argparse.WorkflowRunId => Argparse.stored_workflow_run_id ns
  end.

(** ** Traces *)

(** The events of the two lookups: existence checks, subprocesses and
    messages on standard error. *)
Definition is_lookup_event (e : event) : bool :=
  match e with
  | EStat _ | ESpawn _ | EStderr _ => true
  | _ => false
  end.

(** The requests of the subprocesses started, in the order of the trace. *)
Definition spawned (t : list event) : list Request :=
  flat_map (fun e => match e with ESpawn r => [r] | _ => [] end) t.

(** The messages written to standard error, in the order of the trace. *)
Definition stderr_of (t : list event) : list message :=
  flat_map (fun e => match e with EStderr m => [m] | _ => [] end) t.

(** The paths whose existence was checked, in the order of the trace. *)
Definition checked (t : list event) : list Path :=
  flat_map (fun e => match e with EStat p => [p] | _ => [] end) t.

(** [s] is [l] with some elements left out. *)
Inductive subseq {A : Type} : list A -> list A -> Prop :=
| subseq_nil : forall l, subseq [] l
| subseq_skip : forall x s l, subseq s l -> subseq s (x :: l)
| subseq_take : forall x s l, subseq s l -> subseq (x :: s) (x :: l).

(** The runs of the two candidate binaries; there are none when the
    build type is no string, the paths cannot be formed then. *)
Definition version_requests (repo_root : Path) (build_type : pyval) : list Request :=
  match build_type with
  | PyStr directory =>
      [ version_request (first_binary repo_root directory);
        version_request (second_binary repo_root directory) ]
  | PyNone | PyEmptyList => []
  end.

(** Every subprocess a run may start, in the order in which the script
    comes to them. *)
Definition known_requests (repo_root : Path) (build_type : pyval) : list Request :=
  [ describe_request repo_root;
    head_request (duckdb_dir repo_root) ]
  ++ version_requests repo_root build_type
  ++ [ tag_request repo_root;
       head_request repo_root;
       short_request repo_root ].

(** ** Command lines *)

(** A value that can follow an option as a separate argument string: it
    does not start with a dash. *)
Definition plain (v : str) : bool :=
  match v with
  | [] => true
  | c :: _ => negb (c =? chr "-")%N
  end.

(** A required option has a plain string as its value. *)
Definition plain_required (v : pyval) : bool :=
  match v with PyStr s => plain s | PyNone | PyEmptyList => false end.

(** An optional option has a plain string as its value, or is not
    given. *)
Definition plain_optional (v : pyval) : bool :=
  match v with PyStr s => plain s | PyNone => true | PyEmptyList => false end.

(** The option with its value as the next argument string; nothing for
    an option that is not given. *)
Definition option_pair (option_string : string) (v : pyval) : list str :=
  match v with
  | PyStr s => [lit option_string; s]
  | PyNone | PyEmptyList => []
  end.

(** The command line that gives each option with its value as the next
    argument string. *)
Definition command_line (args : Namespace) : list str :=
  option_pair "--extension-name" (extension_name args)
  ++ option_pair "--build-type" (build_type args)
  ++ option_pair "--platform" (platform args)
  ++ option_pair "--ci-tools-version" (ci_tools_version args)
  ++ option_pair "--workflow-run-id" (workflow_run_id args).

(** [x or ""] gives back a string as it is, and [""] for [None]. *)
Definition given_or_empty (x : pyval) : str :=
  match x with PyStr s => s | PyNone | PyEmptyList => [] end.

(** ** More concrete worlds *)

(** A build directory with a working binary but no [duckdb] directory. *)
Definition binary_only_world : World :=
  world_of [first_binary [] release]
           [(version_command (first_binary [] release), Exited 0 version_output)].

(** A checkout with the [duckdb] submodule and a working binary, on a
    machine without git. *)
Definition gitless_world : World :=
  world_of [ [lit "duckdb"]; [lit "duckdb"; lit ".git"]; first_binary [] release ]
           [(version_command (first_binary [] release), Exited 0 version_output)].

(** The warning of [get_duckdb_info], if any. *)
Definition repository_warning (w : World) (repo_root : Path) : list message :=
  match path_exists w (duckdb_dir repo_root) with
  | Absent => [WarnSubmoduleNotFound (duckdb_dir repo_root)]
  | Present =>
      match path_exists w (git_dir repo_root) with
      | Absent => [WarnNotGitRepository]
      | Present | CheckDenied | CheckFails => []
      end
  | CheckDenied | CheckFails => []
  end.

(** An exception of a lookup: of the dependency lookup, or, when that
    returns, of the extension lookup. *)
Definition lookup_raises (w : World) (args : Namespace) (e : exn) : Prop :=
  result (get_duckdb_info (getcwd w) (build_type args)) w = Raise e
  \/ ((exists duckdb_info,
          result (get_duckdb_info (getcwd w) (build_type args)) w = Ok duckdb_info)
      /\ result (get_extension_info (getcwd w)) w = Raise e).

(** A checkout in which git may not be executed. *)
Definition forbidden_git_world : World :=
  repo_world (Failed NotPermitted) (Failed NotPermitted).

(** Two tags at the current commit. *)
Definition two_tags : str := lit "v1.2.0" ++ [10%N] ++ lit "nightly".

(** The fields of a record that come from the command line. *)
Definition carries_arguments (args : Namespace) (d : dict) : Prop :=
  dict_get (lit "extension_name") d = Some (extension_name args)
  /\ dict_get (lit "build_type") d = Some (build_type args)
  /\ dict_get (lit "platform") d = Some (platform args)
  /\ dict_get (lit "ci_tools_version") d
     = Some (PyStr (given_or_empty (ci_tools_version args)))
  /\ dict_get (lit "workflow_run_id") d
     = Some (PyStr (given_or_empty (workflow_run_id args))).

(** The values of a namespace are strings that can follow their options
    as separate argument strings, the optional ones possibly not given. *)
Definition plain_values (args : Namespace) : bool :=
  plain_required (extension_name args) && plain_required (build_type args)
  && plain_required (platform args)
  && plain_optional (ci_tools_version args) && plain_optional (workflow_run_id args).

Definition full_args : Namespace :=
  {| extension_name := PyStr (lit "sqlglot");
     build_type := PyStr (lit "release");
     platform := PyStr (lit "osx_arm64");
     ci_tools_version := PyStr (lit "v1.4.1");
     workflow_run_id := PyStr [] |}.

(** No character of [s] is whitespace. *)
Definition no_space (s : str) : Prop :=
  forallb (fun c => negb (is_space c)) s = true.

(** Where the looked-up fields of a record come from. *)
Definition fed_by_lookups (w : World) (duckdb_info : DuckdbInfo.t)
    (extension_info : ExtensionInfo.t) (d : dict) : Prop :=
  dict_get (lit "extension_version") d = Some (PyStr (ExtensionInfo.version extension_info))
  /\ dict_get (lit "extension_commit") d = Some (PyStr (ExtensionInfo.commit extension_info))
  /\ dict_get (lit "duckdb_version") d = Some (PyStr (DuckdbInfo.version duckdb_info))
  /\ dict_get (lit "duckdb_git_describe") d
     = Some (PyStr (DuckdbInfo.git_describe duckdb_info))
  /\ dict_get (lit "duckdb_commit") d = Some (PyStr (DuckdbInfo.commit duckdb_info)).

(** A world in which the output file cannot be opened. *)
Definition unwritable_world : World :=
  {| getcwd := [];
     path_exists := fun _ => Absent;
     run_process := outcome_of [];
     utcnow := sample_time;
     mkdir_failure := fun _ => None;
     open_failure := fun _ => Some IoNotPermitted;
     stdout_stream := Accepts |}.

(** * Properties *)

Unset Implicit Arguments.

(** ** Strings *)

Lemma str_eqb_eq (a b : str) : str_eqb a b = true <-> a = b.
Proof.
  revert b; induction a as [|x a IH]; intros [|y b]; simpl;
    try (split; [discriminate | congruence]); try tauto.
  rewrite andb_true_iff, N.eqb_eq, IH.
  split; [intros [-> ->]; reflexivity | intros H; inversion H; auto].
Qed.

Lemma str_eqb_refl (a : str) : str_eqb a a = true.
Proof. apply str_eqb_eq; reflexivity. Qed.

Lemma str_eqb_neq (a b : str) : str_eqb a b = false <-> a <> b.
Proof.
  rewrite <- str_eqb_eq. destruct (str_eqb a b); split; congruence.
Qed.

Lemma lstrip_spec (s : str) :
  exists before,
    s = before ++ lstrip s
    /\ forallb is_space before = true
    /\ match lstrip s with [] => True | c :: _ => is_space c = false end.
Proof.
  induction s as [|c s (before & Hs & Hb & Hc)]; simpl.
  - exists []; auto.
  - destruct (is_space c) eqn:E.
    + exists (c :: before); simpl; rewrite E, Hb, <- Hs; auto.
    + exists []; simpl; auto.
Qed.

Lemma strip_spec (s : str) :
  surrounded_by_space s (strip s) /\ no_outer_space (strip s).
Proof.
  unfold strip, rstrip.
  destruct (lstrip_spec s) as (before & Hs & Hb & Hc).
  destruct (lstrip_spec (rev (lstrip s))) as (after & Hr & Ha & Hd).
  set (middle := lstrip (rev (lstrip s))) in *.
  assert (Hl : lstrip s = rev middle ++ rev after).
  { rewrite <- rev_app_distr, <- Hr, rev_involutive; reflexivity. }
  split.
  - exists before, (rev after); repeat split; auto.
    + rewrite <- Hl; exact Hs.
    + rewrite forallb_forall in *; intros x Hx; apply Ha, in_rev, Hx.
  - split.
    + rewrite Hl in Hc. destruct (rev middle); simpl in *; auto.
    + rewrite rev_involutive; exact Hd.
Qed.

(** Every token of [split] is a non-empty run of non-whitespace. *)
Lemma split_from_tokens (s cur : str) :
  forallb (fun c => negb (is_space c)) cur = true ->
  Forall (fun tok => tok <> [] /\ forallb (fun c => negb (is_space c)) tok = true)
         (split_from cur s).
Proof.
  revert cur; induction s as [|c s IH]; intros cur Hcur; simpl.
  - destruct cur as [|x cur]; constructor; auto.
    assert (Hrev : forallb (fun c => negb (is_space c)) (rev (x :: cur)) = true).
    { rewrite forallb_forall in *; intros y Hy; apply Hcur, in_rev, Hy. }
    split; auto.
    intros E; apply (f_equal (@List.length _)) in E.
    rewrite length_rev in E; discriminate.
  - destruct (is_space c) eqn:E.
    + destruct cur as [|x cur]; [apply IH; reflexivity|].
      constructor; [|apply IH; reflexivity].
      assert (Hrev : forallb (fun c => negb (is_space c)) (rev (x :: cur)) = true).
      { rewrite forallb_forall in *; intros y Hy; apply Hcur, in_rev, Hy. }
      split; auto.
      intros E'; apply (f_equal (@List.length _)) in E'.
      rewrite length_rev in E'; discriminate.
    + apply IH; simpl; rewrite E, Hcur; reflexivity.
Qed.

Lemma split_tokens (s : str) :
  Forall (fun tok => tok <> [] /\ forallb (fun c => negb (is_space c)) tok = true)
         (split s).
Proof. apply split_from_tokens; reflexivity. Qed.

(** The first token, when there is one, is a non-empty run of
    non-whitespace. *)
Lemma first_token (s tok : str) :
  hd_error (split s) = Some tok ->
  tok <> [] /\ forallb (fun c => negb (is_space c)) tok = true.
Proof.
  pose proof (split_tokens s) as H.
  destruct (split s) as [|first parts]; [discriminate|].
  intros E; inversion E; subst. inversion H; assumption.
Qed.

(** A string of whitespace only has no token. *)
Lemma split_from_blank (s : str) :
  forallb is_space s = true -> split_from [] s = [].
Proof.
  induction s as [|c s IH]; simpl; auto.
  intros H; apply andb_true_iff in H as [-> H]; auto.
Qed.

Lemma split_from_skip_blank (before s : str) :
  forallb is_space before = true ->
  split_from [] (before ++ s) = split_from [] s.
Proof.
  induction before as [|c before IH]; simpl; auto.
  intros H; apply andb_true_iff in H as [-> H]; auto.
Qed.

Lemma split_from_blank_end (s after cur : str) :
  forallb is_space after = true ->
  split_from cur (s ++ after) = split_from cur s.
Proof.
  intros Hafter. revert cur; induction s as [|c s IH]; intros cur; simpl.
  - destruct after as [|a after]; simpl; [reflexivity|].
    simpl in Hafter; apply andb_true_iff in Hafter as [-> Hafter].
    rewrite (split_from_blank after Hafter). destruct cur; reflexivity.
  - destruct (is_space c); [destruct cur|]; rewrite ?IH; reflexivity.
Qed.

(** Stripping a string first does not change its tokens. *)
Lemma split_strip (s : str) : split (strip s) = split s.
Proof.
  destruct (strip_spec s) as [(before & after & Hs & Hb & Ha) _].
  unfold split. rewrite Hs at 2.
  rewrite (split_from_skip_blank before _ Hb).
  rewrite (split_from_blank_end _ after [] Ha). reflexivity.
Qed.

(** A string without a token is whitespace only. *)
Lemma split_from_none (s cur : str) :
  split_from cur s = [] -> cur = [] /\ forallb is_space s = true.
Proof.
  revert cur; induction s as [|c s IH]; intros cur; simpl.
  - destruct cur; [auto | discriminate].
  - destruct (is_space c) eqn:E.
    + destruct cur; [|discriminate]. intros H; apply IH in H as [_ H]; auto.
    + intros H; apply IH in H as [H _]; discriminate.
Qed.

Lemma split_blank (s : str) : split s = [] <-> forallb is_space s = true.
Proof.
  split; [intros H; apply (split_from_none s [] H) | apply split_from_blank].
Qed.

(** A string with a token is not empty. *)
Lemma split_truthy (s : str) : split s <> [] -> truthy s = true.
Proof. destruct s; [intros H; destruct H|]; reflexivity. Qed.

(** ** Computation rules of the script's functions *)

Lemma run_git_command_run (w : World) (cwd : Path) (command : list arg) :
  let req := {| command := command; cwd := Some cwd; timeout := None |} in
  run_git_command cwd command w = ([ESpawn req], git_value (run_process w req)).
Proof.
  unfold run_git_command, try_except, subprocess_run, bind, emit, ask, git_value.
  simpl.
  destruct (run_process w _) as [rc out | f]; simpl.
  - destruct (rc =? 0)%Z; reflexivity.
  - destruct f; reflexivity.
Qed.

Lemma exists_run (w : World) (p : Path) :
  exists_ p w = ([EStat p], check_value (path_exists w p)).
Proof.
  unfold exists_, bind, emit, ask, check_value. simpl.
  destruct (path_exists w p); reflexivity.
Qed.

Lemma probe_binary_run (w : World) (p : Path) :
  probe_binary p w =
    match check_value (path_exists w p) with
    | Ok true => ([EStat p; ESpawn (version_request p)],
                  probe_value (run_process w (version_request p)))
    | Ok false => ([EStat p], Ok None)
    | Raise e => ([EStat p], Raise e)
    end.
Proof.
  unfold probe_binary. unfold bind at 1. rewrite exists_run.
  destruct (check_value (path_exists w p)) as [[|]|e]; [|reflexivity|reflexivity].
  unfold try_except, subprocess_run, bind, emit, ask, probe_value, version_request.
  simpl.
  destruct (run_process w _) as [rc out | f]; simpl.
  - destruct ((rc =? 0)%Z && truthy out); simpl; [|reflexivity].
    destruct (split (strip out)); reflexivity.
  - destruct f; reflexivity.
Qed.

Lemma probe_binaries_nil (w : World) (v : str) :
  probe_binaries [] v w = ([], Ok v).
Proof. reflexivity. Qed.

Lemma probe_binaries_cons (w : World) (p : Path) (rest : list Path) (v : str) :
  probe_binaries (p :: rest) v w =
    match probe_binary p w with
    | (t1, Ok (Some found)) => (t1, Ok found)
    | (t1, Ok None) =>
        let (t2, r) := probe_binaries rest v w in (t1 ++ t2, r)
    | (t1, Raise e) => (t1, Raise e)
    end.
Proof.
  simpl. unfold bind at 1.
  destruct (probe_binary p w) as [t1 [[found|]|e]]; simpl;
    rewrite ?app_nil_r; reflexivity.
Qed.

Lemma get_duckdb_info_run (w : World) (repo_root : Path) (build_type : pyval) :
  get_duckdb_info repo_root build_type w =
    match check_value (path_exists w (duckdb_dir repo_root)) with
    | Raise e => ([EStat (duckdb_dir repo_root)], Raise e)
    | Ok false =>
        ([EStat (duckdb_dir repo_root);
          EStderr (WarnSubmoduleNotFound (duckdb_dir repo_root))], Ok all_unknown)
    | Ok true =>
        let checks := [EStat (duckdb_dir repo_root); EStat (git_dir repo_root)] in
        match check_value (path_exists w (git_dir repo_root)) with
        | Raise e => (checks, Raise e)
        | Ok false => (checks ++ [EStderr WarnNotGitRepository], Ok all_unknown)
        | Ok true =>
            match git_value (run_process w (describe_request repo_root)) with
            | Raise e => (checks ++ [ESpawn (describe_request repo_root)], Raise e)
            | Ok git_describe =>
                let queries := [ESpawn (describe_request repo_root);
                                ESpawn (head_request (duckdb_dir repo_root))] in
                match git_value (run_process w (head_request (duckdb_dir repo_root))) with
                | Raise e => (checks ++ queries, Raise e)
                | Ok commit =>
                    match build_type with
                    | PyStr directory =>
                        let (probes, r) :=
                          probe_binaries (binary_paths repo_root directory) unknown w in
                        (checks ++ queries ++ probes,
                         match r with
                         | Ok actual_version =>
                             Ok {| DuckdbInfo.git_describe := git_describe;
                                   DuckdbInfo.version := actual_version;
                                   DuckdbInfo.commit := commit |}
                         | Raise e => Raise e
                         end)
                    | PyNone | PyEmptyList => (checks ++ queries, Raise TypeError)
                    end
                end
            end
        end
    end.
Proof.
  unfold get_duckdb_info.
  fold (duckdb_dir repo_root). fold (git_dir repo_root).
  unfold bind at 1. rewrite exists_run.
  destruct (check_value (path_exists w (duckdb_dir repo_root))) as [[|]|e];
    [|reflexivity|reflexivity].
  cbn [negb]. cbv iota.
  unfold bind at 1. rewrite exists_run.
  destruct (check_value (path_exists w (git_dir repo_root))) as [[|]|e];
    [|reflexivity|reflexivity].
  cbn [negb]. cbv iota.
  unfold bind at 1. rewrite run_git_command_run.
  change {| command := git ["describe"; "--tags"; "--always"; "--long"]%string;
            cwd := Some (duckdb_dir repo_root); timeout := None |}
    with (describe_request repo_root).
  destruct (git_value (run_process w (describe_request repo_root))) as [gd|e];
    [|reflexivity].
  unfold bind at 1. rewrite run_git_command_run.
  change {| command := git ["rev-parse"; "HEAD"]%string;
            cwd := Some (duckdb_dir repo_root); timeout := None |}
    with (head_request (duckdb_dir repo_root)).
  destruct (git_value (run_process w (head_request (duckdb_dir repo_root)))) as [c|e];
    [|reflexivity].
  destruct build_type as [|directory|]; [reflexivity| |reflexivity].
  unfold bind at 1. unfold str_operand, ret. cbv beta iota.
  unfold bind at 1.
  destruct (probe_binaries (binary_paths repo_root directory) unknown w)
    as [probes [v|e]]; simpl; rewrite ?app_nil_r; reflexivity.
Qed.

Lemma get_extension_info_run (w : World) (repo_root : Path) :
  get_extension_info repo_root w =
    match git_value (run_process w (tag_request repo_root)) with
    | Raise e => ([ESpawn (tag_request repo_root)], Raise e)
    | Ok tag =>
        match git_value (run_process w (head_request repo_root)) with
        | Raise e =>
            ([ESpawn (tag_request repo_root); ESpawn (head_request repo_root)], Raise e)
        | Ok commit =>
            ([ESpawn (tag_request repo_root); ESpawn (head_request repo_root);
              ESpawn (short_request repo_root)],
             match git_value (run_process w (short_request repo_root)) with
             | Raise e => Raise e
             | Ok short_commit =>
                 Ok {| ExtensionInfo.version := extension_version tag short_commit;
                       ExtensionInfo.commit := commit |}
             end)
        end
    end.
Proof.
  unfold get_extension_info.
  unfold bind at 1. rewrite run_git_command_run.
  change {| command := git ["tag"; "--points-at"; "HEAD"]%string;
            cwd := Some repo_root; timeout := None |} with (tag_request repo_root).
  destruct (git_value (run_process w (tag_request repo_root))) as [tag|e];
    [|reflexivity].
  unfold bind at 1. rewrite run_git_command_run.
  change {| command := git ["rev-parse"; "HEAD"]%string;
            cwd := Some repo_root; timeout := None |} with (head_request repo_root).
  destruct (git_value (run_process w (head_request repo_root))) as [commit|e];
    [|reflexivity].
  unfold bind at 1. rewrite run_git_command_run.
  change {| command := git ["rev-parse"; "--short"; "HEAD"]%string;
            cwd := Some repo_root; timeout := None |} with (short_request repo_root).
  destruct (git_value (run_process w (short_request repo_root))) as [short|e];
    reflexivity.
Qed.

Lemma probe_binaries_two (w : World) (p q : Path) (v : str) :
  probe_binaries [p; q] v w =
    match probe_binary p w with
    | (t1, Ok (Some found)) => (t1, Ok found)
    | (t1, Ok None) =>
        match probe_binary q w with
        | (t2, Ok (Some found)) => (t1 ++ t2, Ok found)
        | (t2, Ok None) => (t1 ++ t2, Ok v)
        | (t2, Raise e) => (t1 ++ t2, Raise e)
        end
    | (t1, Raise e) => (t1, Raise e)
    end.
Proof.
  rewrite probe_binaries_cons.
  destruct (probe_binary p w) as [t1 [[found|]|e]]; try reflexivity.
  rewrite probe_binaries_cons, probe_binaries_nil.
  destruct (probe_binary q w) as [t2 [[found|]|e]]; rewrite ?app_nil_r; reflexivity.
Qed.

(** Evaluate the probe loop of [get_duckdb_info] by cases on what it asks
    the world. *)
Ltac run_probes w repo_root directory :=
  change (binary_paths repo_root directory)
    with [first_binary repo_root directory; second_binary repo_root directory];
  rewrite probe_binaries_two, !probe_binary_run;
  destruct (path_exists w (first_binary repo_root directory)) eqn:Hfirst;
  cbn [check_value];
  [ destruct (probe_value (run_process w
                (version_request (first_binary repo_root directory))))
      as [[found1|]|e1] eqn:Hprobe1
  | | | ];
  try (destruct (path_exists w (second_binary repo_root directory)) eqn:Hsecond;
       cbn [check_value];
       [ destruct (probe_value (run_process w
                     (version_request (second_binary repo_root directory))))
           as [[found2|]|e2] eqn:Hprobe2
       | | | ]).

(** Evaluate [get_duckdb_info] by cases on everything it asks the world
    before the probe loop. *)
Ltac run_duckdb_queries w repo_root :=
  rewrite get_duckdb_info_run;
  destruct (path_exists w (duckdb_dir repo_root)) eqn:Hdir; cbn [check_value];
  [ destruct (path_exists w (git_dir repo_root)) eqn:Hgit; cbn [check_value];
    [ cbv zeta;
      destruct (git_value (run_process w (describe_request repo_root)))
        as [git_describe | e_describe] eqn:Hdescribe;
      [ destruct (git_value (run_process w (head_request (duckdb_dir repo_root))))
          as [commit | e_head] eqn:Hhead
      | ]
    | | | ]
  | | | ].

(** Evaluate [get_duckdb_info], given a build type that is a variable. *)
Ltac run_duckdb_info w repo_root build_type :=
  run_duckdb_queries w repo_root;
  [ let directory := fresh "directory" in
    destruct build_type as [|directory|];
    [ | run_probes w repo_root directory | ]
  | .. ].

(** The lookups only check paths, start subprocesses and warn. *)
Lemma get_duckdb_info_lookup_only (w : World) (repo_root : Path) (build_type : pyval) :
  forallb is_lookup_event (trace (get_duckdb_info repo_root build_type) w) = true.
Proof.
  unfold trace. run_duckdb_info w repo_root build_type; reflexivity.
Qed.

Lemma get_extension_info_lookup_only (w : World) (repo_root : Path) :
  forallb is_lookup_event (trace (get_extension_info repo_root) w) = true.
Proof.
  unfold trace. rewrite get_extension_info_run.
  destruct (git_value (run_process w (tag_request repo_root)));
    [destruct (git_value (run_process w (head_request repo_root)))|]; reflexivity.
Qed.

Lemma lookup_only_app (t1 t2 : list event) :
  forallb is_lookup_event t1 = true ->
  forallb is_lookup_event t2 = true ->
  forallb is_lookup_event (t1 ++ t2) = true.
Proof. intros H1 H2. rewrite forallb_app, H1, H2. reflexivity. Qed.

Lemma lookup_only_no_output (t : list event) (e : event) :
  forallb is_lookup_event t = true -> In e t -> is_lookup_event e = true.
Proof. intros H. rewrite forallb_forall in H. apply H. Qed.

Lemma lookup_only_no_stdout (t : list event) :
  forallb is_lookup_event t = true -> existsb is_stdout t = false.
Proof.
  induction t as [|e t IH]; [reflexivity|]. simpl.
  intros H. apply andb_true_iff in H as [He Ht]. rewrite (IH Ht).
  destruct e; try discriminate He; reflexivity.
Qed.

(** ** The output step *)

Lemma create_metadata_run (w : World) (args : Namespace) :
  create_metadata args w =
    match get_duckdb_info (getcwd w) (build_type args) w with
    | (t1, Raise e) => (t1, Raise e)
    | (t1, Ok duckdb_info) =>
        match get_extension_info (getcwd w) w with
        | (t2, Raise e) => (t1 ++ t2, Raise e)
        | (t2, Ok extension_info) =>
            let metadata := metadata_dict args extension_info duckdb_info (utcnow w) in
            (t1 ++ t2 ++ fst (output_step w (build_type args) metadata),
             snd (output_step w (build_type args) metadata))
        end
    end.
Proof.
  unfold create_metadata, output_step, output_events, output_file, output_dir.
  unfold bind at 1. unfold ask at 1.
  unfold bind at 1.
  destruct (get_duckdb_info (getcwd w) (build_type args) w) as [t1 [di|e1]];
    [|reflexivity].
  unfold bind at 1.
  destruct (get_extension_info (getcwd w) w) as [t2 [ei|e2]]; [|reflexivity].
  unfold str_operand, mkdir, write_json, print, bind, ask, emit, raise, ret.
  destruct (build_type args) as [|directory|]; simpl; rewrite ?app_nil_r;
    try reflexivity.
  destruct (mkdir_failure w _); [reflexivity|].
  destruct (open_failure w _); [reflexivity|].
  destruct (stdout_stream w); reflexivity.
Qed.

Lemma exn_of_io_failure_Exception (f : io_failure) :
  is_Exception (exn_of_io_failure f) = true.
Proof. destruct f; reflexivity. Qed.

Lemma output_step_raises (w : World) (build_type : pyval) (metadata : dict) (e : exn) :
  snd (output_step w build_type metadata) = Raise e -> is_Exception e = true.
Proof.
  unfold output_step.
  destruct build_type as [|directory|]; simpl;
    try (intros H; inversion H; reflexivity).
  destruct (mkdir_failure w _) as [f|]; simpl.
  { intros H; inversion H. apply exn_of_io_failure_Exception. }
  destruct (open_failure w _) as [f|]; simpl.
  { intros H; inversion H. apply exn_of_io_failure_Exception. }
  destruct (stdout_stream w); simpl; try discriminate.
  intros H; inversion H; reflexivity.
Qed.

(** The output step returns exactly when the build type is a string, the
    directory can be created, the file written and the messages
    printed. *)
Lemma output_step_returns (w : World) (build_type : pyval) (metadata : dict) (status : Z) :
  snd (output_step w build_type metadata) = Ok status ->
  status = 0%Z
  /\ exists directory,
       build_type = PyStr directory
       /\ mkdir_failure w (output_dir w directory) = None
       /\ open_failure w (output_file w directory) = None
       /\ stdout_stream w <> RaisesOnWrite
       /\ fst (output_step w build_type metadata) = output_events w directory metadata.
Proof.
  unfold output_step.
  destruct build_type as [|directory|]; simpl; try discriminate.
  destruct (mkdir_failure w (output_dir w directory)) as [f|] eqn:Emk;
    simpl; [discriminate|].
  destruct (open_failure w (output_file w directory)) as [f|] eqn:Eop;
    simpl; [discriminate|].
  destruct (stdout_stream w) eqn:Eout; simpl; try discriminate;
    intros H; inversion H; (split; [reflexivity|]);
    exists directory; repeat split; auto; discriminate.
Qed.

(** A record is written by the output step only as the one it is given,
    to the one output file, with indentation 2. *)
Lemma output_step_write (w : World) (build_type : pyval) (metadata : dict)
    (p : Path) (d : dict) (n : N) :
  In (EWriteJson p d n) (fst (output_step w build_type metadata)) ->
  exists directory,
    build_type = PyStr directory
    /\ p = output_file w directory
    /\ d = metadata
    /\ n = 2%N
    /\ mkdir_failure w (output_dir w directory) = None
    /\ open_failure w (output_file w directory) = None.
Proof.
  unfold output_step.
  destruct build_type as [|directory|]; simpl; try (intros []).
  destruct (mkdir_failure w (output_dir w directory)) as [f|] eqn:Emk; simpl.
  { intros [H | []]; discriminate. }
  destruct (open_failure w (output_file w directory)) as [f|] eqn:Eop; simpl.
  { intros [H | []]; discriminate. }
  destruct (stdout_stream w); simpl;
    intros H; repeat destruct H as [H | H]; try discriminate H; try contradiction;
    inversion H; subst; exists directory; repeat split; auto.
Qed.


(** Something is on standard output exactly when the output step
    returns. *)
Lemma output_step_stdout (w : World) (build_type : pyval) (metadata : dict) :
  existsb is_stdout (fst (output_step w build_type metadata))
  = match snd (output_step w build_type metadata) with
    | Ok _ => true
    | Raise _ => false
    end.
Proof.
  unfold output_step.
  destruct build_type as [|directory|]; try reflexivity.
  destruct (mkdir_failure w _); [reflexivity|].
  destruct (open_failure w _); [reflexivity|].
  destruct (stdout_stream w); reflexivity.
Qed.

(** ** Which exceptions can leave which function *)

Lemma git_value_raises (outcome : completion) (e : exn) :
  git_value outcome = Raise e -> is_Exception e = true.
Proof.
  destruct outcome as [rc out | f]; simpl.
  - destruct (rc =? 0)%Z; discriminate.
  - destruct f; intros H; inversion H; reflexivity.
Qed.

Lemma check_value_raises (answer : existence) (e : exn) :
  check_value answer = Raise e ->
  (answer = CheckDenied /\ e = PermissionError)
  \/ (answer = CheckFails /\ e = OtherException).
Proof. destruct answer; intros H; inversion H; auto. Qed.

Lemma probe_value_raises (outcome : completion) (e : exn) :
  probe_value outcome = Raise e -> outcome = Failed OtherFailure /\ e = OtherException.
Proof.
  destruct outcome as [rc out | f]; simpl.
  - destruct ((rc =? 0)%Z && truthy out); [|discriminate].
    destruct (split (strip out)); discriminate.
  - destruct f; intros H; inversion H; auto.
Qed.

(** A probe raises only out of its existence check, or when the binary
    cannot be run for a reason the loop does not catch. *)
Lemma probe_binary_raises (w : World) (p : Path) (e : exn) :
  result (probe_binary p) w = Raise e ->
  check_value (path_exists w p) = Raise e
  \/ (path_exists w p = Present
      /\ run_process w (version_request p) = Failed OtherFailure
      /\ e = OtherException).
Proof.
  unfold result. rewrite probe_binary_run.
  destruct (path_exists w p); simpl; try discriminate;
    try (intros H; left; inversion H; reflexivity).
  intros H; apply probe_value_raises in H as [H1 H2]. right. auto.
Qed.

Lemma probe_binary_Exception (w : World) (p : Path) (e : exn) :
  result (probe_binary p) w = Raise e -> is_Exception e = true.
Proof.
  intros H. apply probe_binary_raises in H as [H | (_ & _ & ->)]; [|reflexivity].
  apply check_value_raises in H as [[_ ->] | [_ ->]]; reflexivity.
Qed.

Lemma probe_binaries_raises (w : World) (paths : list Path) (v : str) (e : exn) :
  result (probe_binaries paths v) w = Raise e ->
  exists p, In p paths /\ result (probe_binary p) w = Raise e.
Proof.
  unfold result. induction paths as [|p rest IH].
  - discriminate.
  - rewrite probe_binaries_cons.
    destruct (probe_binary p w) as [t1 [[found|]|e1]] eqn:E; simpl.
    + discriminate.
    + destruct (probe_binaries rest v w) as [t2 r]; simpl in *.
      intros H. destruct (IH H) as (q & Hq & Hr). exists q. auto.
    + intros H; inversion H; subst. exists p. rewrite E. auto.
Qed.

Lemma get_duckdb_info_raises (w : World) (repo_root : Path) (build_type : pyval) (e : exn) :
  result (get_duckdb_info repo_root build_type) w = Raise e -> is_Exception e = true.
Proof.
  unfold result. run_duckdb_queries w repo_root; cbn [snd];
    try discriminate;
    try (intros H; inversion H; subst; reflexivity);
    try (intros H; inversion H; subst; eapply git_value_raises; eassumption).
  destruct build_type as [|directory|]; cbn [snd];
    try (intros H; inversion H; subst; reflexivity).
  destruct (probe_binaries (binary_paths repo_root directory) unknown w)
    as [probes [v|e3]] eqn:E3; cbn [snd]; [discriminate|].
  intros H; inversion H; subst.
  destruct (probe_binaries_raises w (binary_paths repo_root directory) unknown e)
    as (p & _ & Hp); [unfold result; rewrite E3; reflexivity|].
  exact (probe_binary_Exception w p e Hp).
Qed.

Lemma get_extension_info_raises (w : World) (repo_root : Path) (e : exn) :
  result (get_extension_info repo_root) w = Raise e -> is_Exception e = true.
Proof.
  unfold result. rewrite get_extension_info_run.
  destruct (git_value (run_process w (tag_request repo_root))) as [tag|e1] eqn:E1.
  - destruct (git_value (run_process w (head_request repo_root))) as [c|e2] eqn:E2.
    + simpl.
      destruct (git_value (run_process w (short_request repo_root))) as [s|e3] eqn:E3;
        [discriminate|].
      intros H; inversion H; subst. eapply git_value_raises; eauto.
    + simpl. intros H; inversion H; subst. eapply git_value_raises; eauto.
  - simpl. intros H; inversion H; subst. eapply git_value_raises; eauto.
Qed.

Lemma create_metadata_raises (w : World) (args : Namespace) (e : exn) :
  result (create_metadata args) w = Raise e -> is_Exception e = true.
Proof.
  unfold result. rewrite create_metadata_run.
  destruct (get_duckdb_info (getcwd w) (build_type args) w) as [t1 [di|e1]] eqn:E1.
  - destruct (get_extension_info (getcwd w) w) as [t2 [ei|e2]] eqn:E2.
    + cbv zeta. cbn [snd]. apply output_step_raises.
    + simpl. intros H; inversion H; subst.
      apply (get_extension_info_raises w (getcwd w)).
      unfold result; rewrite E2; reflexivity.
  - simpl. intros H; inversion H; subst.
    apply (get_duckdb_info_raises w (getcwd w) (build_type args)).
    unfold result; rewrite E1; reflexivity.
Qed.

Lemma create_metadata_returns_zero (w : World) (args : Namespace) (status : Z) :
  result (create_metadata args) w = Ok status -> status = 0%Z.
Proof.
  unfold result. rewrite create_metadata_run.
  destruct (get_duckdb_info (getcwd w) (build_type args) w) as [t1 [di|e1]];
    [|discriminate].
  destruct (get_extension_info (getcwd w) w) as [t2 [ei|e2]]; [|discriminate].
  cbv zeta. cbn [snd]. intros H. apply output_step_returns in H. tauto.
Qed.

(** Something is on standard output exactly when [create_metadata]
    returns. *)
Lemma create_metadata_stdout (w : World) (args : Namespace) :
  existsb is_stdout (trace (create_metadata args) w)
  = match result (create_metadata args) w with
    | Ok _ => true
    | Raise _ => false
    end.
Proof.
  unfold trace, result. rewrite create_metadata_run.
  pose proof (lookup_only_no_stdout _
                (get_duckdb_info_lookup_only w (getcwd w) (build_type args))) as L1.
  pose proof (lookup_only_no_stdout _
                (get_extension_info_lookup_only w (getcwd w))) as L2.
  unfold trace in L1, L2.
  destruct (get_duckdb_info (getcwd w) (build_type args) w) as [t1 [di|e1]];
    cbn [fst snd] in *; [|exact L1].
  destruct (get_extension_info (getcwd w) w) as [t2 [ei|e2]]; cbn [fst snd] in *.
  - cbv zeta. cbn [fst snd]. rewrite !existsb_app, L1, L2. cbn [orb].
    apply output_step_stdout.
  - rewrite existsb_app, L1, L2. reflexivity.
Qed.

(** ** The entry point *)

Lemma print_help_run (w : World) :
  (print HelpText ;;; raise (SystemExit 0))%py w = help_action w.
Proof.
  unfold help_action, print, bind, ask, emit, raise.
  destruct (stdout_stream w); reflexivity.
Qed.

Lemma parse_args_cases (is_decimal_digit : codepoint -> bool) (argv : list str) (w : World) :
  (exists args, Argparse.parse_args is_decimal_digit argv w = ([], Ok args))
  \/ Argparse.parse_args is_decimal_digit argv w
       = ([EStderr UsageError], Raise (SystemExit 2))
  \/ Argparse.parse_args is_decimal_digit argv w = help_action w.
Proof.
  unfold Argparse.parse_args.
  destruct (Argparse.arg_strings_pattern is_decimal_digit argv) as [pattern|];
    [|right; left; reflexivity].
  destruct (Argparse.consume _ _ _) as [| |ns extras];
    [right; right; apply print_help_run | right; left; reflexivity |].
  destruct (Argparse.stored_extension_name ns); [|right; left; reflexivity].
  destruct (Argparse.stored_build_type ns); [|right; left; reflexivity].
  destruct (Argparse.stored_platform ns); [|right; left; reflexivity].
  destruct extras; [left; eexists; reflexivity | right; left; reflexivity].
Qed.

Lemma parse_args_ok (is_decimal_digit : codepoint -> bool) (argv : list str)
    (w : World) (args : Namespace) :
  result (Argparse.parse_args is_decimal_digit argv) w = Ok args ->
  Argparse.parse_args is_decimal_digit argv w = ([], Ok args).
Proof.
  unfold result.
  destruct (parse_args_cases is_decimal_digit argv w) as [[a ->] | [-> | ->]];
    simpl; try congruence.
  unfold help_action. destruct (stdout_stream w); discriminate.
Qed.

(** A run whose command line parses: the events of [create_metadata],
    then exit status 0 (or 120 when the final flush fails) if it returns,
    and the error message and exit status 1 if it raises. *)
Lemma script_parsed (is_decimal_digit : codepoint -> bool) (argv : list str)
    (w : World) (args : Namespace) :
  result (Argparse.parse_args is_decimal_digit argv) w = Ok args ->
  script is_decimal_digit argv w =
    match create_metadata args w with
    | (t, Ok status) => (t, status_after_output w)
    | (t, Raise e) => (t ++ [EStderr (ErrorCreatingMetadata e)], 1%Z)
    end.
Proof.
  intros H. apply parse_args_ok in H.
  unfold script, main, bind. rewrite H. unfold try_except.
  pose proof (create_metadata_raises w args) as Hexn.
  pose proof (create_metadata_returns_zero w args) as Hzero.
  pose proof (create_metadata_stdout w args) as Hout.
  unfold result, trace in Hexn, Hzero, Hout.
  destruct (create_metadata args w) as [t [status|e]]; cbn [fst snd] in *.
  - cbn [app]. rewrite (Hzero status eq_refl).
    unfold flush_fails, status_after_output. rewrite Hout.
    destruct (stdout_stream w); reflexivity.
  - rewrite (Hexn e eq_refl).
    unfold eprint, bind, emit, ret. cbn [app].
    unfold flush_fails. rewrite existsb_app, Hout. cbn.
    destruct (stdout_stream w); reflexivity.
Qed.

Lemma script_usage (is_decimal_digit : codepoint -> bool) (argv : list str) (w : World) :
  Argparse.parse_args is_decimal_digit argv w
  = ([EStderr UsageError], Raise (SystemExit 2)) ->
  script is_decimal_digit argv w = ([EStderr UsageError], 2%Z).
Proof.
  intros H. unfold script, main, bind. rewrite H.
  unfold flush_fails. destruct (stdout_stream w); reflexivity.
Qed.

Lemma script_help (is_decimal_digit : codepoint -> bool) (argv : list str) (w : World) :
  Argparse.parse_args is_decimal_digit argv w = help_action w ->
  script is_decimal_digit argv w = help_run w.
Proof.
  intros H. unfold script, main, bind. rewrite H.
  unfold help_action, help_run, flush_fails.
  destruct (stdout_stream w); reflexivity.
Qed.

(** The three ways a run can go. *)
Lemma script_cases (is_decimal_digit : codepoint -> bool) (argv : list str) (w : World) :
  (exists args, result (Argparse.parse_args is_decimal_digit argv) w = Ok args)
  \/ (Argparse.parse_args is_decimal_digit argv w
        = ([EStderr UsageError], Raise (SystemExit 2))
      /\ script is_decimal_digit argv w = ([EStderr UsageError], 2%Z))
  \/ (Argparse.parse_args is_decimal_digit argv w = help_action w
      /\ script is_decimal_digit argv w = help_run w).
Proof.
  destruct (parse_args_cases is_decimal_digit argv w) as [[args Hok] | [Hcase | Hcase]].
  - left. exists args. unfold result; rewrite Hok; reflexivity.
  - right; left. split; [exact Hcase | exact (script_usage _ _ _ Hcase)].
  - right; right. split; [exact Hcase | exact (script_help _ _ _ Hcase)].
Qed.

Lemma help_run_events (w : World) (e : event) :
  In e (fst (help_run w)) -> e = EStdout HelpText.
Proof.
  unfold help_run. destruct (stdout_stream w); simpl; intros H;
    repeat destruct H as [H | H]; auto; contradiction.
Qed.

(** What a run writes, [create_metadata] writes. *)
Lemma script_write (is_decimal_digit : codepoint -> bool) (argv : list str)
    (w : World) (args : Namespace) (p : Path) (d : dict) (n : N) :
  result (Argparse.parse_args is_decimal_digit argv) w = Ok args ->
  In (EWriteJson p d n) (fst (script is_decimal_digit argv w)) ->
  In (EWriteJson p d n) (trace (create_metadata args) w).
Proof.
  intros Hparse. rewrite (script_parsed _ _ _ _ Hparse). unfold trace.
  destruct (create_metadata args w) as [t [status|ex]]; simpl; auto.
  rewrite in_app_iff. intros [H | [H | []]]; [exact H | discriminate].
Qed.

(** ** The lookups write no file *)

Lemma lookup_only_no_write (t : list event) (e : event) :
  forallb is_lookup_event t = true -> In e t -> is_write e = false.
Proof.
  intros H He. apply (lookup_only_no_output _ _ H) in He.
  destruct e; try discriminate He; reflexivity.
Qed.

Lemma get_duckdb_info_no_write (w : World) (repo_root : Path) (build_type : pyval) (e : event) :
  In e (trace (get_duckdb_info repo_root build_type) w) -> is_write e = false.
Proof. apply lookup_only_no_write, get_duckdb_info_lookup_only. Qed.

Lemma get_extension_info_no_write (w : World) (repo_root : Path) (e : event) :
  In e (trace (get_extension_info repo_root) w) -> is_write e = false.
Proof. apply lookup_only_no_write, get_extension_info_lookup_only. Qed.

(** A record is written by [create_metadata] only as the one built from
    the two lookups, to the one output file, with indentation 2. *)
Lemma create_metadata_write (w : World) (args : Namespace) (p : Path) (d : dict) (n : N) :
  In (EWriteJson p d n) (trace (create_metadata args) w) ->
  exists duckdb_info extension_info directory,
    result (get_duckdb_info (getcwd w) (build_type args)) w = Ok duckdb_info
    /\ result (get_extension_info (getcwd w)) w = Ok extension_info
    /\ build_type args = PyStr directory
    /\ p = output_file w directory
    /\ d = metadata_dict args extension_info duckdb_info (utcnow w)
    /\ n = 2%N.
Proof.
  unfold trace, result. rewrite create_metadata_run.
  pose proof (get_duckdb_info_no_write w (getcwd w) (build_type args)
                (EWriteJson p d n)) as H1.
  pose proof (get_extension_info_no_write w (getcwd w) (EWriteJson p d n)) as H2.
  unfold trace in H1, H2.
  destruct (get_duckdb_info (getcwd w) (build_type args) w) as [t1 [di|e1]];
    simpl in *; [|intros H; apply H1 in H; discriminate].
  destruct (get_extension_info (getcwd w) w) as [t2 [ei|e2]]; simpl in *.
  2:{ rewrite in_app_iff; intros [H|H]; [apply H1 in H | apply H2 in H]; discriminate. }
  rewrite !in_app_iff.
  intros [H|[H|H]]; [apply H1 in H; discriminate | apply H2 in H; discriminate |].
  apply output_step_write in H as (directory & Hbt & -> & -> & -> & _).
  exists di, ei, directory. repeat split; auto.
Qed.



Lemma metadata_dict_keys (args : Namespace) (ei : ExtensionInfo.t) (di : DuckdbInfo.t)
    (now : datetime) :
  map fst (metadata_dict args ei di now) = metadata_keys.
Proof. reflexivity. Qed.

(** [x or ""] is a string, whatever [x] is. *)
Lemma py_or_empty (x : pyval) : py_or x (PyStr (lit "")) = PyStr (given_or_empty x).
Proof. destruct x as [|[|c s]|]; reflexivity. Qed.


Lemma metadata_dict_arguments (args : Namespace) (ei : ExtensionInfo.t)
    (di : DuckdbInfo.t) (now : datetime) :
  carries_arguments args (metadata_dict args ei di now).
Proof.
  unfold carries_arguments, metadata_dict. rewrite !py_or_empty.
  repeat split; reflexivity.
Qed.


(** ** The dependency lookup without a repository *)


(** ** The probe of the built binary *)

Lemma probe_value_found (outcome : completion) (tok : str) :
  probe_value outcome = Ok (Some tok) <->
  exists out, outcome = Exited 0 out /\ hd_error (split out) = Some tok.
Proof.
  destruct outcome as [rc out | f]; simpl.
  - rewrite split_strip. split.
    + destruct (Z.eqb_spec rc 0) as [->|]; simpl; [|discriminate].
      destruct (truthy out); [|discriminate].
      destruct (split out) as [|first parts] eqn:E; [discriminate|].
      intros H; inversion H; subst. exists out; rewrite E; auto.
    + intros (out' & H & Htok). inversion H; subst. simpl.
      rewrite split_truthy by (destruct (split out'); discriminate).
      destruct (split out'); inversion Htok; reflexivity.
  - split; [destruct f; discriminate | intros (out & H & _); discriminate].
Qed.

Lemma probe_value_goes_on (outcome : completion) :
  probe_value outcome = Ok None <->
  (exists rc out, outcome = Exited rc out /\ (rc <> 0%Z \/ split out = []))
  \/ outcome = Failed NoSuchFile
  \/ outcome = Failed TimedOut
  \/ outcome = Failed NotPermitted.
Proof.
  destruct outcome as [rc out | f]; simpl.
  - rewrite split_strip. split.
    + intros H. left. exists rc, out. split; [reflexivity|].
      destruct (Z.eqb_spec rc 0) as [->|]; [|left; assumption].
      right. simpl in H. destruct (split out) as [|first parts] eqn:E; [reflexivity|].
      rewrite split_truthy in H by (rewrite E; discriminate). discriminate.
    + intros [(rc' & out' & H & Hwhy) | [H | [H | H]]]; try discriminate.
      inversion H; subst rc' out'.
      destruct Hwhy as [Hrc | Hsplit].
      * destruct (Z.eqb_spec rc 0); [contradiction | reflexivity].
      * rewrite Hsplit. destruct ((rc =? 0)%Z && truthy out); reflexivity.
  - split.
    + destruct f; try discriminate; auto.
    + intros [(rc & out & H & _) | [H | [H | H]]]; inversion H; reflexivity.
Qed.

Lemma probe_failure_goes_on (w : World) (p : Path) :
  probe_failure w p -> result (probe_binary p) w = Ok None.
Proof.
  unfold result. rewrite probe_binary_run.
  intros [H | [Hex H]]; [rewrite H; reflexivity|].
  rewrite Hex. cbn [check_value snd].
  apply probe_value_goes_on.
  destruct H as [H | [H | [H | (rc & out & H & Hrc)]]]; auto.
  left. exists rc, out. auto.
Qed.

Lemma probe_binary_spawns (w : World) (p : Path) (r : Request) :
  In (ESpawn r) (trace (probe_binary p) w) ->
  r = version_request p /\ path_exists w p = Present.
Proof.
  unfold trace. rewrite probe_binary_run.
  destruct (path_exists w p); simpl;
    try (intros [H | []]; discriminate).
  intros [H | [H | []]]; [discriminate|]. inversion H; auto.
Qed.

Lemma version_request_inj (p q : Path) :
  version_request p = version_request q -> p = q.
Proof. intros H; inversion H; reflexivity. Qed.

(** Once the binary at [p] has been run with success, the loop ends with
    its first token. *)
Lemma probe_binaries_success (w : World) (paths : list Path) (v : str)
    (p : Path) (tok : str) :
  In (ESpawn (version_request p)) (trace (probe_binaries paths v) w) ->
  probe_success w p tok ->
  result (probe_binaries paths v) w = Ok tok.
Proof.
  intros Hin (Hex & out & Hrun & Htok).
  assert (Hp : probe_binary p w
               = ([EStat p; ESpawn (version_request p)], Ok (Some tok))).
  { rewrite probe_binary_run, Hex. cbn [check_value]. f_equal.
    apply probe_value_found. exists out; auto. }
  unfold trace, result in *. induction paths as [|q rest IH]; [destruct Hin|].
  rewrite probe_binaries_cons in *.
  pose proof (probe_binary_spawns w q (version_request p)) as Hq. unfold trace in Hq.
  destruct (probe_binary q w) as [t1 [[found|]|e]] eqn:E; simpl in *.
  - destruct (Hq Hin) as [Heq _]. apply version_request_inj in Heq; subst q.
    rewrite Hp in E. inversion E; reflexivity.
  - destruct (probe_binaries rest v w) as [t2 r]; simpl in *.
    apply in_app_iff in Hin as [Hin | Hin]; [|auto].
    destruct (Hq Hin) as [Heq _]. apply version_request_inj in Heq; subst q.
    rewrite Hp in E. discriminate.
  - destruct (Hq Hin) as [Heq _]. apply version_request_inj in Heq; subst q.
    rewrite Hp in E. discriminate.
Qed.

Lemma probe_binaries_all_fail (w : World) (paths : list Path) (v : str) :
  (forall p, In p paths -> probe_failure w p) ->
  result (probe_binaries paths v) w = Ok v.
Proof.
  unfold result. induction paths as [|p rest IH]; intros H; [reflexivity|].
  rewrite probe_binaries_cons.
  pose proof (probe_failure_goes_on w p (H p (or_introl eq_refl))) as Hp.
  unfold result in Hp.
  destruct (probe_binary p w) as [t1 r]; simpl in Hp; subst r.
  specialize (IH (fun q Hq => H q (or_intror Hq))).
  destruct (probe_binaries rest v w) as [t2 r]; simpl in *; exact IH.
Qed.

Lemma probe_binaries_spawns (w : World) (paths : list Path) (v : str) (r : Request) :
  In (ESpawn r) (trace (probe_binaries paths v) w) ->
  exists p, In p paths /\ r = version_request p /\ path_exists w p = Present.
Proof.
  unfold trace. induction paths as [|q rest IH]; [intros []|].
  rewrite probe_binaries_cons.
  pose proof (probe_binary_spawns w q r) as Hq. unfold trace in Hq.
  destruct (probe_binary q w) as [t1 [[found|]|e]]; simpl in *.
  - intros H. destruct (Hq H). exists q; auto.
  - destruct (probe_binaries rest v w) as [t2 r2]; simpl in *.
    rewrite in_app_iff. intros [H | H].
    + destruct (Hq H). exists q; auto.
    + destruct (IH H) as (p & Hp & Hr). exists p; auto.
  - intros H. destruct (Hq H). exists q; auto.
Qed.

(** The binaries run by [get_duckdb_info] are run by its probe loop. *)
Lemma get_duckdb_info_probes (w : World) (repo_root : Path) (build_type : str) (p : Path) :
  In (ESpawn (version_request p))
     (trace (get_duckdb_info repo_root (PyStr build_type)) w) ->
  exists git_describe commit,
    git_value (run_process w (describe_request repo_root)) = Ok git_describe
    /\ git_value (run_process w (head_request (duckdb_dir repo_root))) = Ok commit
    /\ In (ESpawn (version_request p))
          (trace (probe_binaries (binary_paths repo_root build_type) unknown) w)
    /\ result (get_duckdb_info repo_root (PyStr build_type)) w =
       match result (probe_binaries (binary_paths repo_root build_type) unknown) w with
       | Ok actual_version =>
           Ok {| DuckdbInfo.git_describe := git_describe;
                 DuckdbInfo.version := actual_version;
                 DuckdbInfo.commit := commit |}
       | Raise e => Raise e
       end.
Proof.
  unfold trace, result.
  run_duckdb_queries w repo_root; cbn [fst snd app];
    try (intros H; repeat destruct H as [H | H]; try discriminate H; contradiction).
  destruct (probe_binaries (binary_paths repo_root build_type) unknown w) as [probes r].
  simpl. intros [H | [H | [H | [H | H]]]]; try discriminate.
  exists git_describe, commit. auto.
Qed.

Lemma binaries_differ (repo_root : Path) (build_type : str) :
  second_binary repo_root build_type <> first_binary repo_root build_type.
Proof.
  unfold second_binary, first_binary, joinpath. intros H.
  apply app_inj_tail in H as [_ H]. discriminate.
Qed.

Lemma probe_binary_starts_with_check (w : World) (p : Path) :
  exists t, trace (probe_binary p) w = EStat p :: t
            /\ forall q, In (EStat q) t -> False.
Proof.
  unfold trace. rewrite probe_binary_run.
  destruct (path_exists w p); simpl; eexists; split; try reflexivity;
    intros q H; repeat destruct H as [H | H]; try discriminate H; contradiction.
Qed.

(** ** The extension's own version *)

Lemma get_extension_info_returns (w : World) (repo_root : Path)
    (tag commit short_commit : str) :
  git_value (run_process w (tag_request repo_root)) = Ok tag ->
  git_value (run_process w (head_request repo_root)) = Ok commit ->
  git_value (run_process w (short_request repo_root)) = Ok short_commit ->
  result (get_extension_info repo_root) w
  = Ok {| ExtensionInfo.version := extension_version tag short_commit;
          ExtensionInfo.commit := commit |}.
Proof.
  intros Htag Hhead Hshort. unfold result.
  rewrite get_extension_info_run, Htag, Hhead. simpl. rewrite Hshort. reflexivity.
Qed.

Lemma git_value_empty (outcome : completion) :
  git_value outcome = Ok [] <-> exists out, outcome = Exited 0 out /\ strip out = [].
Proof.
  destruct outcome as [rc out | f]; simpl.
  - destruct (Z.eqb_spec rc 0) as [->|Hrc].
    + split; [intros H; inversion H; eauto|].
      intros (out' & H & Hs); inversion H; subst; rewrite Hs; reflexivity.
    + split; [discriminate|]. intros (out' & H & _); inversion H; contradiction.
  - split; [destruct f; discriminate | intros (out & H & _); discriminate].
Qed.

Lemma git_value_failure (outcome : completion) :
  command_failure outcome -> git_value outcome = Ok unknown.
Proof.
  intros [(rc & out & -> & Hrc) | ->]; simpl; [|reflexivity].
  destruct (Z.eqb_spec rc 0); [contradiction | reflexivity].
Qed.

(** A query whose value is the sentinel has failed, unless the command
    itself printed the sentinel. *)
Lemma git_value_unknown (outcome : completion) :
  git_value outcome = Ok unknown ->
  command_failure outcome
  \/ exists out, outcome = Exited 0 out /\ strip out = unknown.
Proof.
  destruct outcome as [rc out | f]; simpl.
  - destruct (Z.eqb_spec rc 0) as [->|Hrc].
    + intros H; inversion H. right; eauto.
    + intros _. left; left; eauto.
  - destruct f; try discriminate. intros _. left; right; reflexivity.
Qed.

Lemma abbreviated_hash_not_unknown (s : str) :
  is_abbreviated_hash s = true -> s <> unknown /\ s <> [].
Proof.
  intros H. split; intros ->; discriminate.
Qed.

Lemma extension_version_fallback (tag short_commit : str) :
  tag = [] \/ tag = unknown -> extension_version tag short_commit = short_commit.
Proof.
  unfold extension_version. intros [-> | ->]; reflexivity.
Qed.

Lemma extension_version_tagged (tag short_commit : str) :
  tag <> [] -> tag <> unknown -> extension_version tag short_commit = tag.
Proof.
  unfold extension_version. intros H1 H2.
  apply str_eqb_neq in H2. rewrite H2.
  destruct tag; [contradiction | reflexivity].
Qed.

(** ** Time stamps *)

Lemma forallb_below (P : N -> bool) (k : N) :
  forallb P (map N.of_nat (seq 0 (N.to_nat k))) = true ->
  forall n, (n < k)%N -> P n = true.
Proof.
  intros H n Hn. rewrite forallb_forall in H. apply H.
  rewrite <- (N2Nat.id n). apply in_map, in_seq. lia.
Qed.

Lemma two_digits (n : N) : (n < 100)%N -> denotes 2 (zfill 2 (decimal n)) n = true.
Proof.
  apply (forallb_below (fun n => denotes 2 (zfill 2 (decimal n)) n) 100).
  vm_compute. reflexivity.
Qed.

Lemma four_digit_year (n : N) :
  (1000 <= n < 10000)%N -> denotes 4 (decimal n) n = true.
Proof.
  intros [Hlow Hhigh].
  pose proof (forallb_below (fun n => (n <? 1000)%N || denotes 4 (decimal n) n) 10000) as H.
  specialize (H ltac:(vm_compute; reflexivity) n Hhigh). simpl in H.
  apply orb_true_iff in H as [H | H]; [|exact H].
  apply N.ltb_lt in H. lia.
Qed.

Lemma denotes_spec (width : nat) (s : str) (n : N) :
  denotes width s n = true ->
  List.length s = width
  /\ forallb ascii_digit s = true
  /\ number_of s = Some n.
Proof.
  unfold denotes.
  rewrite !andb_true_iff, Nat.eqb_eq.
  intros [[Hlen Hdigits] Hnum]. repeat split; auto.
  destruct (number_of s) as [m|]; [|discriminate].
  apply N.eqb_eq in Hnum. congruence.
Qed.

Lemma strftime_build_date (dt : datetime) :
  strftime build_date_format dt
  = decimal (year dt) ++ [chr "-"]
    ++ zfill 2 (decimal (month dt)) ++ [chr "-"]
    ++ zfill 2 (decimal (day dt)) ++ [chr "T"]
    ++ zfill 2 (decimal (hour dt)) ++ [chr ":"]
    ++ zfill 2 (decimal (minute dt)) ++ [chr ":"]
    ++ zfill 2 (decimal (second dt)) ++ [chr "Z"].
Proof. reflexivity. Qed.

Lemma days_in_month_bound (y m : N) : (days_in_month y m <= 31)%N.
Proof.
  unfold days_in_month.
  destruct (m =? 2)%N; [destruct (is_leap y); lia|].
  destruct ((m =? 4) || (m =? 6) || (m =? 9) || (m =? 11))%N; lia.
Qed.

Lemma valid_datetime_whole_second (dt : datetime) :
  valid_datetime (whole_second dt) = valid_datetime dt
  \/ valid_datetime dt = false.
Proof.
  unfold valid_datetime, whole_second. simpl.
  destruct (microsecond dt <? 1000000)%N; [left | right].
  - reflexivity.
  - apply andb_false_r.
Qed.

(** The time stamp of a clock reading has the pattern and denotes that
    instant, to the second. *)
Lemma strftime_build_date_spec (dt : datetime) :
  clock_reading dt = true ->
  matches_timestamp_pattern (strftime build_date_format dt) = true
  /\ parse_timestamp (strftime build_date_format dt) = Some (whole_second dt)
  /\ valid_datetime (whole_second dt) = true.
Proof.
  unfold clock_reading. rewrite andb_true_iff, N.leb_le. intros [Hvalid Hepoch].
  assert (Hvalid' : valid_datetime (whole_second dt) = true).
  { destruct (valid_datetime_whole_second dt); congruence. }
  unfold valid_datetime in Hvalid.
  rewrite !andb_true_iff, !N.leb_le, !N.ltb_lt in Hvalid.
  destruct Hvalid as [[[[[[[[[Hy1 Hy2] Hm1] Hm2] Hd1] Hd2] Hh] Hmi] Hs] _].
  pose proof (days_in_month_bound (year dt) (month dt)) as Hdim.
  destruct (denotes_spec 4 _ _ (four_digit_year (year dt) ltac:(lia)))
    as (Ly & Dy & Ny).
  destruct (denotes_spec 2 _ _ (two_digits (month dt) ltac:(lia))) as (Lm & Dm & Nm).
  destruct (denotes_spec 2 _ _ (two_digits (day dt) ltac:(lia))) as (Ld & Dd & Nd).
  destruct (denotes_spec 2 _ _ (two_digits (hour dt) ltac:(lia))) as (Lh & Dh & Nh).
  destruct (denotes_spec 2 _ _ (two_digits (minute dt) ltac:(lia))) as (Lmi & Dmi & Nmi).
  destruct (denotes_spec 2 _ _ (two_digits (second dt) ltac:(lia))) as (Ls & Ds & Ns).
  rewrite strftime_build_date.
  destruct (decimal (year dt)) as [|y1 [|y2 [|y3 [|y4 [|]]]]]; try discriminate Ly.
  destruct (zfill 2 (decimal (month dt))) as [|m1 [|m2 [|]]]; try discriminate Lm.
  destruct (zfill 2 (decimal (day dt))) as [|d1 [|d2 [|]]]; try discriminate Ld.
  destruct (zfill 2 (decimal (hour dt))) as [|h1 [|h2 [|]]]; try discriminate Lh.
  destruct (zfill 2 (decimal (minute dt))) as [|mi1 [|mi2 [|]]]; try discriminate Lmi.
  destruct (zfill 2 (decimal (second dt))) as [|s1 [|s2 [|]]]; try discriminate Ls.
  unfold matches_timestamp_pattern, parse_timestamp.
  cbn [app timestamp_fields].
  change ((chr "-" =? chr "-") && (chr "-" =? chr "-") && (chr "T" =? chr "T")
          && (chr ":" =? chr ":") && (chr ":" =? chr ":") && (chr "Z" =? chr "Z"))%N
    with true.
  cbv iota. split; [|split; [|exact Hvalid']].
  - rewrite !forallb_app, Dy, Dm, Dd, Dh, Dmi, Ds. reflexivity.
  - rewrite Ny, Nm, Nd, Nh, Nmi, Ns. cbv zeta.
    fold (whole_second dt). rewrite Hvalid'. reflexivity.
Qed.

Lemma metadata_dict_build_date (args : Namespace) (ei : ExtensionInfo.t)
    (di : DuckdbInfo.t) (now : datetime) :
  dict_get (lit "build_date") (metadata_dict args ei di now)
  = Some (PyStr (strftime build_date_format now)).
Proof. reflexivity. Qed.

(** ** Command-line parsing *)

Lemma option_id_eq_dec (a b : Argparse.option_id) : {a = b} + {a <> b}.
Proof. decide equality. Qed.

Lemma stored_value_store (a b : Argparse.option_id) (v : pyval) (ns : Argparse.Stored) :
  a <> b -> stored_value a (Argparse.store b v ns) = stored_value a ns.
Proof. destruct a, b; intros H; try reflexivity; contradiction. Qed.


Lemma combine_all_PA (rest : list str) (arg_string : str) (item : Argparse.pattern_item) :
  In (arg_string, item) (combine rest (map (fun _ => Argparse.PA) rest)) ->
  item = Argparse.PA.
Proof.
  induction rest as [|x rest IH]; simpl; [intros []|].
  intros [H | H]; [inversion H; reflexivity | auto].
Qed.

(** An option of the pattern stands where [_parse_optional] found it. *)
Lemma arg_strings_pattern_options (is_decimal_digit : codepoint -> bool)
    (argv : list str) (pattern : list Argparse.pattern_item)
    (arg_string : str) (a : option Argparse.option_id) (os : str) (e : option str) :
  Argparse.arg_strings_pattern is_decimal_digit argv = Some pattern ->
  In (arg_string, Argparse.PO a os e) (combine argv pattern) ->
  In arg_string argv
  /\ Argparse.parse_optional is_decimal_digit arg_string = Argparse.Optional a os e.
Proof.
  revert pattern. induction argv as [|x argv IH]; intros pattern; simpl.
  - intros H; inversion H. intros [].
  - destruct (str_eqb x (lit "--")).
    + intros H; inversion H; subst. simpl.
      intros [Hin | Hin]; [discriminate|].
      apply combine_all_PA in Hin. discriminate.
    + destruct (Argparse.parse_optional is_decimal_digit x) as [|a' os' e'|] eqn:E;
        [| |discriminate];
        destruct (Argparse.arg_strings_pattern is_decimal_digit argv) as [pattern'|];
        try discriminate; simpl; intros H; inversion H; subst; simpl;
        (intros [Hin | Hin];
         [inversion Hin; subst; auto
         | destruct (IH pattern' eq_refl Hin); auto]).
Qed.


(** An attribute is stored only by an option of the pattern. *)
Lemma consume_stores (a : Argparse.option_id) (n : nat) :
  forall (items : list (str * Argparse.pattern_item)) (ns : Argparse.Stored)
         (extras : list str) (ns' : Argparse.Stored) (extras' : list str),
    (List.length items <= n)%nat ->
    Argparse.consume items ns extras = Argparse.Finished ns' extras' ->
    stored_value a ns = None ->
    stored_value a ns' <> None ->
    exists arg_string os e, In (arg_string, Argparse.PO (Some a) os e) items.
Proof.
  induction n as [|n IH]; intros items ns extras ns' extras' Hlen Hrun Hnone Hsome.
  - destruct items; [|simpl in Hlen; lia].
    simpl in Hrun. inversion Hrun; subst. contradiction.
  - destruct items as [|[arg_string item] rest].
    { simpl in Hrun. inversion Hrun; subst. contradiction. }
    simpl in Hlen.
    assert (Hrest : forall ns0 extras0,
               Argparse.consume rest ns0 extras0 = Argparse.Finished ns' extras' ->
               stored_value a ns0 = None ->
               exists s os e, In (s, Argparse.PO (Some a) os e)
                                 ((arg_string, item) :: rest)).
    { intros ns0 extras0 H0 Hn0.
      destruct (IH rest ns0 extras0 ns' extras' ltac:(lia) H0 Hn0 Hsome)
        as (s & os & e & Hin).
      exists s, os, e. right; exact Hin. }
    destruct item as [| |[b|] os [explicit_arg|]]; simpl in Hrun;
      try (eapply Hrest; eassumption).
    + destruct (Argparse.takes_argument b) eqn:Eb.
      * destruct (option_id_eq_dec a b) as [->|Hab].
        -- exists arg_string, os, (Some explicit_arg). left; reflexivity.
        -- eapply Hrest; [eassumption|]. rewrite stored_value_store; assumption.
      * destruct (Argparse.single_dash os && truthy explicit_arg);
          [destruct (Argparse.short_cluster explicit_arg)|]; discriminate.
    + destruct (Argparse.takes_argument b) eqn:Eb; [|discriminate].
      destruct rest as [|[value [| |]] rest']; try discriminate.
      destruct (option_id_eq_dec a b) as [->|Hab].
      * exists arg_string, os, None. left; reflexivity.
      * simpl in Hlen.
        destruct (IH rest' (Argparse.store b (Argparse.get_values value) ns)
                     extras ns' extras' ltac:(lia) Hrun) as (s & os' & e & Hin); auto.
        { rewrite stored_value_store; assumption. }
        exists s, os', e. right; right; exact Hin.
Qed.

(** The help action is taken only at a help option of the pattern. *)
Lemma consume_help (n : nat) :
  forall (items : list (str * Argparse.pattern_item)) (ns : Argparse.Stored)
         (extras : list str),
    (List.length items <= n)%nat ->
    Argparse.consume items ns extras = Argparse.HelpExit ->
    exists arg_string os e, In (arg_string, Argparse.PO (Some Argparse.Help) os e) items.
Proof.
  induction n as [|n IH]; intros items ns extras Hlen Hrun.
  - destruct items; [|simpl in Hlen; lia]. discriminate.
  - destruct items as [|[arg_string item] rest]; [discriminate|].
    simpl in Hlen.
    assert (Hrest : forall ns0 extras0,
               Argparse.consume rest ns0 extras0 = Argparse.HelpExit ->
               exists s os e, In (s, Argparse.PO (Some Argparse.Help) os e)
                                 ((arg_string, item) :: rest)).
    { intros ns0 extras0 H0.
      destruct (IH rest ns0 extras0 ltac:(lia) H0) as (s & os & e & Hin).
      exists s, os, e. right; exact Hin. }
    destruct item as [| |[b|] os [explicit_arg|]]; simpl in Hrun;
      try (eapply Hrest; eassumption).
    + destruct b; simpl in Hrun; try (eapply Hrest; eassumption).
      exists arg_string, os, (Some explicit_arg). left; reflexivity.
    + destruct b; simpl in Hrun;
        try (destruct rest as [|[value [| |]] rest']; try discriminate;
             simpl in Hlen;
             destruct (IH rest' _ extras ltac:(lia) Hrun) as (s & os' & e & Hin);
             exists s, os', e; right; right; exact Hin).
      exists arg_string, os, None. left; reflexivity.
Qed.



(** What a successful parse went through. *)
Lemma parse_args_inv (is_decimal_digit : codepoint -> bool) (argv : list str)
    (w : World) (args : Namespace) :
  result (Argparse.parse_args is_decimal_digit argv) w = Ok args ->
  exists pattern ns,
    Argparse.arg_strings_pattern is_decimal_digit argv = Some pattern
    /\ Argparse.consume (combine argv pattern) Argparse.defaults []
       = Argparse.Finished ns []
    /\ stored_value Argparse.ExtensionName ns = Some (extension_name args)
    /\ stored_value Argparse.BuildType ns = Some (build_type args)
    /\ stored_value Argparse.Platform ns = Some (platform args)
    /\ (ci_tools_version args = PyNone
        \/ stored_value Argparse.CiToolsVersion ns = Some (ci_tools_version args))
    /\ (workflow_run_id args = PyNone
        \/ stored_value Argparse.WorkflowRunId ns = Some (workflow_run_id args)).
Proof.
  unfold result, Argparse.parse_args. intros Hparse.
  destruct (Argparse.arg_strings_pattern is_decimal_digit argv) as [pattern|] eqn:Ep;
    [|discriminate].
  destruct (Argparse.consume (combine argv pattern) Argparse.defaults [])
    as [| |ns extras] eqn:Ec.
  - rewrite print_help_run in Hparse. unfold help_action in Hparse.
    destruct (stdout_stream w); discriminate.
  - discriminate.
  - destruct (Argparse.stored_extension_name ns) as [name|] eqn:E1; [|discriminate].
    destruct (Argparse.stored_build_type ns) as [type|] eqn:E2; [|discriminate].
    destruct (Argparse.stored_platform ns) as [plat|] eqn:E3; [|discriminate].
    destruct extras; [|discriminate].
    simpl in Hparse. inversion Hparse; subst args.
    exists pattern, ns. simpl.
    repeat split; auto.
    + destruct (Argparse.stored_ci_tools_version ns); auto.
    + destruct (Argparse.stored_workflow_run_id ns); auto.
Qed.

(** A command line that parses names every required option. *)
Lemma parse_args_names_required (is_decimal_digit : codepoint -> bool)
    (argv : list str) (w : World) (args : Namespace) (a : Argparse.option_id) :
  result (Argparse.parse_args is_decimal_digit argv) w = Ok args ->
  Argparse.required a = true ->
  exists arg_string os e,
    In arg_string argv
    /\ Argparse.parse_optional is_decimal_digit arg_string
       = Argparse.Optional (Some a) os e.
Proof.
  intros Hparse Hreq.
  destruct (parse_args_inv _ _ _ _ Hparse) as (pattern & ns & Ep & Ec & H1 & H2 & H3 & _).
  assert (Hsome : stored_value a ns <> None).
  { destruct a; try discriminate Hreq; congruence. }
  assert (Hnone : stored_value a Argparse.defaults = None).
  { destruct a; reflexivity. }
  destruct (consume_stores a _ _ _ _ _ _ (le_n _) Ec Hnone Hsome)
    as (arg_string & os & e & Hin).
  destruct (arg_strings_pattern_options _ _ _ _ _ _ _ Ep Hin) as [Hargv Hopt].
  exists arg_string, os, e. auto.
Qed.

(** The help text is printed only for a command line with a help
    option. *)
Lemma parse_args_help (is_decimal_digit : codepoint -> bool) (argv : list str)
    (w : World) :
  Argparse.parse_args is_decimal_digit argv w = help_action w ->
  names is_decimal_digit Argparse.Help argv.
Proof.
  unfold Argparse.parse_args. intros Hparse.
  assert (Hhelp : forall t r, help_action w = (t, r) -> r <> Raise (SystemExit 2)
                              /\ forall args, r <> Ok args).
  { unfold help_action. intros t r H.
    destruct (stdout_stream w); inversion H; subst; split; try discriminate;
      intros args; discriminate. }
  destruct (Argparse.arg_strings_pattern is_decimal_digit argv) as [pattern|] eqn:Ep.
  2:{ destruct (Hhelp _ _ (eq_sym Hparse)) as [H _]. contradiction H; reflexivity. }
  destruct (Argparse.consume (combine argv pattern) Argparse.defaults [])
    as [| |ns extras] eqn:Ec.
  - destruct (consume_help _ _ _ _ (le_n _) Ec) as (arg_string & os & e & Hin).
    destruct (arg_strings_pattern_options _ _ _ _ _ _ _ Ep Hin) as [Hargv Hopt].
    exists arg_string, os, e. auto.
  - destruct (Hhelp _ _ (eq_sym Hparse)) as [H _]. contradiction H; reflexivity.
  - exfalso.
    destruct (Argparse.stored_extension_name ns);
      [destruct (Argparse.stored_build_type ns);
       [destruct (Argparse.stored_platform ns); [destruct extras|]|]|];
      destruct (Hhelp _ _ (eq_sym Hparse)) as [H1 H2];
      try (apply H1; reflexivity); eapply H2; reflexivity.
Qed.

(** A help option at the head of the command line wins, unless the
    first pass over the argument strings already reports an error. *)
Lemma help_first (is_decimal_digit : codepoint -> bool) (help : str)
    (rest : list str) (w : World) :
  help = lit "-h" \/ help = lit "--help" ->
  unambiguous is_decimal_digit rest ->
  Argparse.parse_args is_decimal_digit (help :: rest) w = help_action w.
Proof.
  intros Hhelp Hrest. unfold unambiguous in Hrest.
  unfold Argparse.parse_args. cbn [Argparse.arg_strings_pattern].
  destruct (Argparse.arg_strings_pattern is_decimal_digit rest) as [pattern|];
    [|contradiction Hrest; reflexivity].
  destruct Hhelp as [-> | ->]; apply print_help_run.
Qed.

(** ** Values of the options *)









(** * The properties of the specification *)

(** ** C4 *)

(** C4. A version-control query that fails (the subprocess exits with a
    non-zero status, or the executable is missing) makes [run_git_command]
    return the string "unknown" instead of raising; a query that exits
    with status zero returns its standard output without the surrounding
    whitespace. *)
Theorem run_git_command_degrades_to_unknown
    (w : World) (cwd : Path) (command : list arg) :
  let req := {| command := command; cwd := Some cwd; timeout := None |} in
  (command_failure (run_process w req) ->
     result (run_git_command cwd command) w = Ok unknown)
  /\ (forall out,
        run_process w req = Exited 0 out ->
        result (run_git_command cwd command) w = Ok (strip out)
        /\ surrounded_by_space out (strip out)
        /\ no_outer_space (strip out)).
Proof.
  intros req. unfold result. rewrite run_git_command_run. fold req. simpl.
  split.
  - intros [(rc & out & -> & Hrc) | ->]; simpl; auto.
    destruct (Z.eqb_spec rc 0); [contradiction | reflexivity].
  - intros out ->. simpl. split; [reflexivity | apply strip_spec].
Qed.

Lemma run_git_command_degrades_to_unknown_witness :
  let rev_parse := git ["rev-parse"; "HEAD"]%string in
  result (run_git_command [] rev_parse)
         (world_of [] [(rev_parse, Exited 128 (lit "fatal: not a git repository"))])
    = Ok unknown
  /\ result (run_git_command [] rev_parse) (world_of [] []) = Ok unknown
  /\ result (run_git_command [] rev_parse)
            (world_of [] [(rev_parse, Exited 0 (lit "  0a1b2c3 " ++ [10%N]))])
       = Ok (lit "0a1b2c3").
Proof.
  intros rev_parse. split; [|split].
  - apply (proj1 (run_git_command_degrades_to_unknown
                    (world_of [] [(rev_parse, Exited 128 (lit "fatal: not a git repository"))])
                    [] rev_parse)).
    left. exists 128%Z, (lit "fatal: not a git repository").
    split; [reflexivity | discriminate].
  - apply (proj1 (run_git_command_degrades_to_unknown (world_of [] []) [] rev_parse)).
    right. reflexivity.
  - apply (proj2 (run_git_command_degrades_to_unknown
                    (world_of [] [(rev_parse, Exited 0 (lit "  0a1b2c3 " ++ [10%N]))])
                    [] rev_parse)
                 (lit "  0a1b2c3 " ++ [10%N])).
    reflexivity.
Defined.

(** ** C1 *)







(** ** C2 *)





(** ** C3 *)

(** C3, as stated, fails: the existence check of a candidate path is
    made outside the [try] block, so a permission error met there (the
    build directory cannot be searched) is not caught; it leaves the
    probe and [get_duckdb_info], and the run ends with exit status 1
    without a metadata file. *)
Lemma denied_check_escapes_the_probe :
  let w := with_denied (first_binary [] release) (build_world None None) in
  path_exists w (first_binary [] release) = CheckDenied
  /\ result (probe_binary (first_binary [] release)) w = Raise PermissionError
  /\ result (get_duckdb_info [] (PyStr release)) w = Raise PermissionError
  /\ snd (script ascii_digit sample_argv w) = 1%Z
  /\ forall e, In e (fst (script ascii_digit sample_argv w)) -> is_write e = false.
Proof.
  intros w. repeat (split; [reflexivity|]).
  intros e He. vm_compute in He.
  repeat destruct He as [<- | He]; try reflexivity. destruct He.
Qed.

(** C3, amended. A probe of the built binary that fails once its path
    has been examined (the binary is missing, it does not answer within
    the timeout, it exits with a non-zero status, or it may not be
    executed) raises nothing and assigns nothing; every run of a binary
    is given the fixed timeout of 5 seconds; a probe raises only when its
    existence check raises or the binary cannot be run for a reason the
    loop does not catch, and an existence check that raises is not
    caught: its exception leaves the probe and, when the probe is
    reached, [get_duckdb_info].  When the probes of both candidate paths fail,
    the loop ends with "unknown", duckdb_version is "unknown" in whatever
    [get_duckdb_info] returns, and an exception leaving [get_duckdb_info]
    comes from the existence checks of duckdb/ and duckdb/.git or from
    one of its two git queries, not from the probes. *)
Theorem failed_probes_leave_version_unknown
    (w : World) (repo_root : Path) (build_type : str) :
  (forall p, probe_failure w p -> result (probe_binary p) w = Ok None)
  /\ (forall p r, In (ESpawn r) (trace (probe_binary p) w) -> timeout r = Some 5%Z)
  /\ (forall p e,
        result (probe_binary p) w = Raise e ->
        check_value (path_exists w p) = Raise e
        \/ (path_exists w p = Present
            /\ run_process w (version_request p) = Failed OtherFailure
            /\ e = OtherException))
  /\ (forall p e,
        check_value (path_exists w p) = Raise e ->
        result (probe_binary p) w = Raise e)
  /\ (forall e git_describe commit,
        path_exists w (duckdb_dir repo_root) = Present ->
        path_exists w (git_dir repo_root) = Present ->
        git_value (run_process w (describe_request repo_root)) = Ok git_describe ->
        git_value (run_process w (head_request (duckdb_dir repo_root))) = Ok commit ->
        check_value (path_exists w (first_binary repo_root build_type)) = Raise e ->
        result (get_duckdb_info repo_root (PyStr build_type)) w = Raise e)
  /\ ((forall p, In p (binary_paths repo_root build_type) -> probe_failure w p) ->
      result (probe_binaries (binary_paths repo_root build_type) unknown) w = Ok unknown
      /\ (forall info,
            result (get_duckdb_info repo_root (PyStr build_type)) w = Ok info ->
            DuckdbInfo.version info = unknown)
      /\ (forall e,
            result (get_duckdb_info repo_root (PyStr build_type)) w = Raise e ->
            check_value (path_exists w (duckdb_dir repo_root)) = Raise e
            \/ check_value (path_exists w (git_dir repo_root)) = Raise e
            \/ git_value (run_process w (describe_request repo_root)) = Raise e
            \/ git_value (run_process w (head_request (duckdb_dir repo_root))) = Raise e)).
Proof.
  split; [exact (probe_failure_goes_on w)|].
  split.
  { intros p r H. apply probe_binary_spawns in H as [-> _]. reflexivity. }
  split; [exact (probe_binary_raises w)|].
  split.
  { intros p e H. unfold result. rewrite probe_binary_run.
    destruct (path_exists w p); inversion H; reflexivity. }
  split.
  { intros e gd c Hdir Hgit Hdescribe Hhead Hcheck.
    unfold result. rewrite get_duckdb_info_run, Hdir, Hgit. cbn [check_value]. cbv zeta.
    rewrite Hdescribe, Hhead.
    change (binary_paths repo_root build_type)
      with [first_binary repo_root build_type; second_binary repo_root build_type].
    rewrite probe_binaries_two, probe_binary_run.
    destruct (path_exists w (first_binary repo_root build_type));
      inversion Hcheck; reflexivity. }
  intros Hfail.
  pose proof (probe_binaries_all_fail w _ unknown Hfail) as Hloop.
  split; [exact Hloop|].
  unfold result in *.
  run_duckdb_queries w repo_root; cbn [snd];
    try (split; [intros info H; inversion H; reflexivity | discriminate]);
    try (split; [discriminate | intros e H; inversion H; auto]).
  destruct (probe_binaries (binary_paths repo_root build_type) unknown w) as [probes r].
  simpl in *. subst r.
  split; [intros info H; inversion H; reflexivity | discriminate].
Qed.

Lemma failed_probes_leave_version_unknown_witness :
  let w := build_world (Some (Exited 1 [])) None in
  result (probe_binary (first_binary [] release)) w = Ok None
  /\ result (probe_binaries (binary_paths [] release) unknown) w = Ok unknown
  /\ (forall info,
        result (get_duckdb_info [] (PyStr release)) w = Ok info ->
        DuckdbInfo.version info = unknown).
Proof.
  intros w.
  assert (Hfirst : probe_failure w (first_binary [] release)).
  { right. split; [reflexivity|]. right; right; right.
    exists 1%Z, []. split; [reflexivity | discriminate]. }
  assert (Hsecond : probe_failure w (second_binary [] release)).
  { left. reflexivity. }
  assert (Hall : forall p, In p (binary_paths [] release) -> probe_failure w p).
  { intros p [<- | [<- | []]]; assumption. }
  destruct (failed_probes_leave_version_unknown w [] release)
    as (Hone & _ & _ & _ & _ & Hboth).
  destruct (Hboth Hall) as (Hloop & Hinfo & _).
  split; [exact (Hone _ Hfirst) | split; [exact Hloop | exact Hinfo]].
Defined.

(** ** C7 *)

(** C7, as stated, fails: a binary that exits with status zero and prints
    only a newline has succeeded with a non-empty output, yet that output
    has no token and duckdb_version stays "unknown". *)
Lemma blank_version_output_leaves_unknown :
  let w := build_world (Some (Exited 0 [10%N])) None in
  let p := first_binary [] release in
  In (ESpawn (version_request p)) (trace (get_duckdb_info [] (PyStr release)) w)
  /\ run_process w (version_request p) = Exited 0 [10%N]
  /\ truthy [10%N] = true
  /\ hd_error (split [10%N]) = None
  /\ exists info,
       result (get_duckdb_info [] (PyStr release)) w = Ok info
       /\ DuckdbInfo.version info = unknown.
Proof.
  intros w p.
  split; [vm_compute; auto 10|].
  repeat (split; [reflexivity|]).
  eexists; split; [vm_compute; reflexivity | reflexivity].
Qed.

Lemma hd_error_split_blank (out : str) :
  forallb is_space out = true <-> hd_error (split out) = None.
Proof.
  rewrite <- split_blank. destruct (split out); simpl; split; congruence.
Qed.

(** C7, amended. When a built binary is run with the version flag and
    exits with status zero: if it prints at least one non-whitespace
    character, [get_duckdb_info] returns and duckdb_version is the first
    whitespace-separated token of that output; if it prints whitespace
    only (or nothing), there is no token, the probe sets nothing and the
    loop goes on, so that duckdb_version is "unknown" unless the other
    binary answers with a token. *)
Theorem successful_probe_sets_version
    (w : World) (repo_root : Path) (build_type : str) (p : Path) (out : str) :
  In (ESpawn (version_request p))
     (trace (get_duckdb_info repo_root (PyStr build_type)) w) ->
  run_process w (version_request p) = Exited 0 out ->
  (forall tok,
      hd_error (split out) = Some tok ->
      exists info,
        result (get_duckdb_info repo_root (PyStr build_type)) w = Ok info
        /\ DuckdbInfo.version info = tok)
  /\ (forallb is_space out = true ->
      result (probe_binary p) w = Ok None
      /\ forall info,
           result (get_duckdb_info repo_root (PyStr build_type)) w = Ok info ->
           DuckdbInfo.version info = unknown
           \/ exists q tok,
                q <> p /\ In q (binary_paths repo_root build_type)
                /\ probe_success w q tok /\ DuckdbInfo.version info = tok)
  /\ (forallb is_space out = true <-> hd_error (split out) = None).
Proof.
  intros Hin Hrun.
  destruct (get_duckdb_info_probes w repo_root build_type p Hin)
    as (gd & c & _ & _ & Hloop & Hres).
  pose proof (probe_binaries_spawns _ _ _ _ Hloop) as (p' & Hp & Heq & Hex).
  apply version_request_inj in Heq; subst p'.
  split; [|split; [|exact (hd_error_split_blank out)]].
  - intros tok Htok.
    assert (Hsuccess : probe_success w p tok).
    { split; [exact Hex | exists out; auto]. }
    rewrite (probe_binaries_success w _ unknown p tok Hloop Hsuccess) in Hres.
    eexists; split; [exact Hres | reflexivity].
  - intros Hblank.
    assert (Hnone : probe_binary p w = ([EStat p; ESpawn (version_request p)], Ok None)).
    { rewrite probe_binary_run, Hex. cbn [check_value]. f_equal.
      apply probe_value_goes_on. left. exists 0%Z, out.
      split; [exact Hrun|]. right. apply split_blank, Hblank. }
    split; [unfold result; rewrite Hnone; reflexivity|].
    intros info Hinfo. rewrite Hres in Hinfo. clear Hres Hin.
    unfold result, trace in *.
    change (binary_paths repo_root build_type)
      with [first_binary repo_root build_type; second_binary repo_root build_type] in *.
    rewrite probe_binaries_two in *.
    destruct Hp as [<- | [<- | []]].
    + rewrite Hnone in *.
      destruct (probe_binary (second_binary repo_root build_type) w)
        as [t2 [[tok|]|e]] eqn:E2; cbn [fst snd] in *; inversion Hinfo; subst info;
        cbn [DuckdbInfo.version]; [right | left; reflexivity].
      exists (second_binary repo_root build_type), tok.
      split; [apply binaries_differ|]. split; [right; left; reflexivity|].
      split; [|reflexivity].
      assert (H2 : result (probe_binary (second_binary repo_root build_type)) w
                   = Ok (Some tok)) by (unfold result; rewrite E2; reflexivity).
      unfold result in H2. rewrite probe_binary_run in H2. unfold probe_success.
      destruct (path_exists w (second_binary repo_root build_type));
        cbn [check_value snd] in H2; try discriminate.
      split; [reflexivity|]. apply probe_value_found. exact H2.
    + destruct (probe_binary (first_binary repo_root build_type) w)
        as [t1 [[tok|]|e]] eqn:E1; cbn [fst snd] in *.
      * exfalso.
        pose proof (probe_binary_spawns w (first_binary repo_root build_type)
                      (version_request (second_binary repo_root build_type))) as Hs.
        unfold trace in Hs. rewrite E1 in Hs. destruct (Hs Hloop) as [Heq _].
        apply version_request_inj in Heq.
        exact (binaries_differ repo_root build_type Heq).
      * rewrite Hnone in *. cbn [fst snd] in *. inversion Hinfo; subst info.
        left; reflexivity.
      * discriminate.
Qed.

Lemma successful_probe_sets_version_witness :
  (exists info,
      result (get_duckdb_info [] (PyStr release))
             (build_world (Some (Exited 0 version_output)) None) = Ok info
      /\ DuckdbInfo.version info = lit "v1.4.1")
  /\ result (probe_binary (first_binary [] release))
            (build_world (Some (Exited 0 [10%N; 32%N])) None) = Ok None.
Proof.
  split.
  - apply (proj1 (successful_probe_sets_version
                    (build_world (Some (Exited 0 version_output)) None)
                    [] release (first_binary [] release) version_output
                    ltac:(vm_compute; auto 10) eq_refl)
                 (lit "v1.4.1")).
    reflexivity.
  - apply (proj1 (proj2 (successful_probe_sets_version
                           (build_world (Some (Exited 0 [10%N; 32%N])) None)
                           [] release (first_binary [] release) [10%N; 32%N]
                           ltac:(vm_compute; auto 10) eq_refl))).
    reflexivity.
Defined.

(** ** C10 *)

(** C10. The probe tries build/<build_type>/duckdb and then
    build/<build_type>/duckdb.exe.  A probe stops the loop exactly when
    the binary exists, exits with status zero and prints a first token;
    the loop then ends with that token and the second path is not looked
    at; the token is not empty and has no whitespace.  An existing binary
    that exits non-zero, prints no token, or
    raises one of the caught errors does not stop the loop: whenever the
    first probe does not stop it, the second path is looked at and the
    loop ends with what its probe gives, "unknown" if nothing. *)
Theorem probe_order_and_stop
    (w : World) (repo_root : Path) (build_type : str) :
  let first := first_binary repo_root build_type in
  let second := second_binary repo_root build_type in
  let loop := probe_binaries (binary_paths repo_root build_type) unknown in
  binary_paths repo_root build_type = [first; second]
  /\ (forall p tok, result (probe_binary p) w = Ok (Some tok) <-> probe_success w p tok)
  /\ (forall p tok, probe_success w p tok ->
                    tok <> [] /\ forallb (fun c => negb (is_space c)) tok = true)
  /\ (forall p, path_exists w p = Present -> probe_goes_on w p ->
                result (probe_binary p) w = Ok None)
  /\ (forall tok,
        probe_success w first tok ->
        result loop w = Ok tok
        /\ trace loop w = trace (probe_binary first) w
        /\ ~ In (EStat second) (trace loop w))
  /\ (result (probe_binary first) w = Ok None ->
      trace loop w = trace (probe_binary first) w ++ trace (probe_binary second) w
      /\ In (EStat second) (trace loop w)
      /\ result loop w =
         match result (probe_binary second) w with
         | Ok (Some tok) => Ok tok
         | Ok None => Ok unknown
         | Raise e => Raise e
         end).
Proof.
  intros first second loop.
  assert (Hfound : forall p tok,
             result (probe_binary p) w = Ok (Some tok) <-> probe_success w p tok).
  { intros p tok. unfold result, probe_success. rewrite probe_binary_run.
    destruct (path_exists w p); simpl;
      try (split; [discriminate | intros [H _]; discriminate]).
    rewrite probe_value_found. tauto. }
  split; [reflexivity|]. split; [exact Hfound|]. split; [|split; [|split]].
  - intros p tok (_ & out & _ & Htok). exact (first_token out tok Htok).
  - intros p Hex Hgo. unfold result. rewrite probe_binary_run, Hex. simpl.
    apply probe_value_goes_on. exact Hgo.
  - intros tok Hsuccess. apply Hfound in Hsuccess.
    unfold loop, trace, result in *.
    change (binary_paths repo_root build_type) with [first; second].
    rewrite probe_binaries_cons.
    destruct (probe_binary_starts_with_check w first) as (t & Ht & Hno).
    unfold trace in Ht.
    destruct (probe_binary first w) as [t1 r]; cbn [fst snd] in *. subst r t1.
    repeat split. cbn [fst snd].
    intros [H | H]; [|exact (Hno _ H)].
    inversion H as [H']. exact (binaries_differ repo_root build_type (eq_sym H')).
  - intros Hnone. unfold loop, trace, result in *.
    change (binary_paths repo_root build_type) with [first; second].
    rewrite probe_binaries_cons.
    destruct (probe_binary first w) as [t1 r]; cbn [fst snd] in *. subst r.
    rewrite probe_binaries_cons, probe_binaries_nil.
    destruct (probe_binary_starts_with_check w second) as (t & Ht & _).
    unfold trace in Ht.
    destruct (probe_binary second w) as [t2 [[tok|]|e]]; cbn [fst snd] in *; subst t2;
      rewrite ?app_nil_r; repeat split; apply in_app_iff; right; left; reflexivity.
Qed.

Lemma probe_order_and_stop_witness :
  let stops := build_world (Some (Exited 0 version_output)) (Some (Exited 0 version_output)) in
  let goes_on := build_world (Some (Exited 3 version_output)) (Some (Exited 0 version_output)) in
  (result (probe_binaries (binary_paths [] release) unknown) stops = Ok (lit "v1.4.1")
   /\ ~ In (EStat (second_binary [] release))
           (trace (probe_binaries (binary_paths [] release) unknown) stops))
  /\ (In (EStat (second_binary [] release))
         (trace (probe_binaries (binary_paths [] release) unknown) goes_on)
      /\ result (probe_binaries (binary_paths [] release) unknown) goes_on
         = Ok (lit "v1.4.1")).
Proof.
  intros stops goes_on. split.
  - destruct (probe_order_and_stop stops [] release) as (_ & _ & _ & _ & Hstop & _).
    destruct (Hstop (lit "v1.4.1")) as (Hres & _ & Hnot).
    + split; [reflexivity|]. exists version_output. split; reflexivity.
    + split; [exact Hres | exact Hnot].
  - destruct (probe_order_and_stop goes_on [] release) as (_ & _ & _ & Hgo & _ & Hnext).
    assert (Hnone : result (probe_binary (first_binary [] release)) goes_on = Ok None).
    { apply Hgo; [reflexivity|].
      left. exists 3%Z, version_output. split; [reflexivity|]. left. discriminate. }
    destruct (Hnext Hnone) as (_ & Hin & Hres).
    split; [exact Hin | exact Hres].
Defined.

(** ** C5 *)

(** C5. When none of the three queries of [get_extension_info] raises, it
    returns, and: if no tag points at the current commit (the tag query
    succeeds and prints nothing), extension_version is the value of the
    short-hash query, that is the abbreviated hash git printed; and
    extension_version is not empty whenever git answers the short-hash
    query as it does inside a repository, with an abbreviated hash or
    with a failure. *)
Theorem untagged_version_is_short_hash
    (w : World) (repo_root : Path) (tag commit short_commit : str) :
  git_value (run_process w (tag_request repo_root)) = Ok tag ->
  git_value (run_process w (head_request repo_root)) = Ok commit ->
  git_value (run_process w (short_request repo_root)) = Ok short_commit ->
  exists info,
    result (get_extension_info repo_root) w = Ok info
    /\ (no_tag_at_head w repo_root ->
        ExtensionInfo.version info = short_commit
        /\ forall out, run_process w (short_request repo_root) = Exited 0 out ->
                       ExtensionInfo.version info = strip out)
    /\ (short_hash_or_failure w repo_root -> ExtensionInfo.version info <> []).
Proof.
  intros Htag Hhead Hshort.
  eexists. split; [apply (get_extension_info_returns w repo_root _ _ _ Htag Hhead Hshort)|].
  cbn [ExtensionInfo.version]. split.
  - intros Hnone. apply git_value_empty in Hnone.
    rewrite Hnone in Htag. inversion Htag; subst tag.
    split; [reflexivity|].
    intros out Hrun. rewrite Hrun in Hshort. simpl in Hshort.
    inversion Hshort; reflexivity.
  - intros Hgit. unfold extension_version.
    destruct (truthy tag && negb (str_eqb tag unknown)) eqn:E.
    + apply andb_true_iff in E as [E _]. destruct tag; [discriminate | discriminate].
    + destruct (run_process w (short_request repo_root)) as [rc out | f] eqn:Erun.
      * simpl in Hshort. destruct (Z.eqb_spec rc 0) as [->|].
        -- inversion Hshort; subst.
           apply (abbreviated_hash_not_unknown _ (Hgit out Erun)).
        -- inversion Hshort; discriminate.
      * destruct f; inversion Hshort; discriminate.
Qed.

Lemma untagged_version_is_short_hash_witness :
  let w := repo_world (Exited 0 [10%N]) (Exited 0 (lit "4f1d2c9" ++ [10%N])) in
  exists info,
    result (get_extension_info []) w = Ok info
    /\ ExtensionInfo.version info = lit "4f1d2c9"
    /\ ExtensionInfo.version info <> [].
Proof.
  intros w.
  destruct (untagged_version_is_short_hash
              w [] [] (lit "4f1d2c9a8b7e6f5a4d3c2b1a0f9e8d7c6b5a4f3e") (lit "4f1d2c9")
              eq_refl eq_refl eq_refl)
    as (info & Hres & Hnone & Hnonempty).
  exists info. split; [exact Hres|]. split.
  - apply Hnone. exists [10%N]. split; reflexivity.
  - apply Hnonempty. intros out Hrun. inversion Hrun. reflexivity.
Defined.

(** ** C9 *)

(** C9. When none of the three queries of [get_extension_info] raises and
    the tag query either lists no tag or fails (and so yields "unknown"),
    extension_version is the value of the short-hash query in both cases;
    it is then the literal "unknown" exactly when the short-hash query
    itself fails, git never printing that word as a hash. *)
Theorem failed_tag_query_falls_back
    (w : World) (repo_root : Path) (tag commit short_commit : str) :
  git_value (run_process w (tag_request repo_root)) = Ok tag ->
  git_value (run_process w (head_request repo_root)) = Ok commit ->
  git_value (run_process w (short_request repo_root)) = Ok short_commit ->
  no_tag_at_head w repo_root \/ command_failure (run_process w (tag_request repo_root)) ->
  short_hash_or_failure w repo_root ->
  exists info,
    result (get_extension_info repo_root) w = Ok info
    /\ ExtensionInfo.version info = short_commit
    /\ (ExtensionInfo.version info = unknown
        <-> command_failure (run_process w (short_request repo_root))).
Proof.
  intros Htag Hhead Hshort Hfallback Hgit.
  eexists. split; [apply (get_extension_info_returns w repo_root _ _ _ Htag Hhead Hshort)|].
  cbn [ExtensionInfo.version].
  assert (Hversion : extension_version tag short_commit = short_commit).
  { apply extension_version_fallback.
    destruct Hfallback as [Hnone | Hfailed].
    - left. apply git_value_empty in Hnone. congruence.
    - right. apply git_value_failure in Hfailed. congruence. }
  rewrite Hversion. split; [reflexivity|]. split.
  - intros ->. apply git_value_unknown in Hshort as [Hfailed | (out & Hrun & Hout)];
      [exact Hfailed|].
    apply Hgit in Hrun. rewrite Hout in Hrun. discriminate.
  - intros Hfailed. apply git_value_failure in Hfailed. congruence.
Qed.

Lemma failed_tag_query_falls_back_witness :
  let not_a_repository :=
    repo_world (Exited 128 (lit "fatal: not a git repository"))
               (Exited 128 (lit "fatal: not a git repository")) in
  let flaky_tag_query :=
    repo_world (Exited 1 []) (Exited 0 (lit "4f1d2c9" ++ [10%N])) in
  (exists info,
      result (get_extension_info []) not_a_repository = Ok info
      /\ ExtensionInfo.version info = unknown)
  /\ (exists info,
        result (get_extension_info []) flaky_tag_query = Ok info
        /\ ExtensionInfo.version info = lit "4f1d2c9"
        /\ ExtensionInfo.version info <> unknown).
Proof.
  intros not_a_repository flaky_tag_query. split.
  - destruct (failed_tag_query_falls_back
                not_a_repository [] unknown
                (lit "4f1d2c9a8b7e6f5a4d3c2b1a0f9e8d7c6b5a4f3e") unknown
                eq_refl eq_refl eq_refl)
      as (info & Hres & Hversion & _).
    + right. left. eexists _, _. split; [reflexivity | discriminate].
    + intros out Hrun. inversion Hrun.
    + exists info. split; [exact Hres | exact Hversion].
  - destruct (failed_tag_query_falls_back
                flaky_tag_query [] unknown
                (lit "4f1d2c9a8b7e6f5a4d3c2b1a0f9e8d7c6b5a4f3e") (lit "4f1d2c9")
                eq_refl eq_refl eq_refl)
      as (info & Hres & Hversion & Hiff).
    + right. left. eexists _, _. split; [reflexivity | discriminate].
    + intros out Hrun. inversion Hrun. reflexivity.
    + exists info. split; [exact Hres|]. split; [exact Hversion|].
      rewrite Hversion. discriminate.
Defined.

(** ** C8 *)

(** C8. In a run whose command line parses, with the system clock reading
    a date not before 1970, the build_date of every record written is the
    clock reading formatted by "%Y-%m-%dT%H:%M:%SZ": it matches the
    pattern YYYY-MM-DDTHH:MM:SSZ and reads back as a valid UTC instant,
    the clock reading of the run to the second. *)
Theorem build_date_is_utc_timestamp
    (is_decimal_digit : codepoint -> bool) (argv : list str) (w : World)
    (args : Namespace) :
  result (Argparse.parse_args is_decimal_digit argv) w = Ok args ->
  clock_reading (utcnow w) = true ->
  forall p d indent,
    In (EWriteJson p d indent) (fst (script is_decimal_digit argv w)) ->
    exists s,
      dict_get (lit "build_date") d = Some (PyStr s)
      /\ s = strftime build_date_format (utcnow w)
      /\ matches_timestamp_pattern s = true
      /\ parse_timestamp s = Some (whole_second (utcnow w))
      /\ valid_datetime (whole_second (utcnow w)) = true.
Proof.
  intros Hparse Hclock p d n He.
  apply (script_write _ _ _ _ _ _ _ Hparse) in He.
  apply create_metadata_write in He as (di & ei & directory & _ & _ & _ & _ & -> & _).
  exists (strftime build_date_format (utcnow w)).
  split; [apply metadata_dict_build_date|]. split; [reflexivity|].
  exact (strftime_build_date_spec (utcnow w) Hclock).
Qed.

Lemma build_date_is_utc_timestamp_witness :
  exists s,
    dict_get (lit "build_date") sample_record = Some (PyStr s)
    /\ s = strftime build_date_format (utcnow (world_of [] []))
    /\ matches_timestamp_pattern s = true
    /\ parse_timestamp s = Some (whole_second (utcnow (world_of [] [])))
    /\ valid_datetime (whole_second (utcnow (world_of [] []))) = true.
Proof.
  apply (build_date_is_utc_timestamp
           ascii_digit sample_argv (world_of [] []) sample_args eq_refl eq_refl
           (output_file (world_of [] []) release) sample_record 2%N).
  vm_compute. auto 20.
Defined.

Example sample_build_date :
  dict_get (lit "build_date") sample_record = Some (PyStr (lit "2024-05-17T09:03:41Z")).
Proof. reflexivity. Qed.

(** ** C6 *)

(** C6, as stated, fails: the command line [--help] omits the required
    option extension-name (and the other two), and the run ends with exit
    status 0. *)
Lemma help_without_required_options_exits_0 :
  omits ascii_digit Argparse.ExtensionName [lit "--help"]
  /\ script ascii_digit [lit "--help"] (world_of [] []) = ([EStdout HelpText], 0%Z).
Proof.
  split; [|reflexivity].
  intros arg_string os e [<- | []]. vm_compute. discriminate.
Qed.

Lemma omits_not_names (is_decimal_digit : codepoint -> bool) (a : Argparse.option_id)
    (argv : list str) :
  omits is_decimal_digit a argv -> names is_decimal_digit a argv -> False.
Proof.
  intros Homits (arg_string & os & e & Hin & Hopt). exact (Homits _ _ _ Hin Hopt).
Qed.

(** C6, amended. When the command line parses, the exit status is 0 if
    [create_metadata] returns and standard output takes what was printed
    (120 if its flush at the exit of the interpreter fails), and 1 if
    [create_metadata] raises, whatever the exception.  When a required
    option is omitted, no output file is written and the run does nothing
    but print: the usage error on standard error, with exit status 2, if
    no argument string is a help option; otherwise the usage error with
    status 2 or the help text with status 0 (1 or 120 when standard
    output fails).  A help option at the head of a command line without
    ambiguous abbreviations prints the help text with exit status 0,
    whatever is omitted.  (Standard error is taken to accept every
    message.) *)
Theorem exit_status_of_a_run
    (is_decimal_digit : codepoint -> bool) (argv : list str) (w : World) :
  (forall args,
      result (Argparse.parse_args is_decimal_digit argv) w = Ok args ->
      (forall status,
          result (create_metadata args) w = Ok status ->
          snd (script is_decimal_digit argv w) = status_after_output w
          /\ (stdout_stream w = Accepts -> snd (script is_decimal_digit argv w) = 0%Z))
      /\ (forall e,
            result (create_metadata args) w = Raise e ->
            snd (script is_decimal_digit argv w) = 1%Z))
  /\ (forall a,
        Argparse.required a = true ->
        omits is_decimal_digit a argv ->
        (omits is_decimal_digit Argparse.Help argv ->
         script is_decimal_digit argv w = ([EStderr UsageError], 2%Z))
        /\ (script is_decimal_digit argv w = ([EStderr UsageError], 2%Z)
            \/ (names is_decimal_digit Argparse.Help argv
                /\ script is_decimal_digit argv w = help_run w))
        /\ (forall e, In e (fst (script is_decimal_digit argv w)) -> is_write e = false))
  /\ (forall help rest,
        argv = help :: rest ->
        help = lit "-h" \/ help = lit "--help" ->
        unambiguous is_decimal_digit rest ->
        script is_decimal_digit argv w = help_run w
        /\ (stdout_stream w = Accepts ->
            script is_decimal_digit argv w = ([EStdout HelpText], 0%Z))).
Proof.
  split; [|split].
  - intros args Hparse. rewrite (script_parsed _ _ _ _ Hparse).
    unfold result in *.
    destruct (create_metadata args w) as [t [status|e]]; simpl in *.
    + split; [|discriminate]. intros status' _. split; [reflexivity|].
      intros Hout. unfold status_after_output. rewrite Hout. reflexivity.
    + split; [discriminate | reflexivity].
  - intros a Hreq Homits.
    assert (Hways : script is_decimal_digit argv w = ([EStderr UsageError], 2%Z)
                    \/ (names is_decimal_digit Argparse.Help argv
                        /\ script is_decimal_digit argv w = help_run w)).
    { destruct (script_cases is_decimal_digit argv w)
        as [[args Hparse] | [[_ Hrun] | [Hparse Hrun]]].
      - exfalso. apply (omits_not_names _ _ _ Homits).
        exact (parse_args_names_required is_decimal_digit argv w args a Hparse Hreq).
      - left. exact Hrun.
      - right. split; [exact (parse_args_help _ _ _ Hparse) | exact Hrun]. }
    split; [|split; [exact Hways|]].
    + intros Hnohelp. destruct Hways as [Hrun | [Hhelp _]]; [exact Hrun|].
      destruct (omits_not_names _ _ _ Hnohelp Hhelp).
    + intros e He. destruct Hways as [Hrun | [_ Hrun]]; rewrite Hrun in He.
      * destruct He as [<- | []]. reflexivity.
      * apply help_run_events in He. subst e. reflexivity.
  - intros help rest -> Hhelp Hrest.
    pose proof (script_help _ _ _ (help_first is_decimal_digit help rest w Hhelp Hrest))
      as Hrun.
    split; [exact Hrun|]. intros Hout. rewrite Hrun. unfold help_run.
    rewrite Hout. reflexivity.
Qed.

Lemma exit_status_of_a_run_witness :
  snd (script ascii_digit sample_argv (world_of [] [])) = 0%Z
  /\ snd (script ascii_digit sample_argv (with_stdout FailsAtExit (world_of [] []))) = 120%Z
  /\ snd (script ascii_digit sample_argv readonly_world) = 1%Z
  /\ script ascii_digit (map lit ["--build-type"; "release"]%string) (world_of [] [])
     = ([EStderr UsageError], 2%Z)
  /\ script ascii_digit (map lit ["--help"; "--build-type"; "release"]%string)
            (world_of [] [])
     = ([EStdout HelpText], 0%Z).
Proof.
  split; [|split; [|split; [|split]]].
  - apply (proj1 (proj1 (exit_status_of_a_run ascii_digit sample_argv (world_of [] []))
                         sample_args eq_refl) 0%Z eq_refl).
    reflexivity.
  - apply (proj1 (proj1 (proj1 (exit_status_of_a_run ascii_digit sample_argv
                                  (with_stdout FailsAtExit (world_of [] [])))
                                sample_args eq_refl) 0%Z eq_refl)).
  - apply (proj2 (proj1 (exit_status_of_a_run ascii_digit sample_argv readonly_world)
                         sample_args eq_refl) PermissionError).
    reflexivity.
  - apply (proj1 (proj2 (exit_status_of_a_run
                           ascii_digit (map lit ["--build-type"; "release"]%string)
                           (world_of [] [])))
                 Argparse.ExtensionName eq_refl).
    + intros arg_string os e [<- | [<- | []]]; vm_compute; discriminate.
    + intros arg_string os e [<- | [<- | []]]; vm_compute; discriminate.
  - apply (proj2 (proj2 (exit_status_of_a_run
                           ascii_digit
                           (map lit ["--help"; "--build-type"; "release"]%string)
                           (world_of [] [])))
                 (lit "--help") (map lit ["--build-type"; "release"]%string) eq_refl).
    + right. reflexivity.
    + vm_compute. discriminate.
    + reflexivity.
Defined.

(** * Further properties of the script *)

(** ** Subsequences and traces *)

Lemma subseq_refl {A : Type} (l : list A) : subseq l l.
Proof. induction l; [apply subseq_nil | apply subseq_take; assumption]. Qed.

Lemma subseq_In {A : Type} (s l : list A) (x : A) : subseq s l -> In x s -> In x l.
Proof.
  induction 1 as [l | y s l _ IH | y s l _ IH]; simpl; [intros [] | auto |].
  intros [H | H]; auto.
Qed.

Lemma subseq_length {A : Type} (s l : list A) :
  subseq s l -> (List.length s <= List.length l)%nat.
Proof. induction 1; simpl; lia. Qed.

Lemma subseq_NoDup {A : Type} (s l : list A) : subseq s l -> NoDup l -> NoDup s.
Proof.
  induction 1 as [l | y s l Hs IH | y s l Hs IH]; intros Hl.
  - apply NoDup_nil.
  - inversion Hl; auto.
  - inversion Hl as [|? ? Hy Hl']; subst. apply NoDup_cons; auto.
    intros Hin. apply Hy. eapply subseq_In; eauto.
Qed.

Lemma subseq_app {A : Type} (s1 l1 s2 l2 : list A) :
  subseq s1 l1 -> subseq s2 l2 -> subseq (s1 ++ s2) (l1 ++ l2).
Proof.
  induction 1 as [l | y s l _ IH | y s l _ IH]; intros H2; simpl.
  - induction l; simpl; [assumption | apply subseq_skip; assumption].
  - apply subseq_skip; auto.
  - apply subseq_take; auto.
Qed.

Lemma spawned_app (t1 t2 : list event) : spawned (t1 ++ t2) = spawned t1 ++ spawned t2.
Proof. unfold spawned. apply flat_map_app. Qed.

Lemma stderr_of_app (t1 t2 : list event) :
  stderr_of (t1 ++ t2) = stderr_of t1 ++ stderr_of t2.
Proof. unfold stderr_of. apply flat_map_app. Qed.

Lemma checked_app (t1 t2 : list event) : checked (t1 ++ t2) = checked t1 ++ checked t2.
Proof. unfold checked. apply flat_map_app. Qed.

Lemma spawned_In (t : list event) (r : Request) : In r (spawned t) <-> In (ESpawn r) t.
Proof.
  unfold spawned. rewrite in_flat_map. split.
  - intros (e & He & Hr). destruct e; simpl in Hr; try contradiction.
    destruct Hr as [<- | []]. exact He.
  - intros H. exists (ESpawn r). split; [exact H | left; reflexivity].
Qed.

(** ** The traces of the two lookups *)

Ltac subseq_by_scan :=
  repeat first [ apply subseq_nil | apply subseq_take | apply subseq_skip ].

Lemma get_duckdb_info_spawned (w : World) (repo_root : Path) (build_type : pyval) :
  subseq (spawned (trace (get_duckdb_info repo_root build_type) w))
         ([ describe_request repo_root; head_request (duckdb_dir repo_root) ]
          ++ version_requests repo_root build_type).
Proof.
  unfold trace. run_duckdb_info w repo_root build_type; cbn; subseq_by_scan.
Qed.

Lemma get_extension_info_spawned (w : World) (repo_root : Path) :
  subseq (spawned (trace (get_extension_info repo_root) w))
         [ tag_request repo_root; head_request repo_root; short_request repo_root ].
Proof.
  unfold trace. rewrite get_extension_info_run.
  destruct (git_value (run_process w (tag_request repo_root)));
    [destruct (git_value (run_process w (head_request repo_root)))|];
    cbn; subseq_by_scan.
Qed.

Lemma path_not_longer (p : Path) (c : str) : p // c <> p.
Proof.
  unfold joinpath. intros H. apply (f_equal (@List.length _)) in H.
  rewrite length_app in H. simpl in H. lia.
Qed.

Lemma known_requests_distinct (repo_root : Path) (build_type : pyval) :
  NoDup (known_requests repo_root build_type).
Proof.
  assert (Hcwd : head_request (duckdb_dir repo_root) <> head_request repo_root).
  { intros H. inversion H as [H']. exact (path_not_longer _ _ H'). }
  assert (Hbin : forall directory,
             version_request (first_binary repo_root directory)
             <> version_request (second_binary repo_root directory)).
  { intros directory H. apply version_request_inj in H.
    exact (binaries_differ repo_root directory (eq_sym H)). }
  unfold known_requests, version_requests.
  destruct build_type as [|directory|]; cbn [app];
    try specialize (Hbin directory);
    repeat (apply NoDup_cons;
            [ simpl; intros H;
              repeat (destruct H as [H | H]);
              try discriminate H; try contradiction;
              try (symmetry in H; contradiction)
            | ]);
    apply NoDup_nil.
Qed.

Lemma known_requests_length (repo_root : Path) (build_type : pyval) :
  (List.length (known_requests repo_root build_type) <= 7)%nat.
Proof. destruct build_type; simpl; lia. Qed.

Lemma known_requests_kinds (repo_root : Path) (build_type : pyval) (r : Request) :
  In r (known_requests repo_root build_type) ->
  (exists dir words, r = git_request dir words)
  \/ (exists binary_path, r = version_request binary_path).
Proof.
  destruct build_type as [|directory|]; simpl; intros H;
    repeat destruct H as [<- | H]; try contradiction;
    try (left; eexists _, _; reflexivity); right; eexists; reflexivity.
Qed.

Lemma output_step_spawned (w : World) (build_type : pyval) (metadata : dict) :
  spawned (fst (output_step w build_type metadata)) = [].
Proof.
  unfold output_step.
  destruct build_type as [|directory|]; try reflexivity.
  destruct (mkdir_failure w _); [reflexivity|].
  destruct (open_failure w _); [reflexivity|].
  destruct (stdout_stream w); reflexivity.
Qed.

(** The trace of [create_metadata]: the two lookups, then the output
    step. *)
Lemma create_metadata_shape (w : World) (args : Namespace) :
  exists lookups tail,
    trace (create_metadata args) w = lookups ++ tail
    /\ forallb is_lookup_event lookups = true
    /\ subseq (spawned lookups) (known_requests (getcwd w) (build_type args))
    /\ spawned tail = []
    /\ ((tail = [] /\ exists e, result (create_metadata args) w = Raise e)
        \/ exists duckdb_info extension_info,
             result (get_duckdb_info (getcwd w) (build_type args)) w = Ok duckdb_info
             /\ result (get_extension_info (getcwd w)) w = Ok extension_info
             /\ create_metadata args w
                = (lookups
                   ++ fst (output_step w (build_type args)
                             (metadata_dict args extension_info duckdb_info (utcnow w))),
                   snd (output_step w (build_type args)
                          (metadata_dict args extension_info duckdb_info (utcnow w))))
             /\ tail = fst (output_step w (build_type args)
                              (metadata_dict args extension_info duckdb_info (utcnow w)))).
Proof.
  unfold trace, result. rewrite create_metadata_run.
  pose proof (get_duckdb_info_lookup_only w (getcwd w) (build_type args)) as L1.
  pose proof (get_extension_info_lookup_only w (getcwd w)) as L2.
  pose proof (get_duckdb_info_spawned w (getcwd w) (build_type args)) as S1.
  pose proof (get_extension_info_spawned w (getcwd w)) as S2.
  unfold trace in *.
  assert (Hboth : forall t1 t2,
             subseq (spawned t1)
                    ([ describe_request (getcwd w); head_request (duckdb_dir (getcwd w)) ]
                     ++ version_requests (getcwd w) (build_type args)) ->
             subseq (spawned t2)
                    [ tag_request (getcwd w); head_request (getcwd w);
                      short_request (getcwd w) ] ->
             subseq (spawned (t1 ++ t2)) (known_requests (getcwd w) (build_type args))).
  { intros t1 t2 H1 H2. rewrite spawned_app. unfold known_requests.
    rewrite app_assoc. exact (subseq_app _ _ _ _ H1 H2). }
  destruct (get_duckdb_info (getcwd w) (build_type args) w) as [t1 [di|e1]];
    cbn [fst snd] in *.
  - destruct (get_extension_info (getcwd w) w) as [t2 [ei|e2]]; cbn [fst snd] in *.
    + cbv zeta.
      exists (t1 ++ t2),
             (fst (output_step w (build_type args) (metadata_dict args ei di (utcnow w)))).
      rewrite <- app_assoc.
      split; [reflexivity|]. split; [auto using lookup_only_app|].
      split; [auto|]. split; [apply output_step_spawned|].
      right. exists di, ei. rewrite <- app_assoc. auto.
    + exists (t1 ++ t2), []. rewrite app_nil_r.
      split; [reflexivity|]. split; [auto using lookup_only_app|].
      split; [auto|]. split; [reflexivity|]. left. split; [reflexivity|]. eauto.
  - exists t1, []. rewrite app_nil_r.
    split; [reflexivity|]. split; [assumption|]. split.
    { rewrite <- (app_nil_r t1). apply Hboth; [exact S1 | apply subseq_nil]. }
    split; [reflexivity|]. left. split; [reflexivity|]. eauto.
Qed.

(** ** X1 *)

(** X1. Every run ends in one of four ways: a usage error and exit
    status 2 with nothing else done; the help action with nothing else
    done (the help text and exit status 0 when standard output takes it);
    the events of [create_metadata] and exit status 0; or the events of
    [create_metadata] up to the exception, then the message "Error
    creating metadata" on standard error and exit status 1.  Where
    something was printed on standard output and its flush at the exit of
    the interpreter fails, the exit status is 120 instead; a help text
    that cannot be written ends the run with status 1.  So the exit
    status is 0, 1, 2 or 120, and 120 exactly when that flush fails.
    (Standard error is taken to accept every message.) *)
Theorem run_ends_in_one_of_four_ways
    (is_decimal_digit : codepoint -> bool) (argv : list str) (w : World) :
  (script is_decimal_digit argv w = ([EStderr UsageError], 2%Z)
   \/ script is_decimal_digit argv w = help_run w
   \/ (exists args,
         result (Argparse.parse_args is_decimal_digit argv) w = Ok args
         /\ result (create_metadata args) w = Ok 0%Z
         /\ script is_decimal_digit argv w
            = (trace (create_metadata args) w, status_after_output w))
   \/ (exists args e,
         result (Argparse.parse_args is_decimal_digit argv) w = Ok args
         /\ result (create_metadata args) w = Raise e
         /\ script is_decimal_digit argv w
            = (trace (create_metadata args) w ++ [EStderr (ErrorCreatingMetadata e)],
               1%Z)))
  /\ (snd (script is_decimal_digit argv w) = 0%Z
      \/ snd (script is_decimal_digit argv w) = 1%Z
      \/ snd (script is_decimal_digit argv w) = 2%Z
      \/ snd (script is_decimal_digit argv w) = 120%Z)
  /\ (snd (script is_decimal_digit argv w) = 120%Z <->
      stdout_stream w = FailsAtExit
      /\ exists m, In (EStdout m) (fst (script is_decimal_digit argv w))).
Proof.
  assert (Hways :
    script is_decimal_digit argv w = ([EStderr UsageError], 2%Z)
    \/ script is_decimal_digit argv w = help_run w
    \/ (exists args,
          result (Argparse.parse_args is_decimal_digit argv) w = Ok args
          /\ result (create_metadata args) w = Ok 0%Z
          /\ script is_decimal_digit argv w
             = (trace (create_metadata args) w, status_after_output w))
    \/ (exists args e,
          result (Argparse.parse_args is_decimal_digit argv) w = Ok args
          /\ result (create_metadata args) w = Raise e
          /\ script is_decimal_digit argv w
             = (trace (create_metadata args) w ++ [EStderr (ErrorCreatingMetadata e)],
                1%Z))).
  { destruct (script_cases is_decimal_digit argv w)
      as [[args Hparse] | [[_ Hrun] | [_ Hrun]]]; [|auto|auto].
    rewrite (script_parsed _ _ _ _ Hparse).
    pose proof (create_metadata_returns_zero w args) as Hzero.
    unfold trace, result in *.
    destruct (create_metadata args w) as [t [status|e]] eqn:E; cbn [fst snd] in *.
    - right; right; left. exists args.
      rewrite E. cbn [fst snd]. rewrite (Hzero status eq_refl). auto.
    - right; right; right. exists args, e. rewrite E. auto. }
  split; [exact Hways|].
  assert (Hstdout : forall t, existsb is_stdout t = true <-> exists m, In (EStdout m) t).
  { intros t. rewrite existsb_exists. split.
    - intros (e & He & Hm). destruct e; try discriminate Hm. eauto.
    - intros (m & Hm). exists (EStdout m). auto. }
  destruct Hways as [H | [H | [(args & _ & Hres & H) | (args & e & _ & Hres & H)]]];
    rewrite H; cbn [fst snd].
  - split; [auto|]. split; [discriminate|].
    intros (_ & m & [Hm | []]). discriminate.
  - unfold help_run. destruct (stdout_stream w); cbn [fst snd];
      (split; [auto|]); (split; [try discriminate | try (intros [? _]; discriminate)]).
    + intros _. split; [reflexivity | eexists; left; reflexivity].
    + reflexivity.
  - pose proof (create_metadata_stdout w args) as Hout. rewrite Hres in Hout.
    apply Hstdout in Hout.
    unfold status_after_output. destruct (stdout_stream w);
      (split; [auto|]); (split; [try discriminate | try (intros [? _]; discriminate)]);
      auto.
  - split; [auto|]. split; [discriminate|].
    pose proof (create_metadata_stdout w args) as Hout. rewrite Hres in Hout.
    intros (_ & m & Hm). apply in_app_iff in Hm as [Hm | [Hm | []]]; [|discriminate].
    assert (Htrue : existsb is_stdout (trace (create_metadata args) w) = true)
      by (apply Hstdout; eauto).
    congruence.
Qed.

Lemma run_ends_in_one_of_four_ways_witness :
  let w := with_stdout FailsAtExit (world_of [] []) in
  snd (script ascii_digit sample_argv w) = 120%Z
  /\ snd (script ascii_digit [lit "--help"] w) = 120%Z
  /\ snd (script ascii_digit [] w) = 2%Z.
Proof.
  intros w.
  pose proof (proj2 (proj2 (run_ends_in_one_of_four_ways ascii_digit sample_argv w)))
    as Hrun.
  pose proof (proj2 (proj2 (run_ends_in_one_of_four_ways ascii_digit [lit "--help"] w)))
    as Hhelp.
  split; [|split].
  - apply Hrun. split; [reflexivity|]. eexists. vm_compute. auto 20.
  - apply Hhelp. split; [reflexivity|]. eexists. vm_compute. auto.
  - reflexivity.
Defined.

(** ** X2 *)

(** X2. A run writes at most one file.  When it writes one, the command
    line was parsed, the build type is a string, everything before is
    lookups (existence checks, subprocesses, warnings), the output
    directory is created just before the write and the file is
    build/<build_type>/metadata.json written with indentation 2.  When
    standard output takes what is printed, the same record is then
    printed after the line "Created metadata file" and the exit status is
    0; when its flush at the exit of the interpreter fails, the status is
    120; when the write to it raises, nothing is printed, the exception
    is reported on standard error and the status is 1, the file staying
    written.  (Standard error is taken to accept every message.) *)
Theorem record_written_once_and_echoed
    (is_decimal_digit : codepoint -> bool) (argv : list str) (w : World)
    (p : Path) (d : dict) (indent : N) :
  In (EWriteJson p d indent) (fst (script is_decimal_digit argv w)) ->
  exists args directory lookups,
    result (Argparse.parse_args is_decimal_digit argv) w = Ok args
    /\ build_type args = PyStr directory
    /\ forallb is_lookup_event lookups = true
    /\ script is_decimal_digit argv w
       = match stdout_stream w with
         | Accepts =>
             (lookups
              ++ [ EMkdir (output_dir w directory);
                   EWriteJson (output_file w directory) d 2;
                   EStdout (CreatedMetadataFile (output_file w directory));
                   EStdout (JsonText d 2) ],
              0%Z)
         | FailsAtExit =>
             (lookups
              ++ [ EMkdir (output_dir w directory);
                   EWriteJson (output_file w directory) d 2;
                   EStdout (CreatedMetadataFile (output_file w directory));
                   EStdout (JsonText d 2) ],
              120%Z)
         | RaisesOnWrite =>
             (lookups
              ++ [ EMkdir (output_dir w directory);
                   EWriteJson (output_file w directory) d 2;
                   EStderr (ErrorCreatingMetadata OtherException) ],
              1%Z)
         end
    /\ p = output_file w directory
    /\ indent = 2%N.
Proof.
  intros Hin.
  destruct (script_cases is_decimal_digit argv w)
    as [[args Hparse] | [[_ Hrun] | [_ Hrun]]].
  2:{ rewrite Hrun in Hin. destruct Hin as [H | []]; discriminate. }
  2:{ rewrite Hrun in Hin. apply help_run_events in Hin. discriminate. }
  pose proof (script_write _ _ _ _ _ _ _ Hparse Hin) as Hwrite.
  rewrite (script_parsed _ _ _ _ Hparse).
  destruct (create_metadata_shape w args)
    as (lookups & tail & Htrace & Hlookups & _ & _ & Htail).
  assert (Hnot : ~ In (EWriteJson p d indent) lookups).
  { intros H. apply (lookup_only_no_output _ _ Hlookups) in H. discriminate. }
  rewrite Htrace in Hwrite. apply in_app_iff in Hwrite as [H | Hwrite]; [contradiction|].
  destruct Htail as [[-> _] | (di & ei & _ & _ & Hcreate & ->)]; [destruct Hwrite|].
  apply output_step_write in Hwrite as (directory & Hbt & -> & -> & -> & Hmk & Hop).
  exists args, directory, lookups.
  split; [exact Hparse|]. split; [exact Hbt|]. split; [exact Hlookups|].
  split; [|split; reflexivity].
  rewrite Hcreate, Hbt. unfold output_step, status_after_output. rewrite Hmk, Hop.
  destruct (stdout_stream w); cbn [fst snd]; try reflexivity.
  rewrite <- app_assoc. reflexivity.
Qed.

Lemma record_written_once_and_echoed_witness :
  exists args directory lookups,
    result (Argparse.parse_args ascii_digit sample_argv) (world_of [] []) = Ok args
    /\ build_type args = PyStr directory
    /\ forallb is_lookup_event lookups = true
    /\ script ascii_digit sample_argv (world_of [] [])
       = (lookups
          ++ [ EMkdir (output_dir (world_of [] []) directory);
               EWriteJson (output_file (world_of [] []) directory) sample_record 2;
               EStdout (CreatedMetadataFile (output_file (world_of [] []) directory));
               EStdout (JsonText sample_record 2) ],
          0%Z)
    /\ output_file (world_of [] []) release = output_file (world_of [] []) directory
    /\ 2%N = 2%N.
Proof.
  apply (record_written_once_and_echoed
           ascii_digit sample_argv (world_of [] [])
           (output_file (world_of [] []) release) sample_record 2%N).
  vm_compute. auto 20.
Defined.

(** ** X3 *)

(** X3. The subprocesses of a run are, in this order and each at most
    once, the describe and HEAD queries in duckdb/, the version runs of
    build/<build_type>/duckdb and duckdb.exe, and the tag, HEAD and
    short-hash queries in the working directory: never more than seven,
    no two alike, the git queries without a timeout and the version runs
    with the timeout of 5 seconds.  A run whose command line does not
    parse starts none. *)
Theorem subprocesses_of_a_run
    (is_decimal_digit : codepoint -> bool) (argv : list str) (w : World) :
  (forall args,
      result (Argparse.parse_args is_decimal_digit argv) w = Ok args ->
      subseq (spawned (fst (script is_decimal_digit argv w)))
             (known_requests (getcwd w) (build_type args)))
  /\ ((forall args, result (Argparse.parse_args is_decimal_digit argv) w <> Ok args) ->
      spawned (fst (script is_decimal_digit argv w)) = [])
  /\ NoDup (spawned (fst (script is_decimal_digit argv w)))
  /\ (List.length (spawned (fst (script is_decimal_digit argv w))) <= 7)%nat
  /\ (forall r,
        In (ESpawn r) (fst (script is_decimal_digit argv w)) ->
        (exists dir words, r = git_request dir words /\ timeout r = None)
        \/ (exists binary_path, r = version_request binary_path
                                /\ timeout r = Some 5%Z)).
Proof.
  assert (Hparsed : forall args,
             result (Argparse.parse_args is_decimal_digit argv) w = Ok args ->
             subseq (spawned (fst (script is_decimal_digit argv w)))
                    (known_requests (getcwd w) (build_type args))).
  { intros args Hparse. rewrite (script_parsed _ _ _ _ Hparse).
    destruct (create_metadata_shape w args)
      as (lookups & tail & Htrace & _ & Hsub & Hnone & _).
    unfold trace in Htrace.
    destruct (create_metadata args w) as [t [status|e]]; cbn [fst snd] in *; subst t;
      rewrite ?spawned_app, Hnone, ?app_nil_r; simpl; rewrite ?app_nil_r; exact Hsub. }
  assert (Hhelp : spawned (fst (help_run w)) = []).
  { unfold help_run. destruct (stdout_stream w); reflexivity. }
  assert (Hunparsed :
            (forall args, result (Argparse.parse_args is_decimal_digit argv) w <> Ok args) ->
            spawned (fst (script is_decimal_digit argv w)) = []).
  { intros Hno.
    destruct (script_cases is_decimal_digit argv w)
      as [[args Hparse] | [[_ Hrun] | [_ Hrun]]].
    - destruct (Hno args Hparse).
    - rewrite Hrun. reflexivity.
    - rewrite Hrun. exact Hhelp. }
  assert (Hsub : exists build_type,
             subseq (spawned (fst (script is_decimal_digit argv w)))
                    (known_requests (getcwd w) build_type)).
  { destruct (script_cases is_decimal_digit argv w)
      as [[args Hparse] | [[_ Hrun] | [_ Hrun]]].
    - exists (build_type args). apply Hparsed. exact Hparse.
    - exists PyNone. rewrite Hrun. apply subseq_nil.
    - exists PyNone. rewrite Hrun, Hhelp. apply subseq_nil. }
  destruct Hsub as (bt & Hsub).
  split; [exact Hparsed|]. split; [exact Hunparsed|]. split; [|split].
  - exact (subseq_NoDup _ _ Hsub (known_requests_distinct _ _)).
  - exact (Nat.le_trans _ _ _ (subseq_length _ _ Hsub) (known_requests_length _ _)).
  - intros r Hr. apply spawned_In in Hr. apply (subseq_In _ _ _ Hsub) in Hr.
    destruct (known_requests_kinds _ _ _ Hr) as [(dir & words & ->) | (q & ->)];
      [left; exists dir, words | right; exists q]; split; reflexivity.
Qed.

Lemma subprocesses_of_a_run_witness :
  let w := build_world (Some (Exited 0 version_output)) None in
  subseq (spawned (fst (script ascii_digit sample_argv w)))
         (known_requests (getcwd w) (build_type sample_args))
  /\ spawned (fst (script ascii_digit [lit "--platform"] w)) = [].
Proof.
  intros w. split.
  - apply (proj1 (subprocesses_of_a_run ascii_digit sample_argv w) sample_args).
    reflexivity.
  - apply (proj1 (proj2 (subprocesses_of_a_run ascii_digit [lit "--platform"] w))).
    intros args H. vm_compute in H. discriminate H.
Defined.

(** ** X4 *)

(** X4. Without a duckdb/ directory, or without a .git entry in it,
    [get_duckdb_info] starts no subprocess and does not look at the built
    binaries: it checks only duckdb/ (and duckdb/.git) and returns
    "unknown" three times, whether or not a working binary is there. *)
Theorem missing_repository_skips_the_binary
    (w : World) (repo_root : Path) (build_type : pyval) :
  path_exists w (duckdb_dir repo_root) = Absent
  \/ (path_exists w (duckdb_dir repo_root) = Present
      /\ path_exists w (git_dir repo_root) = Absent) ->
  result (get_duckdb_info repo_root build_type) w = Ok all_unknown
  /\ spawned (trace (get_duckdb_info repo_root build_type) w) = []
  /\ (checked (trace (get_duckdb_info repo_root build_type) w) = [duckdb_dir repo_root]
      \/ checked (trace (get_duckdb_info repo_root build_type) w)
         = [duckdb_dir repo_root; git_dir repo_root]).
Proof.
  intros Hmissing. unfold result, trace. rewrite get_duckdb_info_run.
  destruct Hmissing as [H | [H1 H2]].
  - rewrite H. cbn. auto.
  - rewrite H1, H2. cbn. auto.
Qed.

Lemma missing_repository_skips_the_binary_witness :
  (exists tok, probe_success binary_only_world (first_binary [] release) tok)
  /\ result (get_duckdb_info [] (PyStr release)) binary_only_world = Ok all_unknown
  /\ spawned (trace (get_duckdb_info [] (PyStr release)) binary_only_world) = [].
Proof.
  split.
  - exists (lit "v1.4.1"). split; [reflexivity|].
    exists version_output. split; reflexivity.
  - destruct (missing_repository_skips_the_binary binary_only_world [] (PyStr release))
      as (Hres & Hspawned & _); [left; reflexivity|].
    split; [exact Hres | exact Hspawned].
Defined.

(** ** X5 *)

(** X5. The lookups write to standard error only the one warning about a
    missing duckdb/ directory or a missing duckdb/.git: a git query or a
    probe of a binary that fails is passed over in silence, and
    [get_extension_info] never writes to standard error. *)
Theorem lookups_warn_only_about_the_repository
    (w : World) (repo_root : Path) (build_type : pyval) :
  stderr_of (trace (get_duckdb_info repo_root build_type) w)
  = repository_warning w repo_root
  /\ stderr_of (trace (get_extension_info repo_root) w) = [].
Proof.
  split.
  - unfold trace, repository_warning.
    run_duckdb_info w repo_root build_type; reflexivity.
  - unfold trace. rewrite get_extension_info_run.
    destruct (git_value (run_process w (tag_request repo_root)));
      [destruct (git_value (run_process w (head_request repo_root)))|]; reflexivity.
Qed.

(** ** X6 *)

(** X6. The three dependency fields degrade one by one: with duckdb/ and
    its .git present, when both git queries fail (a non-zero exit status
    or no git executable) and the first binary answers, [get_duckdb_info]
    returns "unknown" for duckdb_git_describe and duckdb_commit and the
    binary's first token for duckdb_version. *)
Theorem binary_version_survives_git_failure
    (w : World) (repo_root : Path) (build_type : str) (tok : str) :
  path_exists w (duckdb_dir repo_root) = Present ->
  path_exists w (git_dir repo_root) = Present ->
  command_failure (run_process w (describe_request repo_root)) ->
  command_failure (run_process w (head_request (duckdb_dir repo_root))) ->
  probe_success w (first_binary repo_root build_type) tok ->
  result (get_duckdb_info repo_root (PyStr build_type)) w
  = Ok {| DuckdbInfo.git_describe := unknown;
          DuckdbInfo.version := tok;
          DuckdbInfo.commit := unknown |}.
Proof.
  intros Hdir Hgit Hdescribe Hhead (Hfirst & out & Hrun & Htok).
  apply git_value_failure in Hdescribe. apply git_value_failure in Hhead.
  assert (Hprobe : probe_value (run_process w
                     (version_request (first_binary repo_root build_type)))
                   = Ok (Some tok)).
  { apply probe_value_found. exists out. auto. }
  unfold result. rewrite get_duckdb_info_run, Hdir, Hgit. cbn [check_value]. cbv zeta.
  rewrite Hdescribe, Hhead.
  change (binary_paths repo_root build_type)
    with [first_binary repo_root build_type; second_binary repo_root build_type].
  rewrite probe_binaries_two, probe_binary_run, Hfirst. cbn [check_value].
  rewrite Hprobe. reflexivity.
Qed.

Lemma binary_version_survives_git_failure_witness :
  result (get_duckdb_info [] (PyStr release)) gitless_world
  = Ok {| DuckdbInfo.git_describe := unknown;
          DuckdbInfo.version := lit "v1.4.1";
          DuckdbInfo.commit := unknown |}.
Proof.
  apply (binary_version_survives_git_failure gitless_world [] release (lit "v1.4.1")).
  - reflexivity.
  - reflexivity.
  - right. reflexivity.
  - right. reflexivity.
  - split; [reflexivity|]. exists version_output. split; reflexivity.
Defined.

(** ** X7 *)

(** X7. When a lookup raises, the run stops there: it has only checked
    paths, started subprocesses and warned, it creates no directory,
    writes no file and prints nothing on standard output, reports the
    exception on standard error as "Error creating metadata" and ends
    with exit status 1.  (Standard error is taken to accept every
    message.) *)
Theorem failed_lookup_creates_nothing
    (is_decimal_digit : codepoint -> bool) (argv : list str) (w : World)
    (args : Namespace) (e : exn) :
  result (Argparse.parse_args is_decimal_digit argv) w = Ok args ->
  lookup_raises w args e ->
  exists lookups,
    script is_decimal_digit argv w
    = (lookups ++ [EStderr (ErrorCreatingMetadata e)], 1%Z)
    /\ forallb is_lookup_event lookups = true.
Proof.
  intros Hparse Hraises. rewrite (script_parsed _ _ _ _ Hparse).
  rewrite create_metadata_run.
  pose proof (get_duckdb_info_lookup_only w (getcwd w) (build_type args)) as L1.
  pose proof (get_extension_info_lookup_only w (getcwd w)) as L2.
  unfold lookup_raises, result, trace in *.
  destruct (get_duckdb_info (getcwd w) (build_type args) w) as [t1 [di|e1]];
    cbn [fst snd] in *.
  - destruct Hraises as [H | [_ H]]; [discriminate|].
    destruct (get_extension_info (getcwd w) w) as [t2 [ei|e2]]; cbn [fst snd] in *;
      [discriminate|].
    inversion H; subst. exists (t1 ++ t2). split; [reflexivity|].
    apply lookup_only_app; assumption.
  - destruct Hraises as [H | [(di & H) _]]; [|discriminate].
    inversion H; subst. exists t1. auto.
Qed.

Lemma failed_lookup_creates_nothing_witness :
  exists lookups,
    script ascii_digit sample_argv forbidden_git_world
    = (lookups ++ [EStderr (ErrorCreatingMetadata PermissionError)], 1%Z)
    /\ forallb is_lookup_event lookups = true.
Proof.
  apply (failed_lookup_creates_nothing
           ascii_digit sample_argv forbidden_git_world sample_args PermissionError).
  - reflexivity.
  - right. split; [eexists; reflexivity | reflexivity].
Defined.

(** ** X8 *)

(** X8. [run_git_command] starts the command once, whatever happens, and
    raises exactly when the subprocess could not be run for a reason
    other than a missing file (no permission, or any other error): it
    then raises that exception unchanged.  In every other case it returns
    a string. *)
Theorem run_git_command_raises_what_it_does_not_catch
    (w : World) (cwd : Path) (command : list arg) :
  let req := {| command := command; cwd := Some cwd; timeout := None |} in
  trace (run_git_command cwd command) w = [ESpawn req]
  /\ (forall e,
        result (run_git_command cwd command) w = Raise e
        <-> exists f, run_process w req = Failed f
                      /\ f <> NoSuchFile
                      /\ e = exn_of_failure f)
  /\ ((forall f, run_process w req = Failed f -> f = NoSuchFile) ->
      exists value, result (run_git_command cwd command) w = Ok value).
Proof.
  intros req. unfold trace, result. rewrite run_git_command_run. fold req.
  cbn [fst snd]. split; [reflexivity|]. split.
  - intros e. destruct (run_process w req) as [rc out | f]; simpl.
    + split; [destruct (rc =? 0)%Z; discriminate | intros (f & H & _); discriminate].
    + split.
      * destruct f; intros H; inversion H; eexists; repeat split; discriminate.
      * intros (f' & H & Hf & ->). inversion H; subst f'.
        destruct f; [contradiction | reflexivity | reflexivity | reflexivity].
  - intros Honly. destruct (run_process w req) as [rc out | f]; simpl.
    + destruct (rc =? 0)%Z; eexists; reflexivity.
    + rewrite (Honly f eq_refl). eexists; reflexivity.
Qed.

Lemma run_git_command_raises_what_it_does_not_catch_witness :
  result (run_git_command [] (git ["tag"; "--points-at"; "HEAD"]%string))
         forbidden_git_world = Raise PermissionError
  /\ exists value,
       result (run_git_command [] (git ["tag"; "--points-at"; "HEAD"]%string))
              (world_of [] []) = Ok value.
Proof.
  split.
  - apply (proj1 (proj2 (run_git_command_raises_what_it_does_not_catch
                           forbidden_git_world []
                           (git ["tag"; "--points-at"; "HEAD"]%string)))).
    exists NotPermitted. repeat split. discriminate.
  - apply (proj2 (proj2 (run_git_command_raises_what_it_does_not_catch
                           (world_of [] []) []
                           (git ["tag"; "--points-at"; "HEAD"]%string)))).
    intros f H. inversion H. reflexivity.
Defined.

(** ** X9 *)

(** X9. The probe catches three exceptions and no other: when running the
    first binary fails in another way (for example a file that is not an
    executable), [get_duckdb_info] raises, although both git queries
    answered, and the second binary is not looked at. *)
Theorem unexpected_probe_error_aborts_lookup
    (w : World) (repo_root : Path) (build_type : str) (git_describe commit : str) :
  path_exists w (duckdb_dir repo_root) = Present ->
  path_exists w (git_dir repo_root) = Present ->
  git_value (run_process w (describe_request repo_root)) = Ok git_describe ->
  git_value (run_process w (head_request (duckdb_dir repo_root))) = Ok commit ->
  path_exists w (first_binary repo_root build_type) = Present ->
  run_process w (version_request (first_binary repo_root build_type))
  = Failed OtherFailure ->
  result (get_duckdb_info repo_root (PyStr build_type)) w = Raise OtherException
  /\ spawned (trace (get_duckdb_info repo_root (PyStr build_type)) w)
     = [ describe_request repo_root;
         head_request (duckdb_dir repo_root);
         version_request (first_binary repo_root build_type) ]
  /\ checked (trace (get_duckdb_info repo_root (PyStr build_type)) w)
     = [ duckdb_dir repo_root; git_dir repo_root; first_binary repo_root build_type ].
Proof.
  intros Hdir Hgit Hdescribe Hhead Hfirst Hrun.
  unfold result, trace. rewrite get_duckdb_info_run, Hdir, Hgit.
  cbn [check_value]. cbv zeta.
  rewrite Hdescribe, Hhead.
  change (binary_paths repo_root build_type)
    with [first_binary repo_root build_type; second_binary repo_root build_type].
  rewrite probe_binaries_two, probe_binary_run, Hfirst. cbn [check_value].
  rewrite Hrun. cbn. auto.
Qed.

Lemma unexpected_probe_error_aborts_lookup_witness :
  let w := build_world (Some (Failed OtherFailure)) (Some (Exited 0 version_output)) in
  (exists tok, probe_success w (second_binary [] release) tok)
  /\ result (get_duckdb_info [] (PyStr release)) w = Raise OtherException.
Proof.
  intros w. split.
  - exists (lit "v1.4.1"). split; [reflexivity|].
    exists version_output. split; reflexivity.
  - apply (unexpected_probe_error_aborts_lookup
             w [] release (lit "v1.4.1-0-gb390a7c376")
             (lit "b390a7c3760bd95926fe8aefde20d04b349b472e"));
      reflexivity.
Defined.

(** ** X10 *)

(** X10. When none of its three queries raises, [get_extension_info]
    returns the value of the HEAD query as the commit, and as the version
    the whole stripped output of the tag query (all the tags, when there
    are several) if that is neither empty nor the word "unknown", and the
    value of the short-hash query otherwise; so a tag called "unknown" is
    never the version. *)
Theorem tag_at_head_is_the_version
    (w : World) (repo_root : Path) (tag commit short_commit : str) :
  git_value (run_process w (tag_request repo_root)) = Ok tag ->
  git_value (run_process w (head_request repo_root)) = Ok commit ->
  git_value (run_process w (short_request repo_root)) = Ok short_commit ->
  exists info,
    result (get_extension_info repo_root) w = Ok info
    /\ ExtensionInfo.commit info = commit
    /\ (tag <> [] -> tag <> unknown -> ExtensionInfo.version info = tag)
    /\ (tag = [] \/ tag = unknown -> ExtensionInfo.version info = short_commit).
Proof.
  intros Htag Hhead Hshort. eexists.
  split; [apply (get_extension_info_returns w repo_root _ _ _ Htag Hhead Hshort)|].
  cbn [ExtensionInfo.version ExtensionInfo.commit].
  split; [reflexivity|]. split.
  - apply extension_version_tagged.
  - apply extension_version_fallback.
Qed.

Lemma tag_at_head_is_the_version_witness :
  let w := repo_world (Exited 0 (two_tags ++ [10%N])) (Exited 0 (lit "4f1d2c9" ++ [10%N])) in
  exists info,
    result (get_extension_info []) w = Ok info
    /\ ExtensionInfo.version info = two_tags.
Proof.
  intros w.
  destruct (tag_at_head_is_the_version
              w [] two_tags (lit "4f1d2c9a8b7e6f5a4d3c2b1a0f9e8d7c6b5a4f3e")
              (lit "4f1d2c9") eq_refl eq_refl eq_refl)
    as (info & Hres & _ & Htagged & _).
  exists info. split; [exact Hres|].
  apply Htagged; discriminate.
Defined.

(** ** From the command line to the record *)

Lemma plain_not_dashes (v : str) : plain v = true -> str_eqb v (lit "--") = false.
Proof.
  destruct v as [|c v]; [reflexivity|]. simpl.
  intros H. apply negb_true_iff in H.
  change (chr "-") with 45%N in H. rewrite H. reflexivity.
Qed.

Lemma plain_positional (is_decimal_digit : codepoint -> bool) (v : str) :
  plain v = true ->
  Argparse.parse_optional is_decimal_digit v = Argparse.Positional.
Proof.
  destruct v as [|c v]; [reflexivity|]. simpl. intros ->. reflexivity.
Qed.

Lemma plain_get_values (v : str) : plain v = true -> Argparse.get_values v = PyStr v.
Proof.
  intros H. unfold Argparse.get_values. rewrite (plain_not_dashes v H). reflexivity.
Qed.

Lemma pattern_of_pair (is_decimal_digit : codepoint -> bool)
    (option_string : str) (a : Argparse.option_id) (v : str) (rest : list str) :
  Argparse.parse_optional is_decimal_digit option_string
  = Argparse.Optional (Some a) option_string None ->
  str_eqb option_string (lit "--") = false ->
  plain v = true ->
  Argparse.arg_strings_pattern is_decimal_digit (option_string :: v :: rest)
  = option_map (fun pattern => Argparse.PO (Some a) option_string None
                               :: Argparse.PA :: pattern)
               (Argparse.arg_strings_pattern is_decimal_digit rest).
Proof.
  intros Hos Hdash Hplain.
  cbn [Argparse.arg_strings_pattern].
  rewrite Hdash, Hos, (plain_not_dashes v Hplain), (plain_positional _ v Hplain).
  destruct (Argparse.arg_strings_pattern is_decimal_digit rest); reflexivity.
Qed.

Lemma command_line_parses (is_decimal_digit : codepoint -> bool) (w : World)
    (args : Namespace) :
  plain_values args = true ->
  Argparse.parse_args is_decimal_digit (command_line args) w = ([], Ok args).
Proof.
  unfold plain_values. rewrite !andb_true_iff.
  intros [[[[Hname Htype] Hplat] Hci] Hwf].
  destruct args as [name type plat ci wf]. cbn [extension_name build_type platform
    ci_tools_version workflow_run_id] in *.
  destruct name as [|name|]; try discriminate Hname.
  destruct type as [|type|]; try discriminate Htype.
  destruct plat as [|plat|]; try discriminate Hplat.
  cbn [plain_required] in *.
  unfold Argparse.parse_args, command_line.
  cbn [extension_name build_type platform ci_tools_version workflow_run_id
       option_pair app].
  rewrite (pattern_of_pair is_decimal_digit (lit "--extension-name")
             Argparse.ExtensionName name _ eq_refl eq_refl Hname).
  rewrite (pattern_of_pair is_decimal_digit (lit "--build-type")
             Argparse.BuildType type _ eq_refl eq_refl Htype).
  rewrite (pattern_of_pair is_decimal_digit (lit "--platform")
             Argparse.Platform plat _ eq_refl eq_refl Hplat).
  destruct ci as [|ci|]; try discriminate Hci;
    destruct wf as [|wf|]; try discriminate Hwf;
    cbn [option_pair app plain_optional] in *;
    rewrite ?(pattern_of_pair is_decimal_digit (lit "--ci-tools-version")
                Argparse.CiToolsVersion ci _ eq_refl eq_refl Hci);
    rewrite ?(pattern_of_pair is_decimal_digit (lit "--workflow-run-id")
                Argparse.WorkflowRunId wf _ eq_refl eq_refl Hwf);
    cbn [Argparse.arg_strings_pattern option_map combine Argparse.consume
         Argparse.takes_argument];
    rewrite ?plain_get_values by assumption;
    reflexivity.
Qed.

(** ** X11 *)

(** X11. A command line that gives each option followed by its value,
    none of the values starting with a dash, parses to exactly these
    values, the optional ones left out being [None]; and every record
    such a run writes carries them unchanged: extension_name, build_type
    and platform as given, ci_tools_version and workflow_run_id as given
    or the empty string when left out, in the file
    build/<build_type>/metadata.json. *)
Theorem command_line_reaches_the_record
    (is_decimal_digit : codepoint -> bool) (w : World) (args : Namespace) :
  plain_values args = true ->
  result (Argparse.parse_args is_decimal_digit (command_line args)) w = Ok args
  /\ (exists name directory plat,
        extension_name args = PyStr name
        /\ build_type args = PyStr directory
        /\ platform args = PyStr plat
        /\ forall p d indent,
             In (EWriteJson p d indent)
                (fst (script is_decimal_digit (command_line args) w)) ->
             carries_arguments args d
             /\ dict_get (lit "extension_name") d = Some (PyStr name)
             /\ dict_get (lit "build_type") d = Some (PyStr directory)
             /\ dict_get (lit "platform") d = Some (PyStr plat)
             /\ p = getcwd w // lit "build" // directory // lit "metadata.json").
Proof.
  intros Hplain.
  assert (Hparse : result (Argparse.parse_args is_decimal_digit (command_line args)) w
                   = Ok args).
  { unfold result. rewrite (command_line_parses _ _ _ Hplain). reflexivity. }
  split; [exact Hparse|].
  unfold plain_values in Hplain. rewrite !andb_true_iff in Hplain.
  destruct Hplain as [[[[Hname Htype] Hplat] _] _].
  destruct (extension_name args) as [|name|] eqn:Ename; try discriminate Hname.
  destruct (build_type args) as [|directory|] eqn:Etype; try discriminate Htype.
  destruct (platform args) as [|plat|] eqn:Eplat; try discriminate Hplat.
  exists name, directory, plat. repeat (split; [reflexivity|]).
  intros p d n Hin.
  apply (script_write _ _ _ _ _ _ _ Hparse) in Hin.
  apply create_metadata_write in Hin as (di & ei & directory' & _ & _ & Hbt & -> & -> & _).
  rewrite Etype in Hbt. inversion Hbt; subst directory'.
  pose proof (metadata_dict_arguments args ei di (utcnow w)) as Hcarries.
  split; [exact Hcarries|].
  destruct Hcarries as (H1 & H2 & H3 & _).
  rewrite H1, H2, H3, Ename, Etype, Eplat. repeat split; reflexivity.
Qed.

Lemma command_line_reaches_the_record_witness :
  result (Argparse.parse_args ascii_digit (command_line full_args)) (world_of [] [])
  = Ok full_args
  /\ (exists name directory plat,
        extension_name full_args = PyStr name
        /\ build_type full_args = PyStr directory
        /\ platform full_args = PyStr plat
        /\ forall p d indent,
             In (EWriteJson p d indent)
                (fst (script ascii_digit (command_line full_args) (world_of [] []))) ->
             carries_arguments full_args d
             /\ dict_get (lit "extension_name") d = Some (PyStr name)
             /\ dict_get (lit "build_type") d = Some (PyStr directory)
             /\ dict_get (lit "platform") d = Some (PyStr plat)
             /\ p = getcwd (world_of [] []) // lit "build" // directory
                    // lit "metadata.json").
Proof.
  apply (command_line_reaches_the_record ascii_digit (world_of [] []) full_args).
  reflexivity.
Defined.

(** ** Values of the lookups *)

Lemma git_value_trimmed (outcome : completion) (v : str) :
  git_value outcome = Ok v -> no_outer_space v.
Proof.
  destruct outcome as [rc out | f]; simpl.
  - destruct (rc =? 0)%Z; intros H; inversion H; subst.
    + apply strip_spec.
    + split; reflexivity.
  - destruct f; intros H; inversion H; subst. split; reflexivity.
Qed.

Lemma probe_value_token (outcome : completion) (tok : str) :
  probe_value outcome = Ok (Some tok) -> tok <> [] /\ no_space tok.
Proof.
  intros H. apply probe_value_found in H as (out & _ & Htok).
  exact (first_token out tok Htok).
Qed.

Lemma get_duckdb_info_sources (w : World) (repo_root : Path) (build_type : str)
    (info : DuckdbInfo.t) :
  result (get_duckdb_info repo_root (PyStr build_type)) w = Ok info ->
  (info = all_unknown
   /\ (path_exists w (duckdb_dir repo_root) = Absent
       \/ (path_exists w (duckdb_dir repo_root) = Present
           /\ path_exists w (git_dir repo_root) = Absent)))
  \/ (git_value (run_process w (describe_request repo_root))
      = Ok (DuckdbInfo.git_describe info)
      /\ git_value (run_process w (head_request (duckdb_dir repo_root)))
         = Ok (DuckdbInfo.commit info)
      /\ result (probe_binaries (binary_paths repo_root build_type) unknown) w
         = Ok (DuckdbInfo.version info)).
Proof.
  unfold result. run_duckdb_queries w repo_root; cbn [snd]; try discriminate;
    try solve [intros H; inversion H; left; auto].
  destruct (probe_binaries (binary_paths repo_root build_type) unknown w) as [t [v|e3]];
    cbn [fst snd]; [|discriminate].
  intros H; inversion H; subst. right. auto.
Qed.

Lemma get_extension_info_sources (w : World) (repo_root : Path)
    (info : ExtensionInfo.t) :
  result (get_extension_info repo_root) w = Ok info ->
  exists tag short_commit,
    git_value (run_process w (tag_request repo_root)) = Ok tag
    /\ git_value (run_process w (head_request repo_root)) = Ok (ExtensionInfo.commit info)
    /\ git_value (run_process w (short_request repo_root)) = Ok short_commit
    /\ ExtensionInfo.version info = extension_version tag short_commit.
Proof.
  unfold result. rewrite get_extension_info_run.
  destruct (git_value (run_process w (tag_request repo_root))) as [tag|e1];
    [|discriminate].
  destruct (git_value (run_process w (head_request repo_root))) as [c|e2];
    [|discriminate].
  cbn [snd].
  destruct (git_value (run_process w (short_request repo_root))) as [s|e3];
    [|discriminate].
  intros H; inversion H; subst. exists tag, s. auto.
Qed.

Lemma probe_binaries_value (w : World) (paths : list Path) (v : str) :
  result (probe_binaries paths unknown) w = Ok v ->
  v = unknown \/ (v <> [] /\ no_space v).
Proof.
  unfold result. induction paths as [|p rest IH]; [intros H; inversion H; auto|].
  rewrite probe_binaries_cons, probe_binary_run.
  destruct (path_exists w p); cbn [check_value]; try discriminate.
  - destruct (probe_value (run_process w (version_request p))) as [[tok|]|e] eqn:E;
      cbn [fst snd].
    + intros H; inversion H; subst. right. exact (probe_value_token _ _ E).
    + destruct (probe_binaries rest unknown w) as [t r]; cbn [fst snd] in *. exact IH.
    + discriminate.
  - destruct (probe_binaries rest unknown w) as [t r]; cbn [fst snd] in *. exact IH.
Qed.

(** ** X12 *)

(** X12. Each looked-up field of a written record comes from its own
    query: extension_commit is the value of [git rev-parse HEAD] in the
    working directory and extension_version the choice between the values
    of the tag and short-hash queries there; unless the dependency
    repository is absent (then the three are "unknown"),
    duckdb_git_describe and duckdb_commit are the values of the describe
    and HEAD queries in duckdb/, and duckdb_version is what the probe loop
    gives. *)
Theorem record_fields_come_from_their_lookups
    (is_decimal_digit : codepoint -> bool) (argv : list str) (w : World)
    (args : Namespace) (p : Path) (d : dict) (indent : N) :
  result (Argparse.parse_args is_decimal_digit argv) w = Ok args ->
  In (EWriteJson p d indent) (fst (script is_decimal_digit argv w)) ->
  exists duckdb_info extension_info tag short_commit directory,
    fed_by_lookups w duckdb_info extension_info d
    /\ build_type args = PyStr directory
    /\ git_value (run_process w (tag_request (getcwd w))) = Ok tag
    /\ git_value (run_process w (short_request (getcwd w))) = Ok short_commit
    /\ ExtensionInfo.version extension_info = extension_version tag short_commit
    /\ git_value (run_process w (head_request (getcwd w)))
       = Ok (ExtensionInfo.commit extension_info)
    /\ ((duckdb_info = all_unknown /\ no_dependency_repository w)
        \/ (git_value (run_process w (describe_request (getcwd w)))
            = Ok (DuckdbInfo.git_describe duckdb_info)
            /\ git_value (run_process w (head_request (duckdb_dir (getcwd w))))
               = Ok (DuckdbInfo.commit duckdb_info)
            /\ result (probe_binaries (binary_paths (getcwd w) directory) unknown) w
               = Ok (DuckdbInfo.version duckdb_info))).
Proof.
  intros Hparse Hin.
  apply (script_write _ _ _ _ _ _ _ Hparse) in Hin.
  apply create_metadata_write in Hin as (di & ei & directory & Hdi & Hei & Hbt & _ & -> & _).
  destruct (get_extension_info_sources w (getcwd w) ei Hei)
    as (tag & short & Htag & Hhead & Hshort & Hversion).
  exists di, ei, tag, short, directory.
  split; [repeat split; reflexivity|].
  repeat (split; [assumption|]).
  rewrite Hbt in Hdi.
  exact (get_duckdb_info_sources w (getcwd w) directory di Hdi).
Qed.

Lemma record_fields_come_from_their_lookups_witness :
  let w := world_of [] [] in
  exists duckdb_info extension_info tag short_commit directory,
    fed_by_lookups w duckdb_info extension_info sample_record
    /\ build_type sample_args = PyStr directory
    /\ git_value (run_process w (tag_request (getcwd w))) = Ok tag
    /\ git_value (run_process w (short_request (getcwd w))) = Ok short_commit
    /\ ExtensionInfo.version extension_info = extension_version tag short_commit
    /\ git_value (run_process w (head_request (getcwd w)))
       = Ok (ExtensionInfo.commit extension_info)
    /\ ((duckdb_info = all_unknown /\ no_dependency_repository w)
        \/ (git_value (run_process w (describe_request (getcwd w)))
            = Ok (DuckdbInfo.git_describe duckdb_info)
            /\ git_value (run_process w (head_request (duckdb_dir (getcwd w))))
               = Ok (DuckdbInfo.commit duckdb_info)
            /\ result (probe_binaries (binary_paths (getcwd w) directory) unknown) w
               = Ok (DuckdbInfo.version duckdb_info))).
Proof.
  intros w.
  apply (record_fields_come_from_their_lookups
           ascii_digit sample_argv w sample_args
           (output_file w release) sample_record 2%N eq_refl).
  vm_compute. auto 20.
Defined.

(** ** X13 *)

(** X13. What the lookups return is trimmed: duckdb_version is never
    empty and has no whitespace at all (it is "unknown" or a token), and
    duckdb_git_describe, duckdb_commit, extension_version and
    extension_commit have no whitespace at either end. *)
Theorem lookup_values_are_trimmed
    (w : World) (repo_root : Path) (build_type : str) :
  (forall info,
      result (get_duckdb_info repo_root (PyStr build_type)) w = Ok info ->
      DuckdbInfo.version info <> []
      /\ no_space (DuckdbInfo.version info)
      /\ no_outer_space (DuckdbInfo.git_describe info)
      /\ no_outer_space (DuckdbInfo.commit info))
  /\ (forall info,
        result (get_extension_info repo_root) w = Ok info ->
        no_outer_space (ExtensionInfo.version info)
        /\ no_outer_space (ExtensionInfo.commit info)).
Proof.
  split.
  - intros info Hres.
    destruct (get_duckdb_info_sources w repo_root build_type info Hres)
      as [[-> _] | (Hdescribe & Hhead & Hloop)].
    + repeat split; discriminate.
    + apply git_value_trimmed in Hdescribe. apply git_value_trimmed in Hhead.
      destruct (probe_binaries_value w _ _ Hloop) as [-> | [Hne Hns]].
      * repeat split; try discriminate; try apply Hdescribe; apply Hhead.
      * repeat split; try assumption; try apply Hdescribe; apply Hhead.
  - intros info Hres.
    destruct (get_extension_info_sources w repo_root info Hres)
      as (tag & short & Htag & Hhead & Hshort & ->).
    apply git_value_trimmed in Htag. apply git_value_trimmed in Hhead.
    apply git_value_trimmed in Hshort.
    split; [|exact Hhead].
    unfold extension_version.
    destruct (truthy tag && negb (str_eqb tag unknown)); assumption.
Qed.

Lemma lookup_values_are_trimmed_witness :
  let w := build_world (Some (Exited 0 version_output)) None in
  exists info,
    result (get_duckdb_info [] (PyStr release)) w = Ok info
    /\ DuckdbInfo.version info = lit "v1.4.1"
    /\ DuckdbInfo.version info <> []
    /\ no_space (DuckdbInfo.version info)
    /\ no_outer_space (DuckdbInfo.git_describe info)
    /\ no_outer_space (DuckdbInfo.commit info).
Proof.
  intros w. eexists. split; [vm_compute; reflexivity|]. split; [reflexivity|].
  apply (proj1 (lookup_values_are_trimmed w [] release)).
  vm_compute. reflexivity.
Defined.

(** ** X14 *)

(** X14. When both lookups have returned and the output directory cannot
    be created, or can be but the file cannot be opened, the run has made
    all its lookups and the attempt to create the directory, writes no
    file, prints nothing on standard output, reports the exception on
    standard error and ends with exit status 1.  (Standard error is
    taken to accept every message.) *)
Theorem output_failure_ends_the_run
    (is_decimal_digit : codepoint -> bool) (argv : list str) (w : World)
    (args : Namespace) (duckdb_info : DuckdbInfo.t) (extension_info : ExtensionInfo.t)
    (directory : str) (f : io_failure) :
  result (Argparse.parse_args is_decimal_digit argv) w = Ok args ->
  result (get_duckdb_info (getcwd w) (build_type args)) w = Ok duckdb_info ->
  result (get_extension_info (getcwd w)) w = Ok extension_info ->
  build_type args = PyStr directory ->
  mkdir_failure w (output_dir w directory) = Some f
  \/ (mkdir_failure w (output_dir w directory) = None
      /\ open_failure w (output_file w directory) = Some f) ->
  script is_decimal_digit argv w
  = (trace (get_duckdb_info (getcwd w) (build_type args)) w
     ++ trace (get_extension_info (getcwd w)) w
     ++ [ EMkdir (output_dir w directory);
          EStderr (ErrorCreatingMetadata (exn_of_io_failure f)) ],
     1%Z).
Proof.
  intros Hparse Hdi Hei Hbt Hfail. rewrite (script_parsed _ _ _ _ Hparse).
  rewrite create_metadata_run. unfold result, trace in *.
  destruct (get_duckdb_info (getcwd w) (build_type args) w) as [t1 r1];
    cbn [fst snd] in *; subst r1.
  destruct (get_extension_info (getcwd w) w) as [t2 r2]; cbn [fst snd] in *; subst r2.
  cbv zeta. rewrite Hbt. unfold output_step.
  destruct Hfail as [Hmk | [Hmk Hop]]; rewrite Hmk; [|rewrite Hop];
    cbn [fst snd]; rewrite <- !app_assoc; reflexivity.
Qed.

Lemma output_failure_ends_the_run_witness :
  snd (script ascii_digit sample_argv unwritable_world) = 1%Z
  /\ (forall e, In e (fst (script ascii_digit sample_argv unwritable_world)) ->
                is_write e = false)
  /\ In (EMkdir (output_dir unwritable_world release))
        (fst (script ascii_digit sample_argv unwritable_world)).
Proof.
  rewrite (output_failure_ends_the_run
             ascii_digit sample_argv unwritable_world sample_args
             all_unknown
             {| ExtensionInfo.version := unknown; ExtensionInfo.commit := unknown |}
             release IoNotPermitted eq_refl eq_refl eq_refl eq_refl
             (or_intror (conj eq_refl eq_refl))).
  split; [reflexivity|]. split.
  - intros e He. vm_compute in He.
    repeat destruct He as [<- | He]; try reflexivity. destruct He.
  - vm_compute. auto 20.
Defined.

(** ** X15 *)

(** X15. A build type given as [--build-type=--] reaches the script as
    the empty list: no path can be formed from it, so the run creates no
    directory and writes no file, reports the exception on standard
    error and ends with exit status 1, whatever the lookups found.
    (Standard error is taken to accept every message.) *)
Theorem build_type_that_is_no_string_ends_the_run
    (is_decimal_digit : codepoint -> bool) (argv : list str) (w : World)
    (args : Namespace) :
  result (Argparse.parse_args is_decimal_digit argv) w = Ok args ->
  (forall directory, build_type args <> PyStr directory) ->
  (exists e lookups,
      result (create_metadata args) w = Raise e
      /\ forallb is_lookup_event lookups = true
      /\ script is_decimal_digit argv w
         = (lookups ++ [EStderr (ErrorCreatingMetadata e)], 1%Z))
  /\ (forall duckdb_info extension_info,
        result (get_duckdb_info (getcwd w) (build_type args)) w = Ok duckdb_info ->
        result (get_extension_info (getcwd w)) w = Ok extension_info ->
        result (create_metadata args) w = Raise TypeError).
Proof.
  intros Hparse Hbt.
  assert (Hstep : forall metadata,
             output_step w (build_type args) metadata = ([], Raise TypeError)).
  { intros metadata. unfold output_step.
    destruct (build_type args) as [|directory|]; try reflexivity.
    destruct (Hbt directory eq_refl). }
  split.
  - rewrite (script_parsed _ _ _ _ Hparse).
    destruct (create_metadata_shape w args)
      as (lookups & tail & Htrace & Hlookups & _ & _ & Htail).
    unfold trace, result in *.
    destruct Htail as [[-> [e He]] | (di & ei & _ & _ & Hcreate & ->)].
    + destruct (create_metadata args w) as [t r]; cbn [fst snd] in *. subst r t.
      exists e, lookups. rewrite app_nil_r. auto.
    + rewrite Hcreate, Hstep. cbn [fst snd]. exists TypeError, lookups.
      rewrite app_nil_r. auto.
  - intros di ei Hdi Hei. unfold result in *. rewrite create_metadata_run.
    destruct (get_duckdb_info (getcwd w) (build_type args) w) as [t1 r1];
      cbn [snd] in Hdi; subst r1.
    destruct (get_extension_info (getcwd w) w) as [t2 r2]; cbn [snd] in Hei; subst r2.
    cbv zeta. rewrite Hstep. reflexivity.
Qed.

Lemma build_type_that_is_no_string_ends_the_run_witness :
  let argv := map lit [ "--extension-name"; "sqlglot"; "--build-type=--";
                        "--platform"; "linux_amd64" ]%string in
  let args := {| extension_name := PyStr (lit "sqlglot");
                 build_type := PyEmptyList;
                 platform := PyStr (lit "linux_amd64");
                 ci_tools_version := PyNone;
                 workflow_run_id := PyNone |} in
  result (Argparse.parse_args ascii_digit argv) (world_of [] []) = Ok args
  /\ result (create_metadata args) (world_of [] []) = Raise TypeError
  /\ exists lookups,
       script ascii_digit argv (world_of [] [])
       = (lookups ++ [EStderr (ErrorCreatingMetadata TypeError)], 1%Z).
Proof.
  intros argv args.
  destruct (build_type_that_is_no_string_ends_the_run
              ascii_digit argv (world_of [] []) args
              eq_refl ltac:(intros directory; discriminate))
    as ((e & lookups & Hraise & _ & Hrun) & Htype).
  pose proof (Htype all_unknown
                {| ExtensionInfo.version := unknown; ExtensionInfo.commit := unknown |}
                eq_refl eq_refl) as Hresult.
  split; [reflexivity|]. split; [exact Hresult|].
  rewrite Hresult in Hraise. inversion Hraise; subst e.
  exists lookups. exact Hrun.
Defined.
